(** * Nanette: contract-risk scoring pipeline, shallow embedding.

    Embeds the parts of [src/analyzers/contract_analyzer] that compute the
    safety score ([safety_scorer.py]), the tokenomics sub-score
    ([tokenomics_analyzer.py]), the unverified-contract path of
    [evm_analyzer.py], the deployer trace ([creator_analyzer.py]) and the
    interaction graph ([interaction_analyzer.py]).

    Conventions.  Python [int]s are [Z].  A [dict] produced by the code with a
    fixed set of keys is a record; a key the code reads with [.get(k)] but
    that its producer may omit is an [option].  Strings are [String.string].
    Python [float]s are IEEE 754 binary64 numbers, modelled with the
    Standard Library's [SpecFloat] (round to nearest, ties to even), and
    printed as CPython's [repr] prints them. *)

From Stdlib Require Import ZArith List String Ascii Bool Lia Permutation Sorted.
From Stdlib Require SpecFloat.
Import ListNotations.
Open Scope string_scope.
Open Scope Z_scope.

(** ** Python string helpers *)
Module Py.

(** [str.lower] on ASCII text. *)
Definition lower_char (c : ascii) : ascii :=
  let n := nat_of_ascii c in
  if ((65 <=? n) && (n <=? 90))%nat then ascii_of_nat (n + 32) else c.

Fixpoint lower (s : string) : string :=
  match s with
  | EmptyString => EmptyString
  | String c s' => String (lower_char c) (lower s')
  end.

(** [sub in s]. *)
Fixpoint contains (sub s : string) : bool :=
  if String.prefix sub s then true
  else match s with
       | EmptyString => false
       | String _ s' => contains sub s'
       end.

(** Truthiness of a string: non-empty. *)
Definition truthy (s : string) : bool :=
  negb (String.eqb s "").

(** [x in xs] for a list of strings. *)
Definition str_in (x : string) (xs : list string) : bool :=
  existsb (String.eqb x) xs.

(** [len(s)] *)
Definition len (s : string) : Z := Z.of_nat (String.length s).

(** [max(lo, min(hi, x))] *)
Definition clamp (lo hi x : Z) : Z := Z.max lo (Z.min hi x).

(** Python's [round] on the rational [a / b] ([b > 0]): nearest integer,
    ties to the even neighbour. *)
Definition round_div (a b : Z) : Z :=
  let q := a / b in
  let r := a mod b in
  if 2 * r <? b then q
  else if b <? 2 * r then q + 1
  else if Z.even q then q else q + 1.

End Py.

(** ** [safety_scorer.py]: the Score Aggregator *)
Module Scorer.

(** A vulnerability dict as read by the scorer: [v.get('type')] and
    [v.get('severity', 'low')]. *)
Record Vuln := mkVuln {
  v_type : option string;
  v_severity : option string
}.

(** [analysis['code_quality']]: all keys optional. *)
Record CodeQuality := mkCQ {
  cq_score : option Z;
  cq_modern_compiler : option bool;
  cq_compiler_version : option string;
  cq_optimization_enabled : option bool;
  cq_license : option string
}.

Definition empty_cq : CodeQuality := mkCQ None None None None None.

(** [analysis['tokenomics']] *)
Record Tokenomics := mkTok {
  tk_score : option Z;
  tk_red_flags : list string;
  tk_warnings : list string
}.

Definition empty_tok : Tokenomics := mkTok None [] [].

(** [analysis['liquidity']] *)
Record Liquidity := mkLiq {
  lq_is_locked : bool;
  lq_lock_duration_days : Z;
  lq_lock_percentage : Z
}.

Definition empty_liq : Liquidity := mkLiq false 0 0.

Record Analysis := mkAnalysis {
  an_is_verified : bool;
  an_code_quality : CodeQuality;
  an_vulnerabilities : list Vuln;
  an_tokenomics : Tokenomics;
  an_liquidity : Liquidity
}.

Definition opt_truthy (o : option bool) : bool :=
  match o with Some b => b | None => false end.

Definition opt_str_truthy (o : option string) : bool :=
  match o with Some s => Py.truthy s | None => false end.

Definition _calculate_code_quality_score (a : Analysis) : Z :=
  let cq := an_code_quality a in
  match cq_score cq with
  | Some s => s
  | None =>
      let score := if an_is_verified a then 10 else 0 in
      let score :=
        if opt_truthy (cq_modern_compiler cq) then score + 5
        else if opt_str_truthy (cq_compiler_version cq) then score + 3
        else score in
      let score := if opt_truthy (cq_optimization_enabled cq) then score + 5
                   else score in
      let score :=
        match cq_license cq with
        | Some l => if Py.truthy l && negb (String.eqb l "None")
                    then score + 5 else score
        | None => score
        end in
      Z.min score 25
  end.

(** [deductions.get(severity, 2)] *)
Definition deduction (sev : string) : Z :=
  if String.eqb sev "critical" then 15
  else if String.eqb sev "high" then 10
  else if String.eqb sev "medium" then 5
  else if String.eqb sev "low" then 2
  else 2.

Definition severity_of (v : Vuln) : string :=
  match v_severity v with Some s => s | None => "low" end.

Definition type_in (t : string) (vs : list Vuln) : bool :=
  existsb (fun v => match v_type v with
                    | Some t' => String.eqb t t'
                    | None => false end) vs.

Definition _calculate_security_score (a : Analysis) : Z :=
  let vulns := an_vulnerabilities a in
  let score := fold_left (fun sc v => sc - deduction (severity_of v)) vulns 40 in
  let score := if type_in "reentrancy" vulns then score - 5 else score in
  let score := if type_in "honeypot_pattern" vulns then score - 10 else score in
  let score := if (List.length vulns =? 0)%nat then 40 else score in
  Z.max score 0.

Definition _calculate_tokenomics_score (a : Analysis) : Z :=
  let t := an_tokenomics a in
  match tk_score t with
  | Some s => s
  | None =>
      let score := 20 - Z.of_nat (List.length (tk_red_flags t)) * 4 in
      let score := score - Z.of_nat (List.length (tk_warnings t)) * 2 in
      Z.max score 0
  end.

Definition _calculate_liquidity_score (a : Analysis) : Z :=
  let l := an_liquidity a in
  let score :=
    if lq_is_locked l then
      let score := 10 in
      let d := lq_lock_duration_days l in
      let score := if 365 <=? d then score + 3
                   else if 180 <=? d then score + 2
                   else if 90 <=? d then score + 1 else score in
      let p := lq_lock_percentage l in
      if 90 <=? p then score + 2 else if 70 <=? p then score + 1 else score
    else 0 in
  Z.min score 15.

Inductive RiskLevel := very_low | low | medium | high | critical.

Definition _determine_risk_level (overall : Z) : RiskLevel :=
  if 85 <=? overall then very_low
  else if 70 <=? overall then low
  else if 50 <=? overall then medium
  else if 30 <=? overall then high
  else critical.

Record ScoreBreakdown := mkScores {
  code_quality_score : Z;
  security_score : Z;
  tokenomics_score : Z;
  liquidity_score : Z;
  overall_score : Z;
  risk_level : RiskLevel
}.

Definition calculate_score (a : Analysis) : ScoreBreakdown :=
  let cq := _calculate_code_quality_score a in
  let sec := _calculate_security_score a in
  let tok := _calculate_tokenomics_score a in
  let liq := _calculate_liquidity_score a in
  let overall := cq + sec + tok + liq in
  mkScores cq sec tok liq overall (_determine_risk_level overall).

End Scorer.

(** Decimal rendering used inside messages ([f'{x}']). *)
(** ** Python [float]s *)
Module F64.
Import SpecFloat.

(** CPython's [float]: binary64, 53 bits of precision, infinities at
    exponent 1024. *)
Definition prec : Z := 53.
Definition emax : Z := 1024.

Definition float := spec_float.

(** [0.0] *)
Definition zero : float := S754_zero false.

(** The float nearest to [n / d] (negated when [neg]), for [n >= 0] and
    [d > 0], ties to even: the correctly rounded quotient that [int / int]
    and the string-to-float conversion of [round] compute. *)
Definition of_ratio (neg : bool) (n d : Z) : float :=
  if n =? 0 then S754_zero neg
  else let '(mz, ez, lz) := SFdiv_core_binary prec emax n 0 d 0 in
       binary_round_aux prec emax neg mz ez lz.

(** [float(n)] for an [int] [n].  CPython raises [OverflowError] where
    this gives an infinity ([|n| >= 2^1024]). *)
Definition of_int (n : Z) : float := binary_normalize prec emax n 0 false.

(** [a / b] for [int]s [a] and [b <> 0].  CPython raises [OverflowError]
    where this gives an infinity ([|a / b| >= 2^1024]). *)
Definition int_truediv (a b : Z) : float :=
  of_ratio (xorb (a <? 0) (b <? 0)) (Z.abs a) (Z.abs b).

(** [x + y] and [x / y] on floats. *)
Definition add (x y : float) : float := SFadd prec emax x y.
Definition div (x y : float) : float := SFdiv prec emax x y.

(** [num / den] rounded to the nearest integer, ties to even ([den > 0]). *)
Definition round_half_even (num den : Z) : Z :=
  let q := num / den in
  let r := num mod den in
  match Z.compare (2 * r) den with
  | Lt => q
  | Gt => q + 1
  | Eq => if Z.even q then q else q + 1
  end.

(** [round(x, nd)] for [nd >= 0] ([double_round]): the exact value of [x]
    rounded to [nd] decimals, ties to even, read back as the nearest
    float; infinities and NaN are returned as they are. *)
Definition round (x : float) (nd : Z) : float :=
  match x with
  | S754_finite s m e =>
      let r := if 0 <=? e then Zpos m * 2 ^ e * 10 ^ nd
               else round_half_even (Zpos m * 10 ^ nd) (2 ^ (- e)) in
      of_ratio s r (10 ^ nd)
  | _ => x
  end.

(** [c * 10^k] compared with [b * 2^a]. *)
Definition cmp_dec_bin (c k b a : Z) : comparison :=
  Z.compare (c * 10 ^ Z.max 0 k * 2 ^ Z.max 0 (- a))
            (b * 2 ^ Z.max 0 a * 10 ^ Z.max 0 (- k)).

(** The least [P >= P0] with [m * 2^e < 10^P]. *)
Fixpoint find_decpt (fuel : nat) (m e P : Z) : Z :=
  match fuel with
  | O => P
  | S f => match cmp_dec_bin 1 P m e with
           | Gt => P
           | _ => find_decpt f m e (P + 1)
           end
  end.

(** For [m > 0]: the [P] with [10^(P-1) <= m * 2^e < 10^P], searched from
    just below [log10(2) * log2(m * 2^e)]. *)
Definition decpt_of (m e : Z) : Z :=
  find_decpt 6 m e ((Z.log2 m + e) * 30103 / 100000 - 1).

(** Whether [c * 10^k] reads back as the float [m * 2^e] (round to nearest,
    ties to even): it lies between the midpoints with the neighbouring
    floats, which count when [m] is even.  Units of [2^(e-2)]; the gap
    below a normal power of two is half the gap above it. *)
Definition in_interval (m e c k : Z) : bool :=
  let lo := 4 * m - (if (m =? 2 ^ 52) && (emin prec emax <? e) then 1 else 2) in
  let hi := 4 * m + 2 in
  match cmp_dec_bin c k lo (e - 2), cmp_dec_bin c k hi (e - 2) with
  | Gt, Lt => true
  | Eq, Lt | Gt, Eq | Eq, Eq => Z.even m
  | _, _ => false
  end.

(** The shortest decimal [c * 10^k] that reads back as [m * 2^e], with
    [n, n+1, ...] significant digits tried in turn ([P] is the decimal
    point position of the float); of the two [n]-digit neighbours of the
    float, the nearer one that reads back (the even one on a tie). *)
Fixpoint shortest (fuel : nat) (n : Z) (m e P : Z) : Z * Z :=
  let k := P - n in
  let num := m * 2 ^ Z.max 0 e * 10 ^ Z.max 0 (- k) in
  let den := 2 ^ Z.max 0 (- e) * 10 ^ Z.max 0 k in
  let c := num / den in
  let r := num mod den in
  let lo_ok := in_interval m e c k in
  let hi_ok := negb (r =? 0) && in_interval m e (c + 1) k in
  match fuel with
  | O => (c, k)
  | S f =>
      if lo_ok && hi_ok then
        match Z.compare (2 * r) den with
        | Lt => (c, k)
        | Gt => (c + 1, k)
        | Eq => if Z.even c then (c, k) else (c + 1, k)
        end
      else if lo_ok then (c, k)
      else if hi_ok then (c + 1, k)
      else shortest f (n + 1) m e P
  end.

(** [c * 10^k] with the trailing zeros of [c] moved into [k]. *)
Fixpoint strip_zeros (fuel : nat) (c k : Z) : Z * Z :=
  match fuel with
  | O => (c, k)
  | S f => if (c mod 10 =? 0) && negb (c =? 0) then strip_zeros f (c / 10) (k + 1)
           else (c, k)
  end.

End F64.

Module Fmt.
Import SpecFloat.

Fixpoint dec_aux (fuel : nat) (z : Z) (acc : string) : string :=
  match fuel with
  | O => acc
  | S f =>
      let acc' := String (ascii_of_nat (48 + Z.to_nat (z mod 10))) acc in
      if z <? 10 then acc' else dec_aux f (z / 10) acc'
  end.

(** [str(z)] for an [int]. *)
Definition z_to_dec (z : Z) : string :=
  if z <? 0 then String.append "-" (dec_aux (Z.to_nat (Z.log2 (- z)) + 1) (- z) "")
  else dec_aux (Z.to_nat (Z.log2 z) + 1) z "".

Fixpoint zeros (n : nat) : string :=
  match n with O => "" | S n' => String "0" (zeros n') end.

(** [format_float_short] in [repr] mode: the digits [s] of the shortest
    representation with the decimal point after [decpt] of them, in
    exponent notation when [decpt <= -4] or [decpt > 16] (exponent with a
    sign and at least two digits, no [".0"]), otherwise positionally with
    [".0"] added to an integer. *)
Definition format_short (s : string) (decpt : Z) : string :=
  let L := Z.of_nat (String.length s) in
  if (decpt <=? -4) || (16 <? decpt) then
    let ex := decpt - 1 in
    let mant := match s with
                | String d EmptyString => String d EmptyString
                | String d rest => String d (String "." rest)
                | EmptyString => EmptyString
                end in
    String.append mant
      (String.append (if ex <? 0 then "e-" else "e+")
        (String.append (if Z.abs ex <? 10 then "0" else "") (z_to_dec (Z.abs ex))))
  else if decpt <=? 0 then String.append "0." (String.append (zeros (Z.to_nat (- decpt))) s)
  else if L <=? decpt then String.append s (String.append (zeros (Z.to_nat (decpt - L))) ".0")
  else String.append (substring 0 (Z.to_nat decpt) s)
         (String.append "." (substring (Z.to_nat decpt) (String.length s) s)).

(** [repr(x)] (and [str(x)], and [f'{x}']) for a float. *)
Definition repr (x : F64.float) : string :=
  match x with
  | S754_zero s => if s then "-0.0" else "0.0"
  | S754_infinity s => if s then "-inf" else "inf"
  | S754_nan => "nan"
  | S754_finite s m e =>
      let P := F64.decpt_of (Zpos m) e in
      let '(c, k) := F64.shortest 17 1 (Zpos m) e P in
      let '(c', k') := F64.strip_zeros 20 c k in
      let ds := z_to_dec c' in
      let body := format_short ds (Z.of_nat (String.length ds) + k') in
      if s then String.append "-" body else body
  end.

(** [f'{v/100}'] for an [int] [v]: the repr of the correctly rounded
    quotient (CPython raises [OverflowError] instead once
    [v / 100 >= 2^1024]). *)
Definition pct_str (v : Z) : string := repr (F64.int_truediv v 100).

End Fmt.

(** ** [tokenomics_analyzer.py] *)
Module Tokenomics.

(** The regular-expression searches of the analyzer, as their results:
    [fee_matches] lists [(match.group(1), int(match.group(2)))] for the four
    fee patterns in the order [re.finditer] yields them, pattern by
    pattern; each boolean is whether the corresponding [re.search] found a
    match. *)
Record Scan := mkScan {
  fee_matches : list (string * Z);
  fee_setter_found : bool;       (* function set*Fee / function update*Fee *)
  burn_found : bool;
  mint_found : bool;
  mint_access_control_found : bool;  (* onlyOwner|onlyMinter|onlyRole *)
  pause_found : bool;
  blacklist_found : bool;
  max_tx_found : bool;
  set_max_found : bool;          (* function setMax *)
  cooldown_found : bool
}.

Record Fees := mkFees {
  buy_fee : option Z;
  sell_fee : option Z;
  transfer_fee : option Z;
  is_modifiable : bool
}.

Record TokAnalysis := mkTokAnalysis {
  fees : Fees;
  burn_mechanism : bool;
  mint_mechanism : bool;
  pausable : bool;
  blacklist_mechanism : bool;
  max_transaction_limit : bool;
  cooldown_mechanism : bool;
  warnings : list string;
  red_flags : list string;
  score : Z
}.

(** [self.warnings] and [self.red_flags], threaded through the checks. *)
Record Self := mkSelf { self_warnings : list string; self_red_flags : list string }.

Definition warn (st : Self) (m : string) : Self :=
  mkSelf (self_warnings st ++ [m]) (self_red_flags st).
Definition flag (st : Self) (m : string) : Self :=
  mkSelf (self_warnings st) (self_red_flags st ++ [m]).

Definition mint_red_flag := "Mint function may lack proper access control".
Definition max_tx_warning := "Maximum transaction limit can be modified by owner".

Definition fee_step (acc : Fees * Self) (m : string * Z) : Fees * Self :=
  let '(f, st) := acc in
  let '(raw, fee_value) := m in
  let fee_name := Py.lower raw in
  let f :=
    if Py.contains "buy" fee_name then
      mkFees (Some fee_value) (sell_fee f) (transfer_fee f) (is_modifiable f)
    else if Py.contains "sell" fee_name then
      mkFees (buy_fee f) (Some fee_value) (transfer_fee f) (is_modifiable f)
    else if Py.contains "transfer" fee_name then
      mkFees (buy_fee f) (sell_fee f) (Some fee_value) (is_modifiable f)
    else f in
  let st :=
    if 1000 <? fee_value then
      flag st (String.append "Excessive "
                (String.append fee_name
                  (String.append ": " (String.append (Fmt.pct_str fee_value) "%"))))
    else st in
  (f, st).

Definition _analyze_fees (s : Scan) (st : Self) : Fees * Self :=
  let '(f, st) := fold_left fee_step (fee_matches s)
                    (mkFees None None None false, st) in
  if fee_setter_found s then
    (mkFees (buy_fee f) (sell_fee f) (transfer_fee f) true,
     warn st "Fees can be modified by owner")
  else (f, st).

Definition _check_mint_mechanism (s : Scan) (st : Self) : bool * Self :=
  if mint_found s then
    if negb (mint_access_control_found s) then (true, flag st mint_red_flag)
    else (true, warn st "Contract has mint function (can increase supply)")
  else (false, st).

Definition _check_pausable (s : Scan) (st : Self) : bool * Self :=
  if pause_found s then (true, warn st "Contract can be paused, halting all transfers")
  else (false, st).

Definition _check_blacklist (s : Scan) (st : Self) : bool * Self :=
  if blacklist_found s then
    (true, flag st "Contract has blacklist mechanism - users can be blocked from trading")
  else (false, st).

Definition _check_max_tx_limit (s : Scan) (st : Self) : bool * Self :=
  if max_tx_found s then
    (true, if set_max_found s then warn st max_tx_warning else st)
  else (false, st).

Definition _check_cooldown (s : Scan) (st : Self) : bool * Self :=
  if cooldown_found s then (true, warn st "Contract has cooldown mechanism between trades")
  else (false, st).

Definition opt0 (o : option Z) : Z := match o with Some v => v | None => 0 end.

Definition _calculate_tokenomics_score (a : TokAnalysis) (st : Self) : Z :=
  let f := fees a in
  let bf := opt0 (buy_fee f) in
  let sf := opt0 (sell_fee f) in
  let score := 0 in
  let score :=
    if (bf <=? 500) && (sf <=? 500) then score + 5
    else if (bf <=? 1000) && (sf <=? 1000) then score + 3
    else if (bf <=? 1500) && (sf <=? 1500) then score + 1
    else score in
  let score := if negb (is_modifiable f) then score + 3 else score + 1 in
  let score := if negb (blacklist_mechanism a) then score + 4 else score in
  let score :=
    if negb (mint_mechanism a) then score + 4
    else if negb (Py.str_in mint_red_flag (self_red_flags st)) then score + 2
    else score in
  let score :=
    if negb (max_transaction_limit a) then score + 2
    else if negb (Py.str_in "Maximum transaction limit can be modified"
                    (self_warnings st)) then score + 1
    else score in
  let score := if negb (pausable a) then score + 2 else score in
  Z.min score 20.

Definition analyze (s : Scan) : TokAnalysis :=
  let st := mkSelf [] [] in
  let '(f, st) := _analyze_fees s st in
  let burn := burn_found s in
  let '(mint, st) := _check_mint_mechanism s st in
  let '(paus, st) := _check_pausable s st in
  let '(bl, st) := _check_blacklist s st in
  let '(mtx, st) := _check_max_tx_limit s st in
  let '(cd, st) := _check_cooldown s st in
  let r := mkTokAnalysis f burn mint paus bl mtx cd [] [] 0 in
  let sc := _calculate_tokenomics_score r st in
  mkTokAnalysis f burn mint paus bl mtx cd (self_warnings st) (self_red_flags st) sc.

End Tokenomics.

(** ** [evm_analyzer.py]: the parts that feed the scorer *)
Module EVM.
Import Scorer.

(** [get_contract_source_code]'s result. *)
Record SourceData := mkSource {
  sd_source_code : string;
  sd_contract_name : string;
  sd_compiler_version : string;
  sd_optimization_used : bool;
  sd_license_type : string
}.

(** An entry of [result['warnings']]. *)
Record Warning := mkWarning {
  w_type : string;
  w_severity : string;
  w_message : string
}.

Definition is_digit (c : ascii) : bool :=
  let n := nat_of_ascii c in ((48 <=? n) && (n <=? 57))%nat.

(** [\d+] at the head of [s]: value, number of digits read, rest. *)
Fixpoint read_digits (s : string) (acc : Z) (k : nat) : Z * nat * string :=
  match s with
  | String c s' =>
      if is_digit c then read_digits s' (10 * acc + Z.of_nat (nat_of_ascii c - 48)) (S k)
      else (acc, k, s)
  | EmptyString => (acc, k, s)
  end.

Definition digits1 (s : string) : option (Z * string) :=
  match read_digits s 0 0 with
  | (_, O, _) => None
  | (v, S _, rest) => Some (v, rest)
  end.

Definition dot (s : string) : option string :=
  match s with String "."%char s' => Some s' | _ => None end.

(** [\d+\.\d+\.\d+] anchored at the head of [s]. *)
Definition match_version (s : string) : option (Z * Z * Z) :=
  match digits1 s with
  | Some (ma, r1) =>
      match dot r1 with
      | Some r2 =>
          match digits1 r2 with
          | Some (mi, r3) =>
              match dot r3 with
              | Some r4 =>
                  match digits1 r4 with
                  | Some (pa, _) => Some (ma, mi, pa)
                  | None => None end
              | None => None end
          | None => None end
      | None => None end
  | None => None
  end.

(** [re.search(r'v?(\d+\.\d+\.\d+)', s)]: the leftmost match. *)
Fixpoint search_version (s : string) : option (Z * Z * Z) :=
  match match_version s with
  | Some v => Some v
  | None => match s with
            | EmptyString => None
            | String _ s' => search_version s'
            end
  end.

Definition _analyze_code_quality (sd : SourceData) : CodeQuality :=
  let cv := sd_compiler_version sd in
  let '(score, modern) :=
    if Py.truthy cv then
      match search_version cv with
      | Some (major, minor, _) =>
          if (major =? 0) && (8 <=? minor) then (5, Some true)
          else if (major =? 0) && (6 <=? minor) then (3, Some false)
          else (0, Some false)
      | None => (0, None)
      end
    else (0, None) in
  let score := if sd_optimization_used sd then score + 5 else score in
  let lic := sd_license_type sd in
  let score := if Py.truthy lic && negb (String.eqb lic "None") then score + 5
               else score in
  let score := score + 10 in
  mkCQ (Some score) modern (Some cv) (Some (sd_optimization_used sd)) (Some lic).

Definition _analyze_bytecode (bytecode : string) : list Vuln :=
  let issues :=
    if Py.contains "ff" (Py.lower bytecode)
    then [mkVuln (Some "selfdestruct_opcode") (Some "medium")] else [] in
  let bytecode_size := Py.len bytecode / 2 in
  if 24576 <? bytecode_size
  then issues ++ [mkVuln (Some "large_bytecode") (Some "low")]
  else issues.

Record EvmResult := mkEvm {
  er_error : option string;
  er_is_verified : bool;
  er_source_code : option string;
  er_code_quality : CodeQuality;
  er_vulnerabilities : list Vuln;
  er_warnings : list Warning;
  er_has_code : option bool
}.

Definition unverified_warning : Warning :=
  mkWarning "unverified_contract" "high"
    "Contract source code is not verified on the block explorer".

(** [analyze_contract].  [valid] is [is_valid_address(contract_address)],
    [source] is [get_contract_source_code]'s answer, [source_vulns] the
    matches of [_analyze_source_code] on the source (its regular
    expressions, in scan order) and [bytecode] is [get_contract_code]'s
    answer.  Token info and timing fields are not modelled. *)
Definition analyze_contract (valid : bool) (source : option SourceData)
    (source_vulns : list Vuln) (bytecode : string) : EvmResult :=
  if negb valid then
    mkEvm (Some "Invalid contract address") false None empty_cq [] [] None
  else
    let r :=
      match source with
      | Some sd =>
          mkEvm None true (Some (sd_source_code sd)) (_analyze_code_quality sd)
                source_vulns [] None
      | None =>
          mkEvm None false None empty_cq [] [unverified_warning] None
      end in
    if Py.truthy bytecode && negb (String.eqb bytecode "0x") then
      mkEvm None (er_is_verified r) (er_source_code r) (er_code_quality r)
            (er_vulnerabilities r ++ _analyze_bytecode bytecode)
            (er_warnings r) (Some true)
    else
      mkEvm (Some "No contract code found at this address") (er_is_verified r)
            (er_source_code r) (er_code_quality r) (er_vulnerabilities r)
            (er_warnings r) (Some false).

End EVM.

(** ** [orchestrator.py]: steps 2 to 5 of [analyze_contract] *)
Module Pipeline.
Import Scorer.

Definition source_truthy (r : EVM.EvmResult) : bool :=
  match EVM.er_source_code r with Some s => Py.truthy s | None => false end.

(** [base_analysis] as handed to [calculate_score]; [scanner_vulns] is the
    answer of [VulnerabilityScanner.scan] and [tok_scan] the regular
    expression results of the tokenomics analyzer on the same source.  No
    step of the pipeline sets [base_analysis['liquidity']]. *)
Definition base_analysis (r : EVM.EvmResult) (scanner_vulns : list Vuln)
    (tok_scan : Tokenomics.Scan) : Analysis :=
  let vulns := if source_truthy r then scanner_vulns else EVM.er_vulnerabilities r in
  let tok :=
    if source_truthy r then
      let t := Tokenomics.analyze tok_scan in
      mkTok (Some (Tokenomics.score t)) (Tokenomics.red_flags t)
            (Tokenomics.warnings t)
    else empty_tok in
  mkAnalysis (EVM.er_is_verified r) (EVM.er_code_quality r) vulns tok empty_liq.

Definition scores (valid : bool) (source : option EVM.SourceData)
    (source_vulns : list Vuln) (bytecode : string) (scanner_vulns : list Vuln)
    (tok_scan : Tokenomics.Scan) : option ScoreBreakdown :=
  let r := EVM.analyze_contract valid source source_vulns bytecode in
  match EVM.er_error r with
  | Some _ => None
  | None => Some (calculate_score (base_analysis r scanner_vulns tok_scan))
  end.

End Pipeline.

(** ** [creator_analyzer.py]: the Deployer Trust Tracer *)
Module Creator.

(** A transaction dict of the explorer; an absent key is [""] or [0],
    the defaults the code passes to [.get]. *)
Record Tx := mkTx {
  tx_from : string;
  tx_to : string;
  tx_value : Z;
  tx_timeStamp : Z;
  tx_contractAddress : string;
  tx_hash : string;
  tx_input : string
}.

Record CreatorInfo := mkCreatorInfo {
  ci_deployer : string;
  ci_creation_tx_hash : string
}.

Record TokenInfo := mkTokenInfo {
  ti_name : option string;
  ti_symbol : option string
}.

(** The [EVMClient] answers for one snapshot of the chain; [p_now] is
    [time.time()] (one reading for the whole trace). *)
Record Provider := mkProvider {
  p_now : Z;
  p_contract_creator : string -> option CreatorInfo;
  p_contract_code : string -> string;
  p_first_transactions : string -> Z -> list Tx;
  p_balance : string -> Z;
  p_transaction_count : string -> Z;
  p_transaction_history : string -> Z -> list Tx;
  p_token_info : string -> option TokenInfo
}.

(** The external calls a trace makes, in order. *)
Inductive Call :=
| CCreator (a : string)
| CCode (a : string)
| CFirstTxs (a : string) (limit : Z)
| CBalance (a : string)
| CTxCount (a : string)
| CHistory (a : string) (offset : Z)
| CTokenInfo (a : string)
| CSleep.

(** State monad over the call log. *)
Definition M (A : Type) : Type := list Call -> A * list Call.
Definition ret {A} (a : A) : M A := fun l => (a, l).
Definition bind {A B} (m : M A) (k : A -> M B) : M B :=
  fun l => let '(a, l') := m l in k a l'.
Notation "x <- m ;; k" := (bind m (fun x => k))
  (at level 61, m at next level, right associativity).
Definition emit {A} (c : Call) (a : A) : M A := fun l => (a, app l [c]).

Section Calls.
Variable p : Provider.
Definition get_contract_creator a := emit (CCreator a) (p_contract_creator p a).
Definition get_contract_code a := emit (CCode a) (p_contract_code p a).
Definition get_first_transactions a n :=
  emit (CFirstTxs a n) (p_first_transactions p a n).
Definition get_balance a := emit (CBalance a) (p_balance p a).
Definition get_transaction_count a := emit (CTxCount a) (p_transaction_count p a).
Definition get_transaction_history a off :=
  emit (CHistory a off) (p_transaction_history p a off).
Definition get_token_info a := emit (CTokenInfo a) (p_token_info p a).
Definition sleep : M unit := emit CSleep tt.
End Calls.

Definition KNOWN_MIXER_ADDRESSES : list (string * list (string * string)) :=
  [("ethereum",
     [("0x12d66f87a04a9e220743712ce6d9bb1b5616b8fc", "Tornado Cash 0.1 ETH");
      ("0x47ce0c6ed5b0ce3d3a51fdb1c52dc66a7c3c2936", "Tornado Cash 1 ETH");
      ("0x910cbd523d972eb0a6f4cae4618ad62622b39dbf", "Tornado Cash 10 ETH");
      ("0xa160cdab225685da1d56aa342ad8841c3b53f291", "Tornado Cash 100 ETH");
      ("0xd90e2f925da726b50c4ed8d0fb90ad053324f31b", "Tornado Cash Router");
      ("0xd4b88df4d29f5cedd6857912842cff3b20c8cfa3", "Tornado Cash 100 ETH (old)")]);
   ("bsc",
     [("0x84443cfd09a48af6ef360c6976c5392ac5023a1f", "Tornado Cash BSC")])].

Fixpoint assoc {B} (k : string) (l : list (string * B)) : option B :=
  match l with
  | [] => None
  | (k', v) :: l' => if String.eqb k k' then Some v else assoc k l'
  end.

Definition mixers (chain : string) : list (string * string) :=
  match assoc chain KNOWN_MIXER_ADDRESSES with Some m => m | None => [] end.

Definition REMOVE_LIQUIDITY_SIGS : list string :=
  ["0xbaa2abde"; "0x02751cec"; "0xaf2979eb"; "0x5b0d5984"; "0xded9382a"; "0x2195995c"].

Definition MAX_SIBLING_DEEP_CHECK : nat := 10.

(** A sibling dict from [_find_sibling_contracts]; [creation_timestamp]
    (an ISO rendering of [creation_ts], [None] when it is [0]) is kept as
    the raw seconds. *)
Record Sibling := mkSibling {
  sib_address : string;
  sib_creation_timestamp : option Z;
  sib_creation_ts : Z;
  sib_tx_hash : string
}.

(** The dict [_check_sibling_health] returns and [sibling.update] merges. *)
Record Health := mkHealth {
  is_alive : bool;
  is_active : bool;
  lifespan_days : Z;
  token_name : option string;
  token_symbol : option string;
  had_liquidity_removal : bool;
  last_tx_timestamp : option Z
}.

Definition CheckedSibling := (Sibling * Health)%type.

Record FundingSource := mkFunding {
  fs_address : string;
  fs_label : string;
  fs_is_mixer : bool
}.

Record Profile := mkProfile {
  pr_address : string;
  pr_wallet_age_days : Z;
  pr_first_tx_timestamp : option Z;
  pr_balance_wei : Z;
  pr_total_transactions : Z;
  pr_funding_source : FundingSource;
  pr_is_factory : bool;
  pr_creation_tx_hash : string
}.

Inductive FlagType := no_history | brand_new_wallet | very_new_wallet | mixer_funding.

Record RedFlag := mkRedFlag {
  rf_type : FlagType;
  rf_severity : string
}.

Record TrustScore := mkTrust {
  overall_score : Z;
  risk_level : Scorer.RiskLevel;
  wallet_maturity_score : Z;
  deployment_history_score : Z;
  sibling_survival_score : Z;
  funding_transparency_score : Z;
  behavioral_patterns_score : Z
}.

Record Result := mkResult {
  success : bool;
  contract_address : string;
  error : option string;
  deployer : option Profile;
  sibling_contracts : list CheckedSibling;
  red_flags : list RedFlag;
  creator_trust_score : option TrustScore;
  total_siblings : option Z;
  checked_siblings : option Z
}.

Definition count {A} (f : A -> bool) (l : list A) : Z := Z.of_nat (List.length (filter f l)).

Fixpoint sum_z (l : list Z) : Z :=
  match l with [] => 0 | x :: r => x + sum_z r end.

Fixpoint insert_z (x : Z) (l : list Z) : list Z :=
  match l with
  | [] => [x]
  | y :: r => if x <=? y then x :: l else y :: insert_z x r
  end.

(** [sorted] on a list of [int]s. *)
Fixpoint sort_z (l : list Z) : list Z :=
  match l with [] => [] | x :: r => insert_z x (sort_z r) end.

(** [for i in range(1, len(ts)): if ts[i] - ts[i-1] < 86400: rapid += 1] *)
Fixpoint count_rapid (l : list Z) : Z :=
  match l with
  | a :: ((b :: _) as r) => (if b - a <? 86400 then 1 else 0) + count_rapid r
  | _ => 0
  end.

Definition _calculate_creator_trust_score (now : Z) (dep : Profile)
    (siblings : list CheckedSibling) (flags : list RedFlag) : TrustScore :=
  (* Wallet Maturity (0-20) *)
  let age_days := pr_wallet_age_days dep in
  let maturity :=
    if 365 <? age_days then 20
    else if 180 <? age_days then 15
    else if 30 <? age_days then 10
    else if 7 <? age_days then 5
    else 0 in
  (* Deployment History (0-30) *)
  let n := Z.of_nat (List.length siblings) in
  let history := 30 in
  let dead_count := count (fun s => negb (is_alive (snd s))) siblings in
  let history := history - Z.min 15 (dead_count * 3) in
  let history :=
    if 5 <? n then
      let recent_siblings :=
        count (fun s => now - 30 * 86400 <? sib_creation_ts (fst s)) siblings in
      if 5 <? recent_siblings then history - 5 else history
    else history in
  let lifespans := map (fun s => lifespan_days (snd s))
                     (filter (fun s => negb (lifespan_days (snd s) =? 0)) siblings) in
  let history :=
    match lifespans with
    | [] => history
    | _ => if sum_z lifespans <? 7 * Z.of_nat (List.length lifespans)
           then history - 5 else history
    end in
  let long_lived :=
    count (fun s => is_alive (snd s) && (180 <? lifespan_days (snd s))) siblings in
  let history := if 0 <? long_lived then Z.min 30 (history + 5) else history in
  let history := Z.max 0 history in
  (* Sibling Survival Rate (0-25) *)
  let survival :=
    if n =? 0 then 15
    else
      let alive_count := count (fun s => is_alive (snd s)) siblings in
      let survival := Py.round_div (alive_count * 25) n in
      let lp_removals := count (fun s => had_liquidity_removal (snd s)) siblings in
      let survival := survival - Z.min 15 (lp_removals * 5) in
      Z.max 0 survival in
  (* Funding Transparency (0-15) *)
  let transparency :=
    fold_left (fun t f =>
                 match rf_type f with
                 | mixer_funding => t - 15
                 | brand_new_wallet => t - 10
                 | very_new_wallet => t - 5
                 | no_history => t - 10
                 end) flags 15 in
  let transparency := Z.max 0 transparency in
  (* Behavioral Patterns (0-10) *)
  let behavior := 10 in
  let drain_count :=
    count (fun s => had_liquidity_removal (snd s) && (lifespan_days (snd s) <? 14))
          siblings in
  let behavior := if 0 <? drain_count then behavior - Z.min 5 (drain_count * 2)
                  else behavior in
  let behavior :=
    if 3 <=? n then
      let timestamps := sort_z (filter (fun t => negb (t =? 0))
                                       (map (fun s => sib_creation_ts (fst s)) siblings)) in
      if 3 <=? count_rapid timestamps then behavior - 5 else behavior
    else behavior in
  let behavior := Z.max 0 behavior in
  (* Total *)
  let total := maturity + history + survival + transparency + behavior in
  let total := Z.max 0 (Z.min 100 total) in
  let risk_level :=
    if 85 <=? total then Scorer.very_low
    else if 70 <=? total then Scorer.low
    else if 50 <=? total then Scorer.medium
    else if 30 <=? total then Scorer.high
    else Scorer.critical in
  mkTrust total risk_level maturity history survival transparency behavior.

Fixpoint siblings_of (exclude_lower : string) (txs : list Tx) : list Sibling :=
  match txs with
  | [] => []
  | tx :: r =>
      if String.eqb (tx_to tx) "" && Py.truthy (tx_contractAddress tx) then
        let ca := tx_contractAddress tx in
        if String.eqb (Py.lower ca) exclude_lower then siblings_of exclude_lower r
        else
          let ts := tx_timeStamp tx in
          mkSibling ca (if ts =? 0 then None else Some ts) ts (tx_hash tx)
            :: siblings_of exclude_lower r
      else siblings_of exclude_lower r
  end.

Definition is_removal_sig (tx : Tx) : bool :=
  let input_data := tx_input tx in
  (10 <=? Py.len input_data)
    && Py.str_in (Py.lower (substring 0 10 input_data)) REMOVE_LIQUIDITY_SIGS.

Definition mixer_label (chain a : string) : option string :=
  assoc (Py.lower a) (mixers chain).

Section Trace.
Variable p : Provider.
(** [self.blockchain] *)
Variable blockchain : string.

Definition _get_deployer_profile (d : string) : M Profile :=
  first_txs <- get_first_transactions p d 3 ;;
  let '(first_ts, age) :=
    match first_txs with
    | [] => (None, 0)
    | tx :: _ =>
        let t := tx_timeStamp tx in
        if t =? 0 then (None, 0) else (Some t, Z.quot (p_now p - t) 86400)
    end in
  let funding :=
    match find (fun tx => String.eqb (Py.lower (tx_to tx)) (Py.lower d)
                          && (0 <? tx_value tx)) first_txs with
    | Some tx =>
        let fa := tx_from tx in
        match mixer_label blockchain fa with
        | Some l => mkFunding fa l true
        | None => mkFunding fa "Unknown" false
        end
    | None => mkFunding "Unknown" "Unknown" false
    end in
  _u <- sleep ;;
  bal <- get_balance p d ;;
  cnt <- get_transaction_count p d ;;
  ret (mkProfile d age first_ts bal cnt funding false "").

Definition _find_sibling_contracts (d exclude_address : string) : M (list Sibling) :=
  txs <- get_transaction_history p d 10000 ;;
  ret (siblings_of (Py.lower exclude_address) txs).

Definition _check_sibling_health (a : string) : M Health :=
  code <- get_contract_code p a ;;
  ti <- get_token_info p a ;;
  recent_txs <- get_transaction_history p a 5 ;;
  let alive := 2 <? Py.len code in
  let '(tn, tsym) :=
    match ti with Some t => (ti_name t, ti_symbol t) | None => (None, None) end in
  let '(active, last) :=
    match recent_txs with
    | [] => (false, None)
    | tx :: _ =>
        let last_ts := tx_timeStamp tx in
        if last_ts =? 0 then (false, None)
        else (p_now p - last_ts <? 30 * 86400, Some last_ts)
    end in
  let lp := existsb is_removal_sig recent_txs in
  ret (mkHealth alive active 0 tn tsym lp last).

Fixpoint deep_check (l : list Sibling) : M (list CheckedSibling) :=
  match l with
  | [] => ret []
  | s :: r =>
      h <- _check_sibling_health (sib_address s) ;;
      _u <- sleep ;;
      rest <- deep_check r ;;
      ret ((s, h) :: rest)
  end.

Definition _detect_funding_source_red_flags (d : string) : M (list RedFlag) :=
  first_txs <- get_first_transactions p d 10 ;;
  match first_txs with
  | [] => ret [mkRedFlag no_history "high"]
  | tx0 :: _ =>
      let t := tx_timeStamp tx0 in
      let flags :=
        if t =? 0 then []
        else if p_now p - t <? 86400 then [mkRedFlag brand_new_wallet "critical"]
        else if p_now p - t <? 7 * 86400 then [mkRedFlag very_new_wallet "high"]
        else [] in
      let from_mixer tx :=
        match mixer_label blockchain (tx_from tx) with Some _ => true | None => false end in
      ret (if existsb from_mixer first_txs
           then app flags [mkRedFlag mixer_funding "critical"] else flags)
  end.

Definition creator_not_found (a : string) : Result :=
  mkResult false a
    (Some "Could not find contract creator. The contract may predate explorer tracking.")
    None [] [] None None None.

(** Step 2: one hop of factory indirection. *)
Definition resolve_factory (d0 : string) : M (string * bool) :=
  deployer_code <- get_contract_code p d0 ;;
  if 2 <? Py.len deployer_code then
    factory_creator <- get_contract_creator p d0 ;;
    _u <- sleep ;;
    match factory_creator with
    | Some fc =>
        if Py.truthy (ci_deployer fc) then
          factory_code <- get_contract_code p (ci_deployer fc) ;;
          if Py.len factory_code <=? 2 then ret (ci_deployer fc, false)
          else ret (d0, true)
        else ret (d0, true)
    | None => ret (d0, true)
    end
  else ret (d0, false).

Definition analyze_creator (a : string) : M Result :=
  creator_info <- get_contract_creator p a ;;
  match creator_info with
  | None => ret (creator_not_found a)
  | Some ci =>
      _u <- sleep ;;
      df <- resolve_factory (ci_deployer ci) ;;
      let '(d, is_factory) := df in
      prof <- _get_deployer_profile d ;;
      let prof := mkProfile d (pr_wallet_age_days prof) (pr_first_tx_timestamp prof)
                    (pr_balance_wei prof) (pr_total_transactions prof)
                    (pr_funding_source prof) is_factory (ci_creation_tx_hash ci) in
      _u <- sleep ;;
      siblings <- _find_sibling_contracts d a ;;
      checked <- deep_check (firstn MAX_SIBLING_DEEP_CHECK siblings) ;;
      flags <- _detect_funding_source_red_flags d ;;
      let trust := _calculate_creator_trust_score (p_now p) prof checked flags in
      ret (mkResult true a None (Some prof) checked flags (Some trust)
             (Some (Z.of_nat (List.length siblings)))
             (Some (Z.of_nat (List.length checked))))
  end.

End Trace.

End Creator.

(** ** [interaction_analyzer.py]: the Interaction Graph Engine *)
Module Graph.

(** A transaction of one of the three streams, with the [.get] defaults
    ([""] for an absent address, [0] for an absent value). *)
Record GTx := mkGTx { g_from : string; g_to : string; g_value : Z }.

Inductive TxType := normal | internal | token.

Definition TxType_eqb (x y : TxType) : bool :=
  match x, y with
  | normal, normal | internal, internal | token, token => true
  | _, _ => false
  end.

(** [edge_data[key]]; [total_value] is the float sum of the [value_eth]
    of the edge's transactions. *)
Record EdgeData := mkEdge { count : Z; total_value : F64.float; types : list TxType }.

Definition Key := (string * string)%type.

Definition key_eqb (k k' : Key) : bool :=
  String.eqb (fst k) (fst k') && String.eqb (snd k) (snd k').

(** The [defaultdict] in insertion order. *)
Definition EdgeMap := list (Key * EdgeData).

(** [set.add] *)
Definition add_type (t : TxType) (ts : list TxType) : list TxType :=
  if existsb (TxType_eqb t) ts then ts else app ts [t].

(** [value_eth = int(tx.get("value", "0")) / 1e18]: the [int] is
    converted to a float, then divided by the float [1e18] (which is
    exactly [10^18]). *)
Definition value_eth (tx : GTx) : F64.float :=
  F64.div (F64.of_int (g_value tx)) (F64.of_int (10 ^ 18)).

(** [["total_value"] += v] when the stream adds a value. *)
Definition add_value (tv : F64.float) (ov : option F64.float) : F64.float :=
  match ov with Some v => F64.add tv v | None => tv end.

(** [edge_data[k]["count"] += 1], [["total_value"] += v] (normal and
    internal transactions only: [ov = Some v]), [["types"].add(t)]; a new
    key starts from [{"count": 0, "total_value": 0.0, "types": set()}]. *)
Fixpoint bump (k : Key) (ov : option F64.float) (t : TxType) (m : EdgeMap) : EdgeMap :=
  match m with
  | [] => [(k, mkEdge 1 (add_value F64.zero ov) [t])]
  | (k', d) :: r =>
      if key_eqb k k' then
        (k', mkEdge (count d + 1) (add_value (total_value d) ov) (add_type t (types d))) :: r
      else (k', d) :: bump k ov t r
  end.

(** One stream of [_build_graph]; token transfers add no value. *)
Definition process (t : TxType) (txs : list GTx) (m : EdgeMap) : EdgeMap :=
  fold_left (fun m tx =>
               let from_addr := Py.lower (g_from tx) in
               let to_addr := Py.lower (g_to tx) in
               if negb (Py.truthy from_addr) || negb (Py.truthy to_addr) then m
               else
                 let ov := match t with token => None | _ => Some (value_eth tx) end in
                 bump (from_addr, to_addr) ov t m) txs m.

Record NodeAttr := mkNodeAttr {
  full_label : string;
  is_center : bool;
  is_known : bool;
  interaction_count : Z
}.

(** A [networkx.DiGraph]: nodes in insertion order, one edge per key. *)
Record DiGraph := mkDiGraph {
  nodes : list string;
  edges : EdgeMap;
  node_attrs : list (string * NodeAttr)
}.

Definition mem (x : string) (l : list string) : bool := existsb (String.eqb x) l.

(** [graph.add_node(x)] on the node list. *)
Definition add_node (x : string) (ns : list string) : list string :=
  if mem x ns then ns else app ns [x].

(** [graph.add_edge(u, v)]: adds the missing endpoints, [u] first. *)
Definition add_edge_nodes (ns : list string) (e : Key * EdgeData) : list string :=
  add_node (snd (fst e)) (add_node (fst (fst e)) ns).

Definition KNOWN_ADDRESSES : list (string * list (string * string)) :=
  [("ethereum",
     [("0x0000000000000000000000000000000000000000", "Null Address");
      ("0x000000000000000000000000000000000000dead", "Burn Address");
      ("0x7a250d5630b4cf539739df2c5dacb4c659f2488d", "Uniswap V2 Router");
      ("0xe592427a0aece92de3edee1f18e0157c05861564", "Uniswap V3 Router");
      ("0x68b3465833fb72a70ecdf485e0e4c7bd8665fc45", "Uniswap Universal Router");
      ("0xd9e1ce17f2641f24ae83637ab66a2cca9c378b9f", "SushiSwap Router");
      ("0xdef1c0ded9bec7f1a1670819833240f027b25eff", "0x Exchange Proxy");
      ("0x3fc91a3afd70395cd496c647d5a6cc9d4b2b7fad", "Uniswap Universal Router V2");
      ("0xc02aaa39b223fe8d0a0e5c4f27ead9083c756cc2", "WETH");
      ("0xdac17f958d2ee523a2206206994597c13d831ec7", "USDT");
      ("0xa0b86991c6218b36c1d19d4a2e9eb0ce3606eb48", "USDC");
      ("0x6b175474e89094c44da98b954eedeac495271d0f", "DAI")]);
   ("bsc",
     [("0x0000000000000000000000000000000000000000", "Null Address");
      ("0x000000000000000000000000000000000000dead", "Burn Address");
      ("0x10ed43c718714eb63d5aa57b78b54704e256024e", "PancakeSwap Router");
      ("0xbb4cdb9cbd36b01bd1cbaebf2de08d9173bc095c", "WBNB")]);
   ("polygon",
     [("0x0000000000000000000000000000000000000000", "Null Address");
      ("0xa5e0829caced8ffdd4de3c43696c57f7d7a678ff", "QuickSwap Router");
      ("0x0d500b1d8e8ef31e21c99d1db9a6444d3adf1270", "WMATIC")])].

Section Engine.
(** [self.blockchain] *)
Variable blockchain : string.
(** [to_checksum_safe] (EIP-55 checksumming through [eth_utils]). *)
Variable to_checksum_safe : string -> string.

Definition known : list (string * string) :=
  match Creator.assoc blockchain KNOWN_ADDRESSES with Some k => k | None => [] end.

(** [known.get(addr, known.get(to_checksum_safe(addr), ""))] *)
Definition label_of (addr : string) : string :=
  match Creator.assoc addr known with
  | Some l => l
  | None => match Creator.assoc (to_checksum_safe addr) known with
            | Some l => l | None => "" end
  end.

Definition degree (m : EdgeMap) (x : string) : Z :=
  Creator.count (fun e => String.eqb (fst (fst e)) x) m
  + Creator.count (fun e => String.eqb (snd (fst e)) x) m.

Record Stats := mkStats {
  total_transactions : Z;
  internal_count : Z;
  token_transfers : Z;
  unique_addresses : Z;
  total_value_in : F64.float;
  total_value_out : F64.float;
  edge_count : Z
}.

Definition valid_tx (tx : GTx) : bool :=
  Py.truthy (Py.lower (g_from tx)) && Py.truthy (Py.lower (g_to tx)).

(** [total_value_in] / [total_value_out] before rounding: float sums from
    [0.0], accumulated over the normal stream only. *)
Definition sum_values (center : string) (incoming : bool) (txs : list GTx) : F64.float :=
  fold_left (fun acc tx =>
               let f := Py.lower (g_from tx) in
               let t := Py.lower (g_to tx) in
               if valid_tx tx && String.eqb (if incoming then t else f) center
               then F64.add acc (value_eth tx) else acc) txs F64.zero.

Definition _build_graph (center_address : string)
    (normal_txns internal_txns token_txns : list GTx) : DiGraph * Stats :=
  let center := Py.lower center_address in
  let m := process token (token_txns)
             (process internal internal_txns (process normal normal_txns [])) in
  let ns := fold_left add_edge_nodes m [] in
  (* [all_addresses]: the endpoints, as a set *)
  let all_addresses := fold_left add_edge_nodes m [] in
  let ns := fold_left (fun ns a => add_node a ns) all_addresses ns in
  let attrs :=
    map (fun a => let l := label_of a in
                  (a, mkNodeAttr l (String.eqb a center) (Py.truthy l) (degree m a)))
        all_addresses in
  let g := mkDiGraph ns m attrs in
  let vin := sum_values center true normal_txns in
  let vout := sum_values center false normal_txns in
  (g, mkStats (Z.of_nat (List.length normal_txns + List.length internal_txns
                         + List.length token_txns))
              (Creator.count valid_tx internal_txns)
              (Creator.count valid_tx token_txns)
              (Z.of_nat (List.length all_addresses)) (F64.round vin 6) (F64.round vout 6)
              (Z.of_nat (List.length m))).

(** Successors of [u], in edge order. *)
Definition succs (g : DiGraph) (u : string) : list string :=
  map (fun e => snd (fst e)) (filter (fun e => String.eqb (fst (fst e)) u) (edges g)).

(** Elementary circuits through [start] whose other nodes lie in
    [allowed]: [path] is the current path, reversed, ending at [u]. *)
Fixpoint circuits (g : DiGraph) (fuel : nat) (start : string)
    (allowed path : list string) (u : string) : list (list string) :=
  match fuel with
  | O => []
  | S f =>
      flat_map (fun v =>
                  if String.eqb v start then [rev path]
                  else if mem v allowed && negb (mem v path)
                  then circuits g f start allowed (v :: path) v
                  else []) (succs g u)
  end.

Fixpoint cycles_from (g : DiGraph) (fuel : nat) (ns : list string) : list (list string) :=
  match ns with
  | [] => []
  | s :: rest => app (circuits g fuel s rest [s] s) (cycles_from g fuel rest)
  end.

(** [nx.simple_cycles(graph)]: every elementary circuit once, rooted at
    its first node in node order (self-loops are circuits of length 1). *)
Definition simple_cycles (g : DiGraph) : list (list string) :=
  cycles_from g (List.length (nodes g)) (nodes g).

Inductive PatternType :=
  circular_flow | high_concentration | dex_activity | pass_through | burn_activity.

Record Pattern := mkPattern { p_type : PatternType; p_severity : string }.

Definition in_edges (g : DiGraph) (c : string) : EdgeMap :=
  filter (fun e => String.eqb (snd (fst e)) c) (edges g).
Definition out_edges (g : DiGraph) (c : string) : EdgeMap :=
  filter (fun e => String.eqb (fst (fst e)) c) (edges g).

Definition DEX_NAMES : list string :=
  ["uniswap"; "sushiswap"; "pancakeswap"; "quickswap"; "router"; "exchange"].

Definition null_addr := "0x0000000000000000000000000000000000000000".
Definition dead_addr := "0x000000000000000000000000000000000000dead".

Definition _detect_patterns (g : DiGraph) (center : string) : list Pattern :=
  if (List.length (nodes g) <? 2)%nat then []
  else
    (* 1. circular flows *)
    let short_cycles := filter (fun c => (2 <=? List.length c)%nat
                                         && (List.length c <=? 5)%nat)
                          (simple_cycles g) in
    let p1 := match short_cycles with
              | [] => [] | _ => [mkPattern circular_flow "warning"] end in
    (* 2. high concentration *)
    let p2 :=
      if mem center (nodes g) then
        let ie := in_edges g center in
        match ie with
        | [] => []
        | _ =>
            let total_in := Creator.sum_z (map (fun e => count (snd e)) ie) in
            let max_w := fold_left Z.max (map (fun e => count (snd e)) ie) 0 in
            (* [max_ratio > 0.5] with [max_ratio = max_w / total_in] *)
            if (0 <? total_in) && (total_in <? 2 * max_w) && (5 <? total_in)
            then [mkPattern high_concentration "info"] else []
        end
      else [] in
    (* 3. DEX interactions *)
    let dex := filter (fun n => let l := Py.lower (label_of n) in
                                existsb (fun d => Py.contains d l) DEX_NAMES)
                      (nodes g) in
    let p3 := match dex with [] => [] | _ => [mkPattern dex_activity "info"] end in
    (* 4. pass-through *)
    let p4 :=
      if mem center (nodes g) then
        let i := Z.of_nat (List.length (in_edges g center)) in
        let o := Z.of_nat (List.length (out_edges g center)) in
        (* [min / max > 0.7] *)
        if (3 <? i) && (3 <? o) && (7 * Z.max i o <? 10 * Z.min i o)
        then [mkPattern pass_through "warning"] else []
      else [] in
    (* 5. burn addresses *)
    let p5 := if mem null_addr (nodes g) || mem dead_addr (nodes g)
              then [mkPattern burn_activity "info"] else [] in
    app p1 (app p2 (app p3 (app p4 p5))).

End Engine.

End Graph.

(** ** Definitions following the spec's words, for comparison *)
Module SpecWords.
Import Scorer.

(** §4.5: "≥85 very_low, ≥70 low, ≥50 medium, ≥30 high, else critical",
    written as the intervals of the claim. *)
Definition tier (o : Z) : RiskLevel :=
  if 85 <=? o then very_low
  else if (70 <=? o) && (o <? 85) then low
  else if (50 <=? o) && (o <? 70) then medium
  else if (30 <=? o) && (o <? 50) then high
  else critical.

(** Position of a tier, from safest to riskiest. *)
Definition rank (r : RiskLevel) : Z :=
  match r with very_low => 0 | low => 1 | medium => 2 | high => 3 | critical => 4 end.

Definition breakdown_ok (sb : ScoreBreakdown) : Prop :=
  0 <= code_quality_score sb <= 25 /\ 0 <= security_score sb <= 40 /\
  0 <= tokenomics_score sb <= 20 /\ 0 <= liquidity_score sb <= 15 /\
  overall_score sb = Py.clamp 0 100 (code_quality_score sb + security_score sb
                                     + tokenomics_score sb + liquidity_score sb).

Definition trust_ok (t : Creator.TrustScore) : Prop :=
  0 <= Creator.wallet_maturity_score t <= 20 /\
  0 <= Creator.deployment_history_score t <= 30 /\
  0 <= Creator.sibling_survival_score t <= 25 /\
  0 <= Creator.funding_transparency_score t <= 15 /\
  0 <= Creator.behavioral_patterns_score t <= 10 /\
  Creator.overall_score t =
    Py.clamp 0 100 (Creator.wallet_maturity_score t + Creator.deployment_history_score t
                    + Creator.sibling_survival_score t
                    + Creator.funding_transparency_score t
                    + Creator.behavioral_patterns_score t).

End SpecWords.

(** ** A concrete chain snapshot for the deployer trace *)
(** ** Further functions of the analyzers *)
Module More.
Import Scorer.

(** [SafetyScorer.get_priority_issues].  A vulnerability's
    [description] and [recommendation] keys are read through
    [vuln_description] and [vuln_recommendation]. *)
Record PriorityIssue := mkIssue {
  pi_severity : string;
  pi_category : string;
  pi_issue : option string;
  pi_recommendation : option string
}.

Section Priority.
Variable vuln_description : Vuln -> option string.
Variable vuln_recommendation : Vuln -> option string.

(** [v.get('severity') == s] *)
Definition severity_is (s : string) (v : Vuln) : bool :=
  match v_severity v with Some s' => String.eqb s' s | None => false end.

Definition get_priority_issues (a : Analysis) : list PriorityIssue :=
  let vulnerabilities := an_vulnerabilities a in
  let critical_vulns := filter (severity_is "critical") vulnerabilities in
  let high_vulns := filter (severity_is "high") vulnerabilities in
  let issues :=
    map (fun v => mkIssue "critical" "security" (vuln_description v)
                    (vuln_recommendation v)) critical_vulns in
  let issues :=
    app issues (map (fun v => mkIssue "high" "security" (vuln_description v)
                                (vuln_recommendation v)) (firstn 3 high_vulns)) in
  let issues :=
    app issues (map (fun f => mkIssue "high" "tokenomics" (Some f)
                                (Some "Review tokenomics carefully"))
                    (firstn 3 (tk_red_flags (an_tokenomics a)))) in
  if negb (lq_is_locked (an_liquidity a)) then
    app issues [mkIssue "critical" "liquidity" (Some "Liquidity is NOT locked")
                  (Some "Extreme caution - developers can remove liquidity at any time")]
  else issues.

End Priority.

(** [EVMAnalyzer._analyze_source_code]: [pattern_vulns] are the entries of
    the [re.finditer] loop over the five patterns, in order; the two
    substring checks that follow are written out. *)
Definition _analyze_source_code (pattern_vulns : list Vuln) (source_code : string) : list Vuln :=
  let vulnerabilities := pattern_vulns in
  let vulnerabilities :=
    if negb (Py.contains "onlyOwner" source_code) && negb (Py.contains "Ownable" source_code)
    then
      if Py.contains "function mint" source_code || Py.contains "function burn" source_code
      then app vulnerabilities [mkVuln (Some "missing_access_control") (Some "high")]
      else vulnerabilities
    else vulnerabilities in
  if Py.contains "function pause" source_code then
    if negb (Py.contains "onlyOwner" source_code)
    then app vulnerabilities [mkVuln (Some "unrestricted_pause") (Some "high")]
    else vulnerabilities
  else vulnerabilities.

(** The dict of [CreatorAnalyzer.get_contract_creator_quick]. *)
Record Quick := mkQuick {
  q_deployer_address : string;
  q_wallet_age_days : Z;
  q_transaction_count : Z;
  q_is_new_wallet : bool
}.

Section QuickCheck.
Import Creator.
Variable p : Provider.

Definition get_contract_creator_quick (a : string) : M (option Quick) :=
  creator_info <- get_contract_creator p a ;;
  match creator_info with
  | None => ret None
  | Some ci =>
      let deployer := ci_deployer ci in
      _u <- sleep ;;
      first_txs <- get_first_transactions p deployer 1 ;;
      let wallet_age_days :=
        match first_txs with
        | [] => 0
        | tx :: _ =>
            let first_ts := tx_timeStamp tx in
            if first_ts =? 0 then 0 else Z.quot (p_now p - first_ts) 86400
        end in
      _u <- sleep ;;
      tx_count <- get_transaction_count p deployer ;;
      ret (Some (mkQuick deployer wallet_age_days tx_count (wallet_age_days <? 7)))
  end.

End QuickCheck.

(** [InteractionAnalyzer._get_top_counterparties]; [total_value_eth] is
    [round(data["value"], 6)]. *)
Record Counterparty := mkCounterparty {
  cp_address : string;
  cp_label : string;
  cp_is_known : bool;
  cp_transaction_count : Z;
  cp_total_value : F64.float;
  cp_types : list Graph.TxType
}.

(** [shorten_address] *)
Definition shorten_address (address : string) : string :=
  if 10 <? Py.len address then
    String.append (substring 0 6 address)
      (String.append "..." (substring (String.length address - 4) 4 address))
  else address.

(** One step of the stable [list.sort(key=..., reverse=True)]: [x] goes
    after every element whose count is at least its own. *)
Fixpoint insert_desc (x : Counterparty) (l : list Counterparty) : list Counterparty :=
  match l with
  | [] => [x]
  | y :: r => if cp_transaction_count y <? cp_transaction_count x then x :: l
              else y :: insert_desc x r
  end.

Definition sort_desc (l : list Counterparty) : list Counterparty :=
  fold_left (fun acc x => insert_desc x acc) l [].

Inductive Direction := dir_in | dir_out.

Section Counterparties.
Import Graph.
Variable blockchain : string.
Variable to_checksum_safe : string -> string.

Definition _get_top_counterparties (g : DiGraph) (center : string)
    (direction : Direction) (limit : nat) : list Counterparty :=
  let es :=
    if mem center (nodes g) then
      match direction with dir_in => in_edges g center | dir_out => out_edges g center end
    else [] in
  let counterparties :=
    map (fun e =>
           let addr := match direction with
                       | dir_in => fst (fst e) | dir_out => snd (fst e) end in
           let label := label_of blockchain to_checksum_safe addr in
           mkCounterparty addr (if Py.truthy label then label else shorten_address addr)
             (Py.truthy label) (count (snd e)) (F64.round (total_value (snd e)) 6)
             (types (snd e)))
        es in
  firstn limit (sort_desc counterparties).

End Counterparties.

End More.

Module Fixture.
Import Creator.

Definition T0 : Z := 1600000000.
Definition DAY : Z := 86400.

Definition sib_addr (i : Z) : string := String.append "0x5b" (Fmt.z_to_dec i).
Definition sib_ts (i : Z) : Z := T0 + 2 * DAY * i.

(** The deployer's [txlist]: [n] contract creations, newest first. *)
Definition creations (n : nat) : list Tx :=
  map (fun k => let i := Z.of_nat k in
                mkTx "0xdeployer" "" 0 (sib_ts i) (sib_addr i) "0xh" "")
      (rev (seq 0 n)).

(** Every sibling last moved 30 days after its creation. *)
Definition sibling_activity (i : Z) : list Tx :=
  [mkTx "0xuser" (sib_addr i) 0 (sib_ts i + 30 * DAY) "" "0xh" "0xa9059cbb"].

Fixpoint activity_of (a : string) (k : nat) : list Tx :=
  match k with
  | O => []
  | S k' => if String.eqb a (sib_addr (Z.of_nat k')) then sibling_activity (Z.of_nat k')
            else activity_of a k'
  end.

(** A target ["0xtarget"] deployed by the EOA ["0xdeployer"], which also
    created [n] other contracts. *)
Definition provider (n : nat) : Provider :=
  mkProvider (T0 + 1000 * DAY)
    (fun a => if String.eqb a "0xtarget" then Some (mkCreatorInfo "0xdeployer" "0xc0")
              else None)
    (fun a => if String.eqb a "0xdeployer" then "0x" else "0x6080")
    (fun _ _ => [])
    (fun _ => 0)
    (fun _ => 0)
    (fun a _ => if String.eqb a "0xdeployer" then creations n else activity_of a n)
    (fun _ => None).

(** A provider without a creation record for anything. *)
Definition no_record : Provider :=
  mkProvider T0 (fun _ => None) (fun _ => "0x") (fun _ _ => []) (fun _ => 0)
    (fun _ => 0) (fun _ _ => []) (fun _ => None).

End Fixture.

Module CallLog.
Import Creator.

(** A computation whose result does not depend on the log and which only
    appends to it. *)
Definition pure_log {A} (m : M A) : Prop :=
  forall log, m log = (fst (m []), app log (snd (m []))).

(** Targets of [get_token_info], the one call made only by
    [_check_sibling_health]. *)
Definition token_info_target (c : Call) : list string :=
  match c with CTokenInfo a => [a] | _ => [] end.
Definition deep_checked (log : list Call) : list string :=
  flat_map token_info_target log.

(** The calls of one deep check: bytecode, token info, last transactions,
    then the pacing delay. *)
Definition sibling_calls (s : Sibling) : list Call :=
  [CCode (sib_address s); CTokenInfo (sib_address s);
   CHistory (sib_address s) 5; CSleep].

Definition quiet {A} (m : M A) : Prop := deep_checked (snd (m [])) = [].

End CallLog.

(** * Proofs *)

Module ScorerFacts.
Import Scorer.

Lemma deduction_pos s : 2 <= deduction s <= 15.
Proof. unfold deduction; repeat destruct (String.eqb _ _); lia. Qed.

Lemma fold_deductions_le (l : list Vuln) (x : Z) :
  fold_left (fun sc v => sc - deduction (severity_of v)) l x <= x.
Proof.
  revert x; induction l as [|v l IH]; intro x; simpl; [lia|].
  specialize (IH (x - deduction (severity_of v))).
  pose proof (deduction_pos (severity_of v)); lia.
Qed.

Lemma security_range a : 0 <= _calculate_security_score a <= 40.
Proof.
  unfold _calculate_security_score.
  pose proof (fold_deductions_le (an_vulnerabilities a) 40).
  repeat match goal with |- context [if ?b then _ else _] => destruct b end; lia.
Qed.

Lemma liquidity_range a : 0 <= _calculate_liquidity_score a <= 15.
Proof.
  unfold _calculate_liquidity_score.
  destruct (lq_is_locked _); [|lia].
  repeat match goal with |- context [if ?b then _ else _] => destruct b end; lia.
Qed.

Lemma code_quality_range a :
  (forall s, cq_score (an_code_quality a) = Some s -> 0 <= s <= 25) ->
  0 <= _calculate_code_quality_score a <= 25.
Proof.
  intro H. unfold _calculate_code_quality_score.
  destruct (cq_score _) as [s|] eqn:E; [now apply H|].
  destruct (cq_license _) as [l|];
  repeat match goal with |- context [if ?b then _ else _] => destruct b end; lia.
Qed.

Lemma tokenomics_range a :
  (forall s, tk_score (an_tokenomics a) = Some s -> 0 <= s <= 20) ->
  0 <= _calculate_tokenomics_score a <= 20.
Proof.
  intro H. unfold _calculate_tokenomics_score.
  destruct (tk_score _) as [s|]; [now apply H|]. lia.
Qed.

Lemma calculate_score_ok a :
  (forall s, cq_score (an_code_quality a) = Some s -> 0 <= s <= 25) ->
  (forall s, tk_score (an_tokenomics a) = Some s -> 0 <= s <= 20) ->
  SpecWords.breakdown_ok (calculate_score a).
Proof.
  intros Hc Ht.
  pose proof (code_quality_range a Hc). pose proof (tokenomics_range a Ht).
  pose proof (security_range a). pose proof (liquidity_range a).
  unfold SpecWords.breakdown_ok, calculate_score, Py.clamp; simpl. lia.
Qed.

Lemma analyze_code_quality_range sd s :
  cq_score (EVM._analyze_code_quality sd) = Some s -> 0 <= s <= 25.
Proof.
  unfold EVM._analyze_code_quality; simpl.
  destruct (Py.truthy _); [destruct (EVM.search_version _) as [[[ma mi] pa]|]|];
    simpl;
    repeat match goal with |- context [if ?b then _ else _] => destruct b end;
    intro E; injection E; intros; lia.
Qed.

Lemma tokenomics_score_range t st :
  0 <= Tokenomics._calculate_tokenomics_score t st <= 20.
Proof.
  unfold Tokenomics._calculate_tokenomics_score.
  repeat match goal with |- context [if ?b then _ else _] => destruct b end; lia.
Qed.

Lemma pipeline_analysis_ranges valid src sv bc scanv ts :
  let a := Pipeline.base_analysis (EVM.analyze_contract valid src sv bc) scanv ts in
  (forall s, cq_score (an_code_quality a) = Some s -> 0 <= s <= 25) /\
  (forall s, tk_score (an_tokenomics a) = Some s -> 0 <= s <= 20).
Proof.
  cbv zeta. split.
  - intro s. unfold Pipeline.base_analysis; simpl.
    unfold EVM.analyze_contract.
    destruct valid; simpl; [|discriminate].
    destruct src as [sd|]; simpl;
      destruct (Py.truthy bc && _); simpl;
      try apply analyze_code_quality_range; discriminate.
  - intro s. unfold Pipeline.base_analysis; simpl.
    destruct (Pipeline.source_truthy _); simpl; [|discriminate].
    intro E; injection E as <-. unfold Tokenomics.analyze.
    repeat match goal with |- context [let '(_, _) := ?x in _] => destruct x end.
    simpl. apply tokenomics_score_range.
Qed.

End ScorerFacts.

Module CreatorFacts.
Import Creator.

Ltac split_ifs :=
  repeat match goal with
         | |- context [if ?b then _ else _] => destruct b eqn:?
         | |- context [match ?l with [] => _ | _ :: _ => _ end] => destruct l
         end.

Lemma count_le {A} (f : A -> bool) l : 0 <= count f l <= Z.of_nat (List.length l).
Proof.
  unfold count. split; [lia|].
  induction l as [|x l IH]; simpl; [lia|].
  destruct (f x); simpl; lia.
Qed.

Lemma round_div_range a b :
  0 < b -> 0 <= a <= 25 * b -> 0 <= Py.round_div a b <= 25.
Proof.
  intros Hb Ha. unfold Py.round_div.
  pose proof (Z.div_mod a b ltac:(lia)) as Hd.
  pose proof (Z.mod_pos_bound a b Hb) as Hr.
  set (q := a / b) in *. set (r := a mod b) in *.
  assert (0 <= q) by nia. assert (q <= 25) by nia.
  destruct (2 * r <? b) eqn:E1; [lia|].
  apply Z.ltb_ge in E1.
  assert (q < 25) by nia.
  destruct (b <? 2 * r); [lia|]. destruct (Z.even q); lia.
Qed.

Lemma transparency_le (flags : list RedFlag) x :
  fold_left (fun t f => match rf_type f with
                        | mixer_funding => t - 15
                        | brand_new_wallet => t - 10
                        | very_new_wallet => t - 5
                        | no_history => t - 10
                        end) flags x <= x.
Proof.
  revert x; induction flags as [|f fl IH]; intro x; simpl; [lia|].
  destruct (rf_type f);
    match goal with |- fold_left _ _ ?y <= _ => specialize (IH y) end; lia.
Qed.

Lemma trust_score_ok now dep sibs flags :
  SpecWords.trust_ok (_calculate_creator_trust_score now dep sibs flags).
Proof.
  unfold SpecWords.trust_ok, _calculate_creator_trust_score;
  cbn [wallet_maturity_score deployment_history_score sibling_survival_score
       funding_transparency_score behavioral_patterns_score overall_score].
  unfold CheckedSibling in *.
  repeat match goal with
         | |- context [count ?f ?l] =>
             let c := fresh "c" in
             pose proof (count_le f l); set (c := count f l) in *; clearbody c
         | |- context [fold_left ?g flags 15] =>
             let t := fresh "t" in
             assert (fold_left g flags 15 <= 15) by apply transparency_le;
             set (t := fold_left g flags 15) in *; clearbody t
         end.
  repeat split; try reflexivity; split_ifs; try lia.
  all: repeat match goal with H : (_ =? _) = false |- _ => apply Z.eqb_neq in H end.
  all: match goal with
       | |- context [Py.round_div ?a ?b] =>
           assert (0 <= Py.round_div a b <= 25) by (apply round_div_range; lia)
       end; lia.
Qed.

End CreatorFacts.

Module TierFacts.
Import Scorer.

Lemma determine_risk_level_spec o : _determine_risk_level o = SpecWords.tier o.
Proof.
  unfold _determine_risk_level, SpecWords.tier.
  destruct (Z.leb_spec 85 o), (Z.leb_spec 70 o), (Z.ltb_spec o 85),
           (Z.leb_spec 50 o), (Z.ltb_spec o 70), (Z.leb_spec 30 o),
           (Z.ltb_spec o 50); simpl; try reflexivity; lia.
Qed.

Lemma tier_antitone o1 o2 :
  o1 <= o2 -> SpecWords.rank (SpecWords.tier o2) <= SpecWords.rank (SpecWords.tier o1).
Proof.
  intro H. rewrite <- !determine_risk_level_spec. unfold _determine_risk_level.
  destruct (Z.leb_spec 85 o1), (Z.leb_spec 70 o1), (Z.leb_spec 50 o1),
           (Z.leb_spec 30 o1), (Z.leb_spec 85 o2), (Z.leb_spec 70 o2),
           (Z.leb_spec 50 o2), (Z.leb_spec 30 o2); simpl; lia.
Qed.

Lemma creator_risk_level_spec now dep sibs flags :
  let t := Creator._calculate_creator_trust_score now dep sibs flags in
  Creator.risk_level t = SpecWords.tier (Creator.overall_score t).
Proof.
  cbv zeta. unfold Creator._calculate_creator_trust_score.
  cbn [Creator.risk_level Creator.overall_score].
  set (total := Z.max 0 (Z.min 100 _)).
  rewrite <- determine_risk_level_spec. reflexivity.
Qed.

End TierFacts.

(** C1: every sub-score of a ScoreBreakdown produced by the pipeline and of a
    CreatorTrustScore lies in its documented range ([0,25], [0,40], [0,20],
    [0,15]; [0,20], [0,30], [0,25], [0,15], [0,10]) and the overall score is
    [clamp(sum of the parts, 0, 100)]. *)
Theorem C1_scores_within_ranges :
  (forall valid src source_vulns bytecode scanner_vulns tok_scan sb,
      Pipeline.scores valid src source_vulns bytecode scanner_vulns tok_scan = Some sb ->
      SpecWords.breakdown_ok sb) /\
  (forall now dep siblings flags,
      SpecWords.trust_ok (Creator._calculate_creator_trust_score now dep siblings flags)).
Proof.
  split.
  - intros valid src sv bc scanv ts sb H.
    unfold Pipeline.scores in H.
    destruct (EVM.er_error _); [discriminate|].
    injection H as <-.
    destruct (ScorerFacts.pipeline_analysis_ranges valid src sv bc scanv ts) as [Hc Ht].
    now apply ScorerFacts.calculate_score_ok.
  - intros. apply CreatorFacts.trust_score_ok.
Qed.

(** C2: the risk tier is the same step function of the overall score in the
    Score Aggregator and in the Creator Trust Score: very_low from 85, low on
    [70,85), medium on [50,70), high on [30,50), critical below; it is
    antitone in the score, with the listed values at 85, 84, 70, 69, 50, 49,
    30, 29 and 0. *)
Theorem C2_risk_tier_step_function :
  (forall o, Scorer._determine_risk_level o = SpecWords.tier o) /\
  (forall a, Scorer.risk_level (Scorer.calculate_score a)
             = SpecWords.tier (Scorer.overall_score (Scorer.calculate_score a))) /\
  (forall now dep siblings flags,
      let t := Creator._calculate_creator_trust_score now dep siblings flags in
      Creator.risk_level t = SpecWords.tier (Creator.overall_score t)) /\
  (forall o1 o2, o1 <= o2 ->
      SpecWords.rank (SpecWords.tier o2) <= SpecWords.rank (SpecWords.tier o1)) /\
  map Scorer._determine_risk_level [85; 84; 70; 69; 50; 49; 30; 29; 0]
  = [Scorer.very_low; Scorer.low; Scorer.low; Scorer.medium; Scorer.medium;
     Scorer.high; Scorer.high; Scorer.critical; Scorer.critical].
Proof.
  split; [exact TierFacts.determine_risk_level_spec|].
  split; [intro a; apply TierFacts.determine_risk_level_spec|].
  split; [exact TierFacts.creator_risk_level_spec|].
  split; [exact TierFacts.tier_antitone|].
  reflexivity.
Qed.

(** Witness for C2: the antitone clause at 29 <= 85. *)
Lemma C2_witness :
  29 <= 85 /\ SpecWords.rank (SpecWords.tier 85) <= SpecWords.rank (SpecWords.tier 29).
Proof.
  split; [lia|].
  destruct C2_risk_tier_step_function as [_ [_ [_ [Hm _]]]].
  apply Hm. lia.
Defined.

(** Witness for C1: an unverified contract with code ["0x6080"]. *)
Lemma C1_witness :
  exists sb,
    Pipeline.scores true None [] "0x6080" []
      (Tokenomics.mkScan [] false false false false false false false false false) = Some sb
    /\ SpecWords.breakdown_ok sb.
Proof.
  eexists; split; [reflexivity|].
  apply (proj1 C1_scores_within_ranges true None [] "0x6080" []
           (Tokenomics.mkScan [] false false false false false false false false false)).
  reflexivity.
Defined.

Module SecurityFacts.
Import Scorer.

Lemma type_in_single t v :
  type_in t [v] = match v_type v with Some t' => String.eqb t t' | None => false end.
Proof. unfold type_in; simpl. destruct (v_type v); [apply orb_false_r|reflexivity]. Qed.

End SecurityFacts.

(** C3 (as stated, refuted): one signal of severity critical does not always
    give 25; a critical [honeypot_pattern] signal also takes the flat -10. *)
Lemma C3_counterexample :
  ~ (forall a v, Scorer.an_vulnerabilities a = [v] ->
                 Scorer.v_severity v = Some "critical" ->
                 Scorer._calculate_security_score a = 25).
Proof.
  intro H.
  specialize (H (Scorer.mkAnalysis true Scorer.empty_cq
                   [Scorer.mkVuln (Some "honeypot_pattern") (Some "critical")]
                   Scorer.empty_tok Scorer.empty_liq)
                (Scorer.mkVuln (Some "honeypot_pattern") (Some "critical"))
                eq_refl eq_refl).
  vm_compute in H. discriminate.
Qed.

(** C3 (amended): the security sub-score is exactly 40 for an empty signal
    list; exactly 25 for a single critical signal whose type is neither
    [reentrancy] nor [honeypot_pattern]; 40 - (10 + 5) = 25 for a single
    high-severity [reentrancy] signal; 40 - (15 + 10) = 15 for a single
    critical [honeypot_pattern] signal; 40 - (15 + 5) = 20 for a single
    critical [reentrancy] signal; and never below 0. *)
Theorem C3_security_score_cases :
  (forall a, Scorer.an_vulnerabilities a = [] -> Scorer._calculate_security_score a = 40) /\
  (forall a v, Scorer.an_vulnerabilities a = [v] ->
               Scorer.v_severity v = Some "critical" ->
               Scorer.v_type v <> Some "reentrancy" ->
               Scorer.v_type v <> Some "honeypot_pattern" ->
               Scorer._calculate_security_score a = 25) /\
  (forall a v, Scorer.an_vulnerabilities a = [v] ->
               Scorer.v_type v = Some "reentrancy" ->
               Scorer.v_severity v = Some "high" ->
               Scorer._calculate_security_score a = 40 - (10 + 5)) /\
  (forall a v, Scorer.an_vulnerabilities a = [v] ->
               Scorer.v_type v = Some "honeypot_pattern" ->
               Scorer.v_severity v = Some "critical" ->
               Scorer._calculate_security_score a = 40 - (15 + 10)) /\
  (forall a v, Scorer.an_vulnerabilities a = [v] ->
               Scorer.v_type v = Some "reentrancy" ->
               Scorer.v_severity v = Some "critical" ->
               Scorer._calculate_security_score a = 40 - (15 + 5)) /\
  (forall a, 0 <= Scorer._calculate_security_score a).
Proof.
  split; [|split; [|split; [|split; [|split]]]].
  - intros a H. unfold Scorer._calculate_security_score. rewrite H. reflexivity.
  - intros a v H Hs Hr Hh. unfold Scorer._calculate_security_score. rewrite H.
    rewrite !SecurityFacts.type_in_single.
    unfold Scorer.severity_of. cbn [fold_left]. rewrite Hs.
    destruct (Scorer.v_type v) as [t|]; [|reflexivity].
    destruct (String.eqb_spec "reentrancy" t); [subst; contradiction|].
    destruct (String.eqb_spec "honeypot_pattern" t); [subst; contradiction|].
    reflexivity.
  - intros a v H Hr Hs. unfold Scorer._calculate_security_score. rewrite H.
    rewrite !SecurityFacts.type_in_single.
    unfold Scorer.severity_of. cbn [fold_left]. rewrite Hs, Hr. reflexivity.
  - intros a v H Hh Hs. unfold Scorer._calculate_security_score. rewrite H.
    rewrite !SecurityFacts.type_in_single.
    unfold Scorer.severity_of. cbn [fold_left]. rewrite Hs, Hh. reflexivity.
  - intros a v H Hr Hs. unfold Scorer._calculate_security_score. rewrite H.
    rewrite !SecurityFacts.type_in_single.
    unfold Scorer.severity_of. cbn [fold_left]. rewrite Hs, Hr. reflexivity.
  - intro a. apply ScorerFacts.security_range.
Qed.

(** Witness for C3: one critical [delegatecall]-typed signal, one high
    [reentrancy] signal, one critical [honeypot_pattern] signal, one
    critical [reentrancy] signal, and the empty list. *)
Lemma C3_witness :
  Scorer._calculate_security_score
    (Scorer.mkAnalysis true Scorer.empty_cq [] Scorer.empty_tok Scorer.empty_liq) = 40 /\
  Scorer._calculate_security_score
    (Scorer.mkAnalysis true Scorer.empty_cq
       [Scorer.mkVuln (Some "delegatecall") (Some "critical")]
       Scorer.empty_tok Scorer.empty_liq) = 25 /\
  Scorer._calculate_security_score
    (Scorer.mkAnalysis true Scorer.empty_cq
       [Scorer.mkVuln (Some "reentrancy") (Some "high")]
       Scorer.empty_tok Scorer.empty_liq) = 40 - (10 + 5) /\
  Scorer._calculate_security_score
    (Scorer.mkAnalysis true Scorer.empty_cq
       [Scorer.mkVuln (Some "honeypot_pattern") (Some "critical")]
       Scorer.empty_tok Scorer.empty_liq) = 40 - (15 + 10) /\
  Scorer._calculate_security_score
    (Scorer.mkAnalysis true Scorer.empty_cq
       [Scorer.mkVuln (Some "reentrancy") (Some "critical")]
       Scorer.empty_tok Scorer.empty_liq) = 40 - (15 + 5).
Proof.
  destruct C3_security_score_cases as [H0 [H1 [H2 [H3 [H4 _]]]]].
  split; [apply H0; reflexivity|split; [|split; [|split]]].
  - eapply H1; [reflexivity|reflexivity|discriminate|discriminate].
  - eapply H2; reflexivity.
  - eapply H3; reflexivity.
  - eapply H4; reflexivity.
Defined.

(** C9: with buyFee = 300 and sellFee = 400 basis points, fees not
    modifiable, no blacklist, no mint, no max-transaction limit and not
    pausable, the tokenomics sub-score is 5 + 3 + 4 + 4 + 2 + 2 = 20. *)
Theorem C9_tokenomics_score_20 :
  forall (a : Tokenomics.TokAnalysis) (st : Tokenomics.Self),
    Tokenomics.buy_fee (Tokenomics.fees a) = Some 300 ->
    Tokenomics.sell_fee (Tokenomics.fees a) = Some 400 ->
    Tokenomics.is_modifiable (Tokenomics.fees a) = false ->
    Tokenomics.blacklist_mechanism a = false ->
    Tokenomics.mint_mechanism a = false ->
    Tokenomics.max_transaction_limit a = false ->
    Tokenomics.pausable a = false ->
    Tokenomics._calculate_tokenomics_score a st = 5 + 3 + 4 + 4 + 2 + 2.
Proof.
  intros a st Hb Hs Hm Hbl Hmi Hmx Hp.
  unfold Tokenomics._calculate_tokenomics_score.
  rewrite Hb, Hs, Hm, Hbl, Hmi, Hmx, Hp. reflexivity.
Qed.

(** Witness for C9: the analyzer run on a source whose only findings are
    [buyFee = 300] and [sellFee = 400]. *)
Lemma C9_witness :
  let r := Tokenomics.analyze
             (Tokenomics.mkScan [("buyFee", 300); ("sellFee", 400)]
                false false false false false false false false false) in
  Tokenomics._calculate_tokenomics_score r (Tokenomics.mkSelf [] []) = 5 + 3 + 4 + 4 + 2 + 2
  /\ Tokenomics.score r = 20.
Proof.
  cbv zeta. split; [|reflexivity].
  apply C9_tokenomics_score_20; reflexivity.
Defined.

Module EvmFacts.
Import Scorer.

Lemma bytecode_types b :
  Forall (fun v => v_type v <> Some "unverified_contract") (EVM._analyze_bytecode b).
Proof.
  unfold EVM._analyze_bytecode.
  destruct (Py.contains _ _), (24576 <? _); simpl;
    repeat constructor; discriminate.
Qed.

Lemma unverified_vulns b sv :
  EVM.er_vulnerabilities (EVM.analyze_contract true None sv b) = []
  \/ EVM.er_vulnerabilities (EVM.analyze_contract true None sv b) = EVM._analyze_bytecode b.
Proof.
  unfold EVM.analyze_contract; simpl.
  destruct (Py.truthy b && _); simpl; [right|left]; reflexivity.
Qed.

End EvmFacts.

(** C10: for an unverified contract the [unverified_contract] high-severity
    entry goes to [warnings], never to [vulnerabilities]; when the bytecode
    checks yield no signal the vulnerability list is empty and the security
    sub-score is exactly 40 (also through the whole pipeline). *)
Theorem C10_unverified_is_warning_only :
  forall source_vulns bytecode,
    let r := EVM.analyze_contract true None source_vulns bytecode in
    In EVM.unverified_warning (EVM.er_warnings r) /\
    EVM.w_severity EVM.unverified_warning = "high" /\
    Forall (fun v => Scorer.v_type v <> Some "unverified_contract")
           (EVM.er_vulnerabilities r) /\
    (EVM._analyze_bytecode bytecode = [] ->
       EVM.er_vulnerabilities r = [] /\
       (forall scanner_vulns tok_scan,
           Scorer._calculate_security_score
             (Pipeline.base_analysis r scanner_vulns tok_scan) = 40) /\
       (forall scanner_vulns tok_scan sb,
           Pipeline.scores true None source_vulns bytecode scanner_vulns tok_scan = Some sb ->
           Scorer.security_score sb = 40)).
Proof.
  intros sv b. cbv zeta.
  assert (Hw : EVM.er_warnings (EVM.analyze_contract true None sv b) = [EVM.unverified_warning])
    by (unfold EVM.analyze_contract; simpl; destruct (_ && _); reflexivity).
  assert (Hs : EVM.er_source_code (EVM.analyze_contract true None sv b) = None)
    by (unfold EVM.analyze_contract; simpl; destruct (_ && _); reflexivity).
  split; [rewrite Hw; now left|].
  split; [reflexivity|].
  split.
  { destruct (EvmFacts.unverified_vulns b sv) as [E|E]; rewrite E;
      [constructor|apply EvmFacts.bytecode_types]. }
  intro Hb.
  assert (Hv : EVM.er_vulnerabilities (EVM.analyze_contract true None sv b) = [])
    by (destruct (EvmFacts.unverified_vulns b sv) as [E|E]; rewrite E; [reflexivity|exact Hb]).
  assert (Hsec : forall scanv ts,
             Scorer._calculate_security_score
               (Pipeline.base_analysis (EVM.analyze_contract true None sv b) scanv ts) = 40).
  { intros scanv ts. unfold Pipeline.base_analysis, Pipeline.source_truthy.
    rewrite Hs. unfold Scorer._calculate_security_score; simpl. rewrite Hv. reflexivity. }
  split; [exact Hv|]. split; [exact Hsec|].
  intros scanv ts sb H. unfold Pipeline.scores in H.
  destruct (EVM.er_error _); [discriminate|]. injection H as <-.
  apply Hsec.
Qed.

(** Witness for C10: runtime code ["0x6080"] has no [ff] byte and is small. *)
Lemma C10_witness :
  EVM._analyze_bytecode "0x6080" = [] /\
  Scorer.security_score
    (Scorer.calculate_score
       (Pipeline.base_analysis (EVM.analyze_contract true None [] "0x6080") []
          (Tokenomics.mkScan [] false false false false false false false false false))) = 40.
Proof.
  split; [reflexivity|].
  destruct (C10_unverified_is_warning_only [] "0x6080") as [_ [_ [_ H]]].
  apply (H eq_refl).
Defined.

Module TraceFacts.
Import Creator CallLog.

Lemma pure_ret {A} (x : A) : pure_log (ret x).
Proof. intro log. unfold ret; simpl. now rewrite app_nil_r. Qed.

Lemma pure_emit {A} c (x : A) : pure_log (emit c x).
Proof. intro log. reflexivity. Qed.

Lemma pure_bind {A B} (m : M A) (k : A -> M B) :
  pure_log m -> (forall x, pure_log (k x)) -> pure_log (bind m k).
Proof.
  intros Hm Hk log. unfold bind.
  rewrite (Hm log). destruct (m []) as [a e]; simpl.
  rewrite (Hk a (app log e)), (Hk a e). simpl. now rewrite app_assoc.
Qed.

Lemma deep_checked_app l1 l2 :
  deep_checked (app l1 l2) = app (deep_checked l1) (deep_checked l2).
Proof. unfold deep_checked. apply flat_map_app. Qed.

Lemma quiet_ret {A} (x : A) : quiet (ret x).
Proof. reflexivity. Qed.

Lemma quiet_emit {A} c (x : A) : (forall a, c <> CTokenInfo a) -> quiet (emit c x).
Proof. intro H. unfold quiet; simpl. destruct c; try reflexivity. now destruct (H a). Qed.

Lemma quiet_bind {A B} (m : M A) (k : A -> M B) :
  pure_log m -> quiet m -> (forall x, pure_log (k x)) -> (forall x, quiet (k x)) ->
  quiet (bind m k).
Proof.
  intros Pm Qm Pk Qk. unfold quiet, bind in *.
  destruct (m []) as [a e]; simpl in *.
  rewrite (Pk a e). simpl. rewrite deep_checked_app, Qm, (Qk a). reflexivity.
Qed.

Ltac calls_unfold :=
  unfold get_contract_creator, get_contract_code, get_first_transactions,
    get_balance, get_transaction_count, get_transaction_history, get_token_info,
    sleep in *.

Ltac pure_tac :=
  repeat first
    [ progress calls_unfold
    | progress cbv beta zeta
    | apply pure_ret
    | apply pure_emit
    | apply pure_bind; [|intro]
    | match goal with
      | |- pure_log (match ?x with _ => _ end) => destruct x
      | |- pure_log (if ?b then _ else _) => destruct b
      end ].

Ltac quiet_tac :=
  repeat first
    [ progress calls_unfold
    | progress cbv beta zeta
    | apply quiet_ret
    | apply quiet_emit; discriminate
    | apply quiet_bind; [pure_tac|..|intro|intro]; [|pure_tac|]
    | match goal with
      | |- quiet (match ?x with _ => _ end) => destruct x
      | |- quiet (if ?b then _ else _) => destruct b
      end ].

Section P.
Variable p : Provider.
Variable chain : string.

Lemma health_pure a : pure_log (_check_sibling_health p a).
Proof. unfold _check_sibling_health. pure_tac. Qed.

Lemma deep_check_pure l : pure_log (deep_check p l).
Proof.
  induction l as [|s l IH]; simpl; [apply pure_ret|].
  apply pure_bind; [apply health_pure|intro h].
  apply pure_bind; [unfold sleep; apply pure_emit|intros _].
  apply pure_bind; [exact IH|intro]. apply pure_ret.
Qed.

Lemma health_calls a :
  snd (_check_sibling_health p a []) = [CCode a; CTokenInfo a; CHistory a 5] /\
  lifespan_days (fst (_check_sibling_health p a [])) = 0.
Proof.
  unfold _check_sibling_health. calls_unfold. unfold bind, emit, ret.
  cbn -[Py.len is_removal_sig].
  destruct (p_token_info p a), (p_transaction_history p a 5) as [|tx r];
    try destruct (tx_timeStamp tx =? 0); split; reflexivity.
Qed.

Lemma deep_check_calls l :
  snd (deep_check p l []) = flat_map sibling_calls l /\
  map fst (fst (deep_check p l [])) = l /\
  Forall (fun sh => lifespan_days (snd sh) = 0) (fst (deep_check p l [])).
Proof.
  induction l as [|s l [IH1 [IH2 IH3]]]; [repeat constructor|].
  destruct (health_calls (sib_address s)) as [H1 H2].
  cbn [deep_check]. unfold bind. cbv beta.
  destruct (_check_sibling_health p (sib_address s) []) as [h e]; cbn in H1, H2.
  subst e. unfold sleep, emit, ret.
  rewrite (deep_check_pure l).
  destruct (deep_check p l []) as [rest e2]; cbn in IH1, IH2, IH3 |- *.
  split; [|split].
  - rewrite IH1. reflexivity.
  - f_equal. exact IH2.
  - constructor; [exact H2|exact IH3].
Qed.

Lemma profile_pure d : pure_log (_get_deployer_profile p chain d).
Proof. unfold _get_deployer_profile. pure_tac. Qed.
Lemma profile_quiet d : quiet (_get_deployer_profile p chain d).
Proof. unfold _get_deployer_profile. quiet_tac. Qed.
Lemma find_pure d x : pure_log (_find_sibling_contracts p d x).
Proof. unfold _find_sibling_contracts. pure_tac. Qed.
Lemma find_quiet d x : quiet (_find_sibling_contracts p d x).
Proof. unfold _find_sibling_contracts. quiet_tac. Qed.
Lemma flags_pure d : pure_log (_detect_funding_source_red_flags p chain d).
Proof. unfold _detect_funding_source_red_flags. pure_tac. Qed.
Lemma flags_quiet d : quiet (_detect_funding_source_red_flags p chain d).
Proof. unfold _detect_funding_source_red_flags. quiet_tac. Qed.
Lemma factory_pure d : pure_log (resolve_factory p d).
Proof. unfold resolve_factory. pure_tac. Qed.
Lemma factory_quiet d : quiet (resolve_factory p d).
Proof. unfold resolve_factory. quiet_tac. Qed.

Lemma deep_checked_siblings l :
  deep_checked (flat_map sibling_calls l) = map sib_address l.
Proof.
  induction l as [|s l IH]; [reflexivity|].
  cbn [flat_map map]. rewrite deep_checked_app, IH. reflexivity.
Qed.

(** The trace of a target that has a creation record: the deployer after
    the factory step, the siblings found from its history, the calls made
    and the checked siblings. *)
Lemma analyze_some a ci :
  p_contract_creator p a = Some ci ->
  let d := fst (fst (resolve_factory p (ci_deployer ci) [])) in
  let sibs := fst (_find_sibling_contracts p d a []) in
    option_map pr_address (deployer (fst (analyze_creator p chain a []))) = Some d /\
    deep_checked (snd (analyze_creator p chain a [])) = map sib_address (firstn MAX_SIBLING_DEEP_CHECK sibs) /\
    total_siblings (fst (analyze_creator p chain a [])) = Some (Z.of_nat (List.length sibs)) /\
    map fst (sibling_contracts (fst (analyze_creator p chain a []))) = firstn MAX_SIBLING_DEEP_CHECK sibs /\
    checked_siblings (fst (analyze_creator p chain a [])) =
      Some (Z.of_nat (List.length (firstn MAX_SIBLING_DEEP_CHECK sibs))) /\
    Forall (fun sh => lifespan_days (snd sh) = 0) (sibling_contracts (fst (analyze_creator p chain a []))).
Proof.
  intro Hc. cbv zeta. remember (analyze_creator p chain a []) as R eqn:ER.
  unfold analyze_creator, get_contract_creator, sleep, bind, emit in ER.
  cbv beta in ER. rewrite Hc in ER. cbv iota beta in ER.
  rewrite (factory_pure (ci_deployer ci)) in ER.
  pose proof (factory_quiet (ci_deployer ci)) as Q1. unfold quiet in Q1.
  destruct (resolve_factory p (ci_deployer ci) []) as [[d isf] e1]; cbn [fst snd] in Q1, ER |- *.
  rewrite (profile_pure d) in ER.
  pose proof (profile_quiet d) as Q2. unfold quiet in Q2.
  destruct (_get_deployer_profile p chain d []) as [prof e2]; cbn [fst snd] in Q2, ER.
  rewrite (find_pure d a) in ER.
  pose proof (find_quiet d a) as Q3. unfold quiet in Q3.
  destruct (_find_sibling_contracts p d a []) as [sibs e3]; cbn [fst snd] in Q3, ER |- *.
  rewrite (deep_check_pure (firstn MAX_SIBLING_DEEP_CHECK sibs)) in ER.
  destruct (deep_check_calls (firstn MAX_SIBLING_DEEP_CHECK sibs)) as [D1 [D2 D3]].
  destruct (deep_check p (firstn MAX_SIBLING_DEEP_CHECK sibs) []) as [checked e4];
    cbn [fst snd] in D1, D2, D3, ER. subst e4.
  rewrite (flags_pure d) in ER.
  pose proof (flags_quiet d) as Q5. unfold quiet in Q5.
  destruct (_detect_funding_source_red_flags p chain d []) as [flags e5]; cbn [fst snd] in Q5, ER.
  unfold ret in ER. subst R.
  cbn [fst snd total_siblings sibling_contracts checked_siblings deployer option_map pr_address].
  rewrite !deep_checked_app, Q1, Q2, Q3, Q5, deep_checked_siblings.
  split; [reflexivity|].
  split; [cbn; now rewrite !app_nil_r|]. split; [reflexivity|]. split; [exact D2|].
  split; [|exact D3].
  rewrite <- D2, length_map. reflexivity.
Qed.

(** Without a creation record the trace stops at its first call. *)
Lemma analyze_none a :
  p_contract_creator p a = None ->
  analyze_creator p chain a [] = (creator_not_found a, [CCreator a]).
Proof.
  intro Hc. unfold analyze_creator, get_contract_creator, emit, bind.
  cbv beta. rewrite Hc. reflexivity.
Qed.

End P.

End TraceFacts.

(** C4: when the target has no creation record, [analyze_creator] returns a
    failure: [success] is false, an error message is set, and there is no
    deployer profile and no trust score. *)
Theorem C4_no_creator_fails (p : Creator.Provider) (chain a : string) :
  Creator.p_contract_creator p a = None ->
  Creator.success (fst (Creator.analyze_creator p chain a [])) = false /\
  Creator.error (fst (Creator.analyze_creator p chain a [])) <> None /\
  Creator.deployer (fst (Creator.analyze_creator p chain a [])) = None /\
  Creator.creator_trust_score (fst (Creator.analyze_creator p chain a [])) = None.
Proof.
  intro Hc. rewrite (TraceFacts.analyze_none p chain a Hc).
  cbn. repeat split; discriminate.
Qed.

Lemma C4_witness :
  Creator.p_contract_creator Fixture.no_record "0xtarget" = None /\
  Creator.success (fst (Creator.analyze_creator Fixture.no_record "ethereum" "0xtarget" [])) = false /\
  Creator.error (fst (Creator.analyze_creator Fixture.no_record "ethereum" "0xtarget" [])) <> None /\
  Creator.deployer (fst (Creator.analyze_creator Fixture.no_record "ethereum" "0xtarget" [])) = None /\
  Creator.creator_trust_score (fst (Creator.analyze_creator Fixture.no_record "ethereum" "0xtarget" [])) = None.
Proof.
  split; [reflexivity|]. apply C4_no_creator_fails. reflexivity.
Defined.

(** C5: the siblings of a target with a creation record are found in the
    transaction history ([offset=10000]) of its deployer [d] (after the
    factory step, the reported deployer), in the provider's order; only the
    first [MAX_SIBLING_DEEP_CHECK] = 10 of them are deep-checked: the
    token-info calls of the trace (one per deep check, made nowhere else)
    go to exactly those, so their number is [min 10 (number of siblings)],
    which is also the reported [checked_siblings]. *)
Theorem C5_deep_checks_capped (p : Creator.Provider) (chain a : string) (ci : Creator.CreatorInfo) :
  Creator.p_contract_creator p a = Some ci ->
  let d := fst (fst (Creator.resolve_factory p (Creator.ci_deployer ci) [])) in
  let sibs := Creator.siblings_of (Py.lower a) (Creator.p_transaction_history p d 10000) in
    option_map Creator.pr_address (Creator.deployer (fst (Creator.analyze_creator p chain a []))) =
      Some d /\
    Creator.total_siblings (fst (Creator.analyze_creator p chain a [])) =
      Some (Z.of_nat (List.length sibs)) /\
    CallLog.deep_checked (snd (Creator.analyze_creator p chain a [])) =
      map Creator.sib_address (firstn 10 sibs) /\
    List.length (CallLog.deep_checked (snd (Creator.analyze_creator p chain a []))) =
      Nat.min 10 (List.length sibs) /\
    Creator.checked_siblings (fst (Creator.analyze_creator p chain a [])) =
      Some (Z.of_nat (Nat.min 10 (List.length sibs))).
Proof.
  intro Hc. cbv zeta.
  destruct (TraceFacts.analyze_some p chain a ci Hc) as [Dp [D [T [_ [K _]]]]].
  cbv zeta in Dp, D, T, K.
  change (fst (Creator._find_sibling_contracts p
                 (fst (fst (Creator.resolve_factory p (Creator.ci_deployer ci) []))) a []))
    with (Creator.siblings_of (Py.lower a)
            (Creator.p_transaction_history p
               (fst (fst (Creator.resolve_factory p (Creator.ci_deployer ci) []))) 10000))
    in D, T, K.
  unfold Creator.MAX_SIBLING_DEEP_CHECK in *.
  rewrite length_firstn in K.
  split; [exact Dp|]. split; [exact T|]. split; [exact D|]. split; [|exact K].
  rewrite D, length_map, length_firstn. reflexivity.
Qed.

(** Witness for C5: a deployer with 50 siblings; 10 are deep-checked. *)
Lemma C5_witness :
  List.length (CallLog.deep_checked
    (snd (Creator.analyze_creator (Fixture.provider 50) "ethereum" "0xtarget" []))) = 10%nat /\
  List.length (Creator.siblings_of (Py.lower "0xtarget")
    (Creator.p_transaction_history (Fixture.provider 50)
       (fst (fst (Creator.resolve_factory (Fixture.provider 50) "0xdeployer" []))) 10000)) = 50%nat /\
  CallLog.deep_checked (snd (Creator.analyze_creator (Fixture.provider 50) "ethereum" "0xtarget" [])) =
    map Creator.sib_address (firstn 10 (Creator.siblings_of (Py.lower "0xtarget")
      (Creator.p_transaction_history (Fixture.provider 50)
         (fst (fst (Creator.resolve_factory (Fixture.provider 50) "0xdeployer" []))) 10000))).
Proof.
  split; [vm_compute; reflexivity|]. split; [vm_compute; reflexivity|].
  exact (proj1 (proj2 (proj2 (C5_deep_checks_capped (Fixture.provider 50) "ethereum" "0xtarget"
           (Creator.mkCreatorInfo "0xdeployer" "0xc0") eq_refl)))).
Defined.

(** C8: [_check_sibling_health] reports [lifespan_days = 0] and
    [analyze_creator] never sets it afterwards, so every deep-checked
    sibling carries a lifespan of 0 whatever its timestamps. *)
Theorem C8_lifespan_always_zero (p : Creator.Provider) (chain a : string) :
  Forall (fun sh => Creator.lifespan_days (snd sh) = 0)
    (Creator.sibling_contracts (fst (Creator.analyze_creator p chain a []))).
Proof.
  destruct (Creator.p_contract_creator p a) as [ci|] eqn:Hc.
  - destruct (TraceFacts.analyze_some p chain a ci Hc) as [_ [_ [_ [_ [_ F]]]]].
    exact F.
  - rewrite (TraceFacts.analyze_none p chain a Hc). constructor.
Qed.

(** C8, a sibling created at 1600000000 whose last transaction is 30 days
    later (1602592000): both endpoints are known, yet its lifespan is 0,
    not 30. *)
Lemma C8_counterexample :
  exists s h,
    Creator.sibling_contracts (fst (Creator.analyze_creator (Fixture.provider 1) "ethereum" "0xtarget" [])) = [(s, h)] /\
    Creator.sib_creation_timestamp s = Some 1600000000 /\
    Creator.last_tx_timestamp h = Some 1602592000 /\
    Creator.lifespan_days h = 0 /\
    Creator.lifespan_days h <> Z.quot (1602592000 - 1600000000) 86400.
Proof.
  do 2 eexists. split; [vm_compute; reflexivity|].
  split; [reflexivity|]. split; [reflexivity|]. split; [reflexivity|].
  vm_compute. discriminate.
Qed.

Module GraphFacts.
Import Graph.

Lemma add_node_in x y ns : In x (add_node y ns) <-> In x ns \/ x = y.
Proof.
  unfold add_node, mem. destruct (existsb (String.eqb y) ns) eqn:E.
  - apply existsb_exists in E as [z [Hz Ez]]. apply String.eqb_eq in Ez. subst z.
    split; [now left|]. intros [H|H]; [exact H|now subst].
  - rewrite in_app_iff. cbn. intuition.
Qed.

Lemma fold_edge_nodes_in x (m : EdgeMap) ns :
  In x (fold_left add_edge_nodes m ns) <->
  In x ns \/ exists k d, In (k, d) m /\ (x = fst k \/ x = snd k).
Proof.
  revert ns; induction m as [|[k d] m IH]; intro ns; cbn [fold_left].
  - split; [now left|]. intros [H|[k [d [[] _]]]]. exact H.
  - rewrite IH. unfold add_edge_nodes. cbn [fst snd]. rewrite !add_node_in.
    split.
    + intros [[[H|H]|H]|[k' [d' [Hin Hx]]]].
      * now left.
      * right. exists k, d. split; [now left|now left].
      * right. exists k, d. split; [now left|now right].
      * right. exists k', d'. split; [now right|exact Hx].
    + intros [H|[k' [d' [[Heq|Hin] Hx]]]].
      * left; left; now left.
      * injection Heq as -> ->. destruct Hx as [Hx|Hx].
        -- left; left; now right.
        -- left; now right.
      * right. exists k', d'. now split.
Qed.

Lemma fold_add_node_in x l ns :
  In x (fold_left (fun ns a => add_node a ns) l ns) <-> In x ns \/ In x l.
Proof.
  revert ns; induction l as [|a l IH]; intro ns; cbn [fold_left].
  - cbn. intuition.
  - rewrite IH, add_node_in. cbn. intuition.
Qed.

End GraphFacts.

(** C6, as the code stands: the nodes of the built graph are exactly the
    endpoints of its edges; [_build_graph] never adds the center by itself,
    so the center is a node only when some edge touches it. *)
Theorem C6_nodes_are_endpoints (bc : string) (cs : string -> string)
    (center : string) (n i t : list Graph.GTx) (x : string) :
  In x (Graph.nodes (fst (Graph._build_graph bc cs center n i t))) <->
  exists k d, In (k, d) (Graph.edges (fst (Graph._build_graph bc cs center n i t))) /\
              (x = fst k \/ x = snd k).
Proof.
  unfold Graph._build_graph. cbv zeta. cbn [fst Graph.nodes Graph.edges].
  rewrite GraphFacts.fold_add_node_in, !GraphFacts.fold_edge_nodes_in. cbn. intuition.
Qed.

(** C6: a center ["0xc"] that only watches a transfer from ["0xa"] to
    ["0xb"] is not a node of its graph. *)
Lemma C6_counterexample :
  Graph.nodes (fst (Graph._build_graph "ethereum" (fun s => s) "0xc"
                      [Graph.mkGTx "0xa" "0xb" 1] [] [])) = ["0xa"; "0xb"] /\
  ~ In (Py.lower "0xc") (Graph.nodes (fst (Graph._build_graph "ethereum" (fun s => s) "0xc"
                      [Graph.mkGTx "0xa" "0xb" 1] [] []))).
Proof.
  split; [vm_compute; reflexivity|].
  vm_compute. intros [H|[H|[]]]; discriminate.
Qed.

Module MutualFacts.
Import Graph.

Section Two.
Variables (bc : string) (cs : string -> string) (center A B : string).
Hypothesis HA : Py.truthy (Py.lower A) = true.
Hypothesis HB : Py.truthy (Py.lower B) = true.
Hypothesis Hne : Py.lower A <> Py.lower B.

Definition e1 : EdgeData :=
  mkEdge 1 (add_value F64.zero (Some (F64.div (F64.of_int 1) (F64.of_int (10 ^ 18))))) [normal].

Lemma two_edges :
  process token [] (process internal [] (process normal [mkGTx A B 1; mkGTx B A 1] [])) =
  [((Py.lower A, Py.lower B), e1); ((Py.lower B, Py.lower A), e1)].
Proof.
  assert (E : String.eqb (Py.lower B) (Py.lower A) = false)
    by (apply String.eqb_neq; congruence).
  unfold process. cbn [fold_left g_from g_to g_value].
  rewrite HA, HB. cbn [negb orb bump].
  unfold key_eqb. cbn [fst snd]. rewrite E. reflexivity.
Qed.

Let g := fst (_build_graph bc cs center [mkGTx A B 1; mkGTx B A 1] [] []).

Lemma two_graph_edges :
  edges g = [((Py.lower A, Py.lower B), e1); ((Py.lower B, Py.lower A), e1)].
Proof. unfold g, _build_graph. cbv zeta. cbn [fst edges]. exact two_edges. Qed.

Lemma two_graph_nodes : nodes g = [Py.lower A; Py.lower B].
Proof.
  assert (E : String.eqb (Py.lower B) (Py.lower A) = false)
    by (apply String.eqb_neq; congruence).
  unfold g, _build_graph. cbv zeta. cbn [fst nodes]. rewrite two_edges.
  unfold add_edge_nodes, add_node, mem. cbn [fold_left fst snd existsb].
  do 10 (cbn [fold_left fst snd existsb app orb]; rewrite ?E, ?String.eqb_refl). reflexivity.
Qed.

Lemma two_cycles : simple_cycles g = [[Py.lower A; Py.lower B]].
Proof.
  assert (E : String.eqb (Py.lower B) (Py.lower A) = false)
    by (apply String.eqb_neq; congruence).
  assert (E' : String.eqb (Py.lower A) (Py.lower B) = false)
    by (apply String.eqb_neq; congruence).
  unfold simple_cycles. rewrite two_graph_nodes. cbn [List.length cycles_from circuits].
  unfold succs. rewrite two_graph_edges.
  do 4 (cbn [filter fst snd map flat_map circuits mem existsb negb andb orb rev app]; rewrite ?E, ?E', ?String.eqb_refl).
  cbn [filter fst snd map flat_map circuits mem existsb negb andb orb].
  rewrite ?E, ?E', ?String.eqb_refl.
  cbn [filter fst snd map flat_map circuits mem existsb negb andb orb rev app].
  reflexivity.
Qed.

End Two.

End MutualFacts.

(** C7: for two normal transfers of value 1, [A] to [B] and [B] to [A],
    between two distinct non-empty (lower-cased) addresses, the graph has
    the two nodes and the two edges [A->B] and [B->A], each of count 1, and
    [_detect_patterns] reports a [circular_flow] (the 2-cycle [A, B]). *)
Theorem C7_mutual_transfer_cycle (bc : string) (cs : string -> string)
    (center c A B : string) :
  Py.truthy (Py.lower A) = true ->
  Py.truthy (Py.lower B) = true ->
  Py.lower A <> Py.lower B ->
  Graph.nodes (fst (Graph._build_graph bc cs center
                      [Graph.mkGTx A B 1; Graph.mkGTx B A 1] [] [])) = [Py.lower A; Py.lower B] /\
  map fst (Graph.edges (fst (Graph._build_graph bc cs center
                      [Graph.mkGTx A B 1; Graph.mkGTx B A 1] [] []))) =
    [(Py.lower A, Py.lower B); (Py.lower B, Py.lower A)] /\
  Forall (fun e => Graph.count (snd e) = 1)
    (Graph.edges (fst (Graph._build_graph bc cs center
                      [Graph.mkGTx A B 1; Graph.mkGTx B A 1] [] []))) /\
  In (Graph.mkPattern Graph.circular_flow "warning")
     (Graph._detect_patterns bc cs (fst (Graph._build_graph bc cs center
                      [Graph.mkGTx A B 1; Graph.mkGTx B A 1] [] [])) c).
Proof.
  intros HA HB Hne.
  pose proof (MutualFacts.two_graph_nodes bc cs center A B HA HB Hne) as N.
  pose proof (MutualFacts.two_graph_edges bc cs center A B HA HB Hne) as E.
  pose proof (MutualFacts.two_cycles bc cs center A B HA HB Hne) as Cy.
  split; [exact N|]. rewrite E.
  split; [reflexivity|]. split; [repeat constructor|].
  unfold Graph._detect_patterns. rewrite N. cbv zeta.
  cbn [List.length Nat.ltb Nat.leb].
  apply in_or_app. left. rewrite Cy. cbn. now left.
Qed.

Lemma C7_witness :
  Graph.nodes (fst (Graph._build_graph "ethereum" (fun s => s) "0xa"
                      [Graph.mkGTx "0xA" "0xB" 1; Graph.mkGTx "0xB" "0xA" 1] [] [])) =
    [Py.lower "0xA"; Py.lower "0xB"] /\
  map fst (Graph.edges (fst (Graph._build_graph "ethereum" (fun s => s) "0xa"
                      [Graph.mkGTx "0xA" "0xB" 1; Graph.mkGTx "0xB" "0xA" 1] [] []))) =
    [(Py.lower "0xA", Py.lower "0xB"); (Py.lower "0xB", Py.lower "0xA")] /\
  Forall (fun e => Graph.count (snd e) = 1)
    (Graph.edges (fst (Graph._build_graph "ethereum" (fun s => s) "0xa"
                      [Graph.mkGTx "0xA" "0xB" 1; Graph.mkGTx "0xB" "0xA" 1] [] []))) /\
  In (Graph.mkPattern Graph.circular_flow "warning")
     (Graph._detect_patterns "ethereum" (fun s => s)
        (fst (Graph._build_graph "ethereum" (fun s => s) "0xa"
                [Graph.mkGTx "0xA" "0xB" 1; Graph.mkGTx "0xB" "0xA" 1] [] [])) "0xa").
Proof.
  apply C7_mutual_transfer_cycle; [reflexivity | reflexivity | vm_compute; discriminate].
Defined.


(** * Further properties of the analyzers *)

Module SecurityMore.
Import Scorer.

Lemma sum_z_app l1 l2 : Creator.sum_z (app l1 l2) = Creator.sum_z l1 + Creator.sum_z l2.
Proof. induction l1 as [|x l IH]; simpl; [reflexivity|]. rewrite IH. lia. Qed.

Lemma sum_z_perm l l' : Permutation l l' -> Creator.sum_z l = Creator.sum_z l'.
Proof. induction 1; simpl; lia. Qed.

Lemma fold_deductions (l : list Vuln) x :
  fold_left (fun sc v => sc - deduction (severity_of v)) l x = x - Creator.sum_z (map (fun v => deduction (severity_of v)) l).
Proof.
  revert x; induction l as [|v l IH]; intro x; simpl; [lia|]. rewrite IH. lia.
Qed.

Lemma sum_ded_nonneg (l : list Vuln) : 0 <= Creator.sum_z (map (fun v => deduction (severity_of v)) l).
Proof.
  induction l as [|v l IH]; simpl; [lia|].
  pose proof (ScorerFacts.deduction_pos (severity_of v)). lia.
Qed.

Lemma type_in_cons t v vs :
  type_in t (v :: vs) =
  (match v_type v with Some t' => String.eqb t t' | None => false end) || type_in t vs.
Proof. reflexivity. Qed.

Lemma type_in_perm t vs vs' : Permutation vs vs' -> type_in t vs = type_in t vs'.
Proof.
  intro P. unfold type_in.
  destruct (existsb _ vs) eqn:E1, (existsb _ vs') eqn:E2; try reflexivity.
  - apply existsb_exists in E1 as [x [Hx Ex]].
    assert (existsb (fun v => match v_type v with Some t' => String.eqb t t' | None => false end) vs' = true)
      by (apply existsb_exists; exists x; split; [eapply Permutation_in; eauto|exact Ex]).
    congruence.
  - apply existsb_exists in E2 as [x [Hx Ex]].
    assert (existsb (fun v => match v_type v with Some t' => String.eqb t t' | None => false end) vs = true)
      by (apply existsb_exists; exists x; split;
          [eapply Permutation_in; [apply Permutation_sym; eauto|eauto]|exact Ex]).
    congruence.
Qed.

(** The security score as a closed formula of the signal list. *)
Lemma security_formula b cq vs t l :
  _calculate_security_score (mkAnalysis b cq vs t l) =
  if (List.length vs =? 0)%nat then 40
  else Z.max (40 - Creator.sum_z (map (fun v => deduction (severity_of v)) vs)
              - (if type_in "reentrancy" vs then 5 else 0)
              - (if type_in "honeypot_pattern" vs then 10 else 0)) 0.
Proof.
  unfold _calculate_security_score. cbn [an_vulnerabilities].
  rewrite fold_deductions.
  destruct (List.length vs =? 0)%nat; [reflexivity|].
  destruct (type_in "reentrancy" vs), (type_in "honeypot_pattern" vs); f_equal; lia.
Qed.

End SecurityMore.

(** The security sub-score never rises when a signal is added to the list. *)
Theorem security_score_add_signal_le (b : bool) (cq : Scorer.CodeQuality)
    (v : Scorer.Vuln) (vs : list Scorer.Vuln) (t : Scorer.Tokenomics) (l : Scorer.Liquidity) :
  Scorer._calculate_security_score (Scorer.mkAnalysis b cq (v :: vs) t l) <=
  Scorer._calculate_security_score (Scorer.mkAnalysis b cq vs t l).
Proof.
  rewrite !SecurityMore.security_formula.
  destruct vs as [|w ws].
  - cbn [List.length Nat.eqb map Creator.sum_z].
    pose proof (ScorerFacts.deduction_pos (Scorer.severity_of v)).
    destruct (Scorer.type_in _ [v]), (Scorer.type_in _ [v]); lia.
  - cbn [List.length Nat.eqb map Creator.sum_z].
    rewrite !(SecurityMore.type_in_cons _ v).
    pose proof (ScorerFacts.deduction_pos (Scorer.severity_of v)).
   
    destruct (match Scorer.v_type v with Some t' => String.eqb "reentrancy" t' | None => false end),
             (match Scorer.v_type v with Some t' => String.eqb "honeypot_pattern" t' | None => false end),
             (Scorer.type_in "reentrancy" (w :: ws)), (Scorer.type_in "honeypot_pattern" (w :: ws));
      cbn [orb]; lia.
Qed.

(** The security sub-score depends on the signals, not on their order. *)
Theorem security_score_perm (b : bool) (cq : Scorer.CodeQuality)
    (vs vs' : list Scorer.Vuln) (t : Scorer.Tokenomics) (l : Scorer.Liquidity) :
  Permutation vs vs' ->
  Scorer._calculate_security_score (Scorer.mkAnalysis b cq vs t l) =
  Scorer._calculate_security_score (Scorer.mkAnalysis b cq vs' t l).
Proof.
  intro P. rewrite !SecurityMore.security_formula.
  rewrite (Permutation_length P), (SecurityMore.type_in_perm _ _ _ P),
    (SecurityMore.type_in_perm "honeypot_pattern" _ _ P),
    (SecurityMore.sum_z_perm _ _ (Permutation_map _ P)).
  reflexivity.
Qed.

Lemma security_score_perm_witness :
  Permutation [Scorer.mkVuln (Some "reentrancy") (Some "high"); Scorer.mkVuln None (Some "low")]
              [Scorer.mkVuln None (Some "low"); Scorer.mkVuln (Some "reentrancy") (Some "high")] /\
  Scorer._calculate_security_score
    (Scorer.mkAnalysis true Scorer.empty_cq
       [Scorer.mkVuln (Some "reentrancy") (Some "high"); Scorer.mkVuln None (Some "low")]
       Scorer.empty_tok Scorer.empty_liq) =
  Scorer._calculate_security_score
    (Scorer.mkAnalysis true Scorer.empty_cq
       [Scorer.mkVuln None (Some "low"); Scorer.mkVuln (Some "reentrancy") (Some "high")]
       Scorer.empty_tok Scorer.empty_liq).
Proof.
  split; [apply perm_swap|]. apply security_score_perm. apply perm_swap.
Defined.

(** Liquidity: an unlocked pool scores 0; a locked one scores between 10
    and 15, and a longer or larger lock never lowers the score. *)
Theorem liquidity_score_lock (b : bool) (cq : Scorer.CodeQuality) (vs : list Scorer.Vuln)
    (t : Scorer.Tokenomics) (d p d' p' : Z) :
  Scorer._calculate_liquidity_score (Scorer.mkAnalysis b cq vs t (Scorer.mkLiq false d p)) = 0 /\
  10 <= Scorer._calculate_liquidity_score (Scorer.mkAnalysis b cq vs t (Scorer.mkLiq true d p)) <= 15 /\
  (d <= d' -> p <= p' ->
   Scorer._calculate_liquidity_score (Scorer.mkAnalysis b cq vs t (Scorer.mkLiq true d p)) <=
   Scorer._calculate_liquidity_score (Scorer.mkAnalysis b cq vs t (Scorer.mkLiq true d' p'))).
Proof.
  unfold Scorer._calculate_liquidity_score. cbn [Scorer.an_liquidity Scorer.lq_is_locked
    Scorer.lq_lock_duration_days Scorer.lq_lock_percentage].
  split; [reflexivity|].
  destruct (Z.leb_spec 365 d), (Z.leb_spec 180 d), (Z.leb_spec 90 d),
           (Z.leb_spec 90 p), (Z.leb_spec 70 p),
           (Z.leb_spec 365 d'), (Z.leb_spec 180 d'), (Z.leb_spec 90 d'),
           (Z.leb_spec 90 p'), (Z.leb_spec 70 p'); split; try lia.
Qed.

Lemma liquidity_score_lock_witness :
  Scorer._calculate_liquidity_score
    (Scorer.mkAnalysis true Scorer.empty_cq [] Scorer.empty_tok (Scorer.mkLiq false 100 80)) = 0 /\
  10 <= Scorer._calculate_liquidity_score
    (Scorer.mkAnalysis true Scorer.empty_cq [] Scorer.empty_tok (Scorer.mkLiq true 100 80)) <= 15 /\
  (100 <= 400 -> 80 <= 95 ->
   Scorer._calculate_liquidity_score
     (Scorer.mkAnalysis true Scorer.empty_cq [] Scorer.empty_tok (Scorer.mkLiq true 100 80)) <=
   Scorer._calculate_liquidity_score
     (Scorer.mkAnalysis true Scorer.empty_cq [] Scorer.empty_tok (Scorer.mkLiq true 400 95))).
Proof.
  destruct (liquidity_score_lock true Scorer.empty_cq [] Scorer.empty_tok 100 80 400 95)
    as [H1 [H2 H3]].
  split; [exact H1|split; [exact H2|]]. intros. apply H3; lia.
Defined.

(** [get_priority_issues]: one issue per critical signal, first and in
    order; after them, one issue for each of the first three high signals,
    then one for each of the first three tokenomics red flags, then the
    liquidity issue, which closes the list whenever the liquidity is not
    locked. *)
Theorem priority_issues_shape (desc recm : Scorer.Vuln -> option string) (a : Scorer.Analysis) :
  let crit := filter (More.severity_is "critical") (Scorer.an_vulnerabilities a) in
  let issues := More.get_priority_issues desc recm a in
  List.length issues =
    (List.length crit
     + Nat.min 3 (List.length (filter (More.severity_is "high") (Scorer.an_vulnerabilities a)))
     + Nat.min 3 (List.length (Scorer.tk_red_flags (Scorer.an_tokenomics a)))
     + (if Scorer.lq_is_locked (Scorer.an_liquidity a) then 0 else 1))%nat /\
  firstn (List.length crit) issues =
    map (fun v => More.mkIssue "critical" "security" (desc v) (recm v)) crit /\
  skipn (List.length crit) issues =
    app (map (fun v => More.mkIssue "high" "security" (desc v) (recm v))
             (firstn 3 (filter (More.severity_is "high") (Scorer.an_vulnerabilities a))))
    (app (map (fun f => More.mkIssue "high" "tokenomics" (Some f)
                          (Some "Review tokenomics carefully"))
              (firstn 3 (Scorer.tk_red_flags (Scorer.an_tokenomics a))))
         (if Scorer.lq_is_locked (Scorer.an_liquidity a) then []
          else [More.mkIssue "critical" "liquidity" (Some "Liquidity is NOT locked")
                  (Some "Extreme caution - developers can remove liquidity at any time")])) /\
  (Scorer.lq_is_locked (Scorer.an_liquidity a) = false ->
   last issues (More.mkIssue "" "" None None) =
   More.mkIssue "critical" "liquidity" (Some "Liquidity is NOT locked")
     (Some "Extreme caution - developers can remove liquidity at any time")).
Proof.
  cbv zeta. unfold More.get_priority_issues. cbv zeta.
  split; [|split; [|split]].
  - destruct (Scorer.lq_is_locked _); cbn [negb];
      rewrite ?length_app, ?length_map, ?length_firstn; cbn [List.length]; lia.
  - destruct (Scorer.lq_is_locked _); cbn [negb]; rewrite <- ?app_assoc;
      rewrite firstn_app, length_map, Nat.sub_diag, firstn_all2 by (rewrite length_map; lia);
      cbn [firstn]; apply app_nil_r.
  - destruct (Scorer.lq_is_locked _); cbn [negb]; rewrite <- ?app_assoc;
      rewrite skipn_app, length_map, Nat.sub_diag, skipn_all2 by (rewrite length_map; lia);
      cbn [skipn app]; rewrite ?app_nil_r; reflexivity.
  - intro H. rewrite H. cbn [negb]. apply last_last.
Qed.

Lemma priority_issues_shape_witness :
  Scorer.lq_is_locked (Scorer.an_liquidity
    (Scorer.mkAnalysis true Scorer.empty_cq [Scorer.mkVuln None (Some "critical")]
       (Scorer.mkTok None ["a"; "b"; "c"; "d"] []) Scorer.empty_liq)) = false /\
  last (More.get_priority_issues (fun _ => None) (fun _ => None)
          (Scorer.mkAnalysis true Scorer.empty_cq [Scorer.mkVuln None (Some "critical")]
             (Scorer.mkTok None ["a"; "b"; "c"; "d"] []) Scorer.empty_liq))
       (More.mkIssue "" "" None None) =
  More.mkIssue "critical" "liquidity" (Some "Liquidity is NOT locked")
    (Some "Extreme caution - developers can remove liquidity at any time").
Proof.
  split; [reflexivity|].
  apply (priority_issues_shape (fun _ => None) (fun _ => None)
           (Scorer.mkAnalysis true Scorer.empty_cq [Scorer.mkVuln None (Some "critical")]
              (Scorer.mkTok None ["a"; "b"; "c"; "d"] []) Scorer.empty_liq)).
  reflexivity.
Defined.

Module TokFacts.
Import Tokenomics.

Lemma fold_fee_warnings ms : forall f st,
  self_warnings (snd (fold_left fee_step ms (f, st))) = self_warnings st.
Proof.
  induction ms as [|[raw v] ms IH]; intros f st; [reflexivity|].
  cbn [fold_left fee_step]. rewrite IH. destruct (1000 <? v); reflexivity.
Qed.

Lemma fold_fee_red_flags ms : forall f st,
  self_red_flags (snd (fold_left fee_step ms (f, st))) =
  app (self_red_flags st)
    (map (fun m => String.append "Excessive "
                     (String.append (Py.lower (fst m))
                       (String.append ": " (String.append (Fmt.pct_str (snd m)) "%"))))
         (filter (fun m => 1000 <? snd m) ms)).
Proof.
  induction ms as [|[raw v] ms IH]; intros f st; cbn [fold_left filter map fst snd].
  - symmetry; apply app_nil_r.
  - cbn [fee_step]. rewrite IH. destruct (1000 <? v); cbn [map fst snd self_red_flags flag].
    + rewrite <- app_assoc. reflexivity.
    + reflexivity.
Qed.

Lemma fold_fee_modifiable ms : forall f st,
  is_modifiable (fst (fold_left fee_step ms (f, st))) = is_modifiable f.
Proof.
  induction ms as [|[raw v] ms IH]; intros f st; [reflexivity|].
  cbn [fold_left fee_step]. rewrite IH.
  repeat match goal with |- context [if ?b then _ else _] => destruct b end; reflexivity.
Qed.

Lemma hd_error_rev_cons {A} (x : A) l :
  hd_error (rev (x :: l)) = match hd_error (rev l) with Some y => Some y | None => Some x end.
Proof. cbn [rev]. destruct (rev l); reflexivity. Qed.

Lemma option_match_id {A} (o : option A) :
  match o with Some v => Some v | None => None end = o.
Proof. destruct o; reflexivity. Qed.

Lemma excessive_not_mint (ms : list (string * Z)) :
  existsb (String.eqb Tokenomics.mint_red_flag)
    (map (fun m => String.append "Excessive "
                     (String.append (Py.lower (fst m))
                       (String.append ": " (String.append (Fmt.pct_str (snd m)) "%"))))
         (filter (fun m => 1000 <? snd m) ms)) = false.
Proof.
  induction ms as [|m ms IH]; [reflexivity|]. cbn [filter].
  destruct (1000 <? snd m); [|exact IH]. cbn [map existsb]. rewrite IH. reflexivity.
Qed.

Ltac fee_field IH :=
  intros f st; cbn [fold_left fee_step filter map fst snd]; rewrite IH;
  repeat (match goal with |- context [if ?b then _ else _] => destruct b end;
          cbn [negb andb map fst snd buy_fee sell_fee transfer_fee]);
  rewrite ?hd_error_rev_cons; try reflexivity;
  match goal with |- context [hd_error ?l] => destruct (hd_error l) end; reflexivity.

Lemma fold_fee_buy ms : forall f st,
  buy_fee (fst (fold_left fee_step ms (f, st))) =
  match hd_error (rev (map snd (filter (fun m => Py.contains "buy" (Py.lower (fst m))) ms))) with
  | Some v => Some v | None => buy_fee f end.
Proof.
  induction ms as [|[raw v] ms IH]; [reflexivity|]. fee_field IH.
Qed.

Lemma fold_fee_sell ms : forall f st,
  sell_fee (fst (fold_left fee_step ms (f, st))) =
  match hd_error (rev (map snd (filter (fun m =>
          negb (Py.contains "buy" (Py.lower (fst m))) &&
          Py.contains "sell" (Py.lower (fst m))) ms))) with
  | Some v => Some v | None => sell_fee f end.
Proof.
  induction ms as [|[raw v] ms IH]; [reflexivity|]. fee_field IH.
Qed.

Lemma fold_fee_transfer ms : forall f st,
  transfer_fee (fst (fold_left fee_step ms (f, st))) =
  match hd_error (rev (map snd (filter (fun m =>
          negb (Py.contains "buy" (Py.lower (fst m))) &&
          negb (Py.contains "sell" (Py.lower (fst m))) &&
          Py.contains "transfer" (Py.lower (fst m))) ms))) with
  | Some v => Some v | None => transfer_fee f end.
Proof.
  induction ms as [|[raw v] ms IH]; [reflexivity|]. fee_field IH.
Qed.

End TokFacts.

(** [TokenomicsAnalyzer._analyze_fees] as seen through [analyze]: each fee
    field holds the value of the last matched variable whose lowercased
    name selects that field (["buy"] first, then ["sell"], then
    ["transfer"]), or [None] when no match selects it; the fees are marked
    modifiable exactly when a setter or updater of a fee was found. *)
Theorem tokenomics_fees_last_match (s : Tokenomics.Scan) :
  let f := Tokenomics.fees (Tokenomics.analyze s) in
  Tokenomics.buy_fee f =
    hd_error (rev (map snd (filter (fun m => Py.contains "buy" (Py.lower (fst m)))
                              (Tokenomics.fee_matches s)))) /\
  Tokenomics.sell_fee f =
    hd_error (rev (map snd (filter (fun m =>
                 negb (Py.contains "buy" (Py.lower (fst m))) &&
                 Py.contains "sell" (Py.lower (fst m))) (Tokenomics.fee_matches s)))) /\
  Tokenomics.transfer_fee f =
    hd_error (rev (map snd (filter (fun m =>
                 negb (Py.contains "buy" (Py.lower (fst m))) &&
                 negb (Py.contains "sell" (Py.lower (fst m))) &&
                 Py.contains "transfer" (Py.lower (fst m))) (Tokenomics.fee_matches s)))) /\
  Tokenomics.is_modifiable f = Tokenomics.fee_setter_found s.
Proof.
  cbv zeta. unfold Tokenomics.analyze, Tokenomics._analyze_fees.
  pose proof (TokFacts.fold_fee_buy (Tokenomics.fee_matches s)
                (Tokenomics.mkFees None None None false) (Tokenomics.mkSelf [] [])) as HB.
  pose proof (TokFacts.fold_fee_sell (Tokenomics.fee_matches s)
                (Tokenomics.mkFees None None None false) (Tokenomics.mkSelf [] [])) as HS.
  pose proof (TokFacts.fold_fee_transfer (Tokenomics.fee_matches s)
                (Tokenomics.mkFees None None None false) (Tokenomics.mkSelf [] [])) as HT.
  pose proof (TokFacts.fold_fee_modifiable (Tokenomics.fee_matches s)
                (Tokenomics.mkFees None None None false) (Tokenomics.mkSelf [] [])) as HM.
  destruct (fold_left Tokenomics.fee_step _ _) as [f0 st0].
  cbn [fst snd Tokenomics.buy_fee Tokenomics.sell_fee Tokenomics.transfer_fee
       Tokenomics.is_modifiable] in HB, HS, HT, HM.
  rewrite TokFacts.option_match_id in HB, HS, HT.
  destruct (Tokenomics.fee_setter_found s); cbn.
  all: unfold Tokenomics._check_mint_mechanism, Tokenomics._check_pausable,
         Tokenomics._check_blacklist, Tokenomics._check_max_tx_limit, Tokenomics._check_cooldown.
  all: repeat match goal with |- context [if ?b then _ else _] => destruct b end; cbn.
  all: try split; try split; try split; auto.
Qed.



(** [TokenomicsAnalyzer._calculate_tokenomics_score] on the result of
    [analyze]: the score is the sum of the fee tier (5, 3, 1 or 0 from the
    buy and sell fees), 3 for fixed fees or 1 for modifiable ones, 4 without
    a blacklist, 4 without a mint function or 2 with an access-controlled
    one, 2 without a maximum-transaction limit or 1 with one (whether or not
    a [setMax] function exists), and 2 when not pausable. *)
Theorem tokenomics_score_decomposition (s : Tokenomics.Scan) :
  let f := Tokenomics.fees (Tokenomics.analyze s) in
  let bf := Tokenomics.opt0 (Tokenomics.buy_fee f) in
  let sf := Tokenomics.opt0 (Tokenomics.sell_fee f) in
  Tokenomics.score (Tokenomics.analyze s) =
    (if (bf <=? 500) && (sf <=? 500) then 5
     else if (bf <=? 1000) && (sf <=? 1000) then 3
     else if (bf <=? 1500) && (sf <=? 1500) then 1 else 0)
    + (if Tokenomics.fee_setter_found s then 1 else 3)
    + (if Tokenomics.blacklist_found s then 0 else 4)
    + (if Tokenomics.mint_found s then
         if Tokenomics.mint_access_control_found s then 2 else 0
       else 4)
    + (if Tokenomics.max_tx_found s then 1 else 2)
    + (if Tokenomics.pause_found s then 0 else 2).
Proof.
  cbv zeta. unfold Tokenomics.analyze, Tokenomics._analyze_fees.
  pose proof (TokFacts.fold_fee_warnings (Tokenomics.fee_matches s)
                (Tokenomics.mkFees None None None false) (Tokenomics.mkSelf [] [])) as HW.
  pose proof (TokFacts.fold_fee_red_flags (Tokenomics.fee_matches s)
                (Tokenomics.mkFees None None None false) (Tokenomics.mkSelf [] [])) as HR.
  pose proof (TokFacts.fold_fee_modifiable (Tokenomics.fee_matches s)
                (Tokenomics.mkFees None None None false) (Tokenomics.mkSelf [] [])) as HM.
  destruct (fold_left Tokenomics.fee_step _ _) as [f0 st0].
  cbn [fst snd Tokenomics.self_warnings Tokenomics.self_red_flags
       Tokenomics.is_modifiable app] in HW, HR, HM.
  destruct st0 as [w0 r0]. cbn [Tokenomics.self_warnings Tokenomics.self_red_flags] in HW, HR.
  subst w0 r0.
  pose proof (TokFacts.excessive_not_mint (Tokenomics.fee_matches s)) as HX.
  unfold Tokenomics._calculate_tokenomics_score, Tokenomics._check_mint_mechanism,
    Tokenomics._check_pausable, Tokenomics._check_blacklist, Tokenomics._check_max_tx_limit,
    Tokenomics._check_cooldown.
  destruct (Tokenomics.fee_setter_found s), (Tokenomics.mint_found s),
    (Tokenomics.mint_access_control_found s), (Tokenomics.pause_found s),
    (Tokenomics.blacklist_found s), (Tokenomics.max_tx_found s),
    (Tokenomics.set_max_found s), (Tokenomics.cooldown_found s);
    cbn [fst snd negb andb Tokenomics.fees Tokenomics.buy_fee Tokenomics.sell_fee
         Tokenomics.is_modifiable Tokenomics.blacklist_mechanism Tokenomics.mint_mechanism
         Tokenomics.max_transaction_limit Tokenomics.pausable Tokenomics.score
         Tokenomics.self_warnings Tokenomics.self_red_flags Tokenomics.warn Tokenomics.flag];
    rewrite ?HM; unfold Py.str_in; rewrite ?existsb_app, ?HX; cbn;
    repeat match goal with |- context [if ?b then _ else _] => destruct b end; lia.
Qed.

(** [EVMAnalyzer.analyze_contract]: an invalid address yields only the
    "Invalid contract address" error; for a valid one the contract is
    verified exactly when source data came back, [has_code] records whether
    the bytecode is non-empty and not ["0x"], the error "No contract code
    found at this address" is set exactly when it is not, the warnings are
    just the unverified-contract entry when no source came back, and the
    vulnerabilities are the source matches (for a verified contract)
    followed by the bytecode findings (when there is code). *)
Theorem analyze_contract_outcomes (valid : bool) (source : option EVM.SourceData)
    (sv : list Scorer.Vuln) (bc : string) :
  let r := EVM.analyze_contract valid source sv bc in
  let has_code := Py.truthy bc && negb (String.eqb bc "0x") in
  (valid = false ->
     EVM.er_error r = Some "Invalid contract address" /\ EVM.er_is_verified r = false /\
     EVM.er_vulnerabilities r = [] /\ EVM.er_warnings r = [] /\ EVM.er_has_code r = None) /\
  (valid = true ->
     EVM.er_is_verified r = match source with Some _ => true | None => false end /\
     EVM.er_has_code r = Some has_code /\
     EVM.er_error r = (if has_code then None else Some "No contract code found at this address") /\
     EVM.er_warnings r = match source with Some _ => [] | None => [EVM.unverified_warning] end /\
     EVM.er_vulnerabilities r =
       app (match source with Some _ => sv | None => [] end)
           (if has_code then EVM._analyze_bytecode bc else [])).
Proof.
  cbv zeta. unfold EVM.analyze_contract.
  split; intros ->; [repeat split|]. cbn [negb].
  destruct source, (Py.truthy bc && negb (String.eqb bc "0x")); cbn;
    rewrite ?app_nil_r; repeat split.
Qed.

Lemma analyze_contract_outcomes_witness :
  (false = false ->
     EVM.er_error (EVM.analyze_contract false None [] "0x6080") = Some "Invalid contract address") /\
  (true = true ->
     EVM.er_error (EVM.analyze_contract true None [] "0x") =
       Some "No contract code found at this address").
Proof.
  split; intro.
  - apply (proj1 (analyze_contract_outcomes false None [] "0x6080") eq_refl).
  - apply (proj2 (analyze_contract_outcomes true None [] "0x") eq_refl).
Defined.

(** [AnalysisOrchestrator.analyze_contract] stops with the analyzer's error
    before scoring: a score breakdown is produced exactly when the address
    is valid and the bytecode is non-empty and not ["0x"]. *)
Theorem pipeline_scored_iff_code (valid : bool) (source : option EVM.SourceData)
    (sv : list Scorer.Vuln) (bc : string) (scanv : list Scorer.Vuln) (ts : Tokenomics.Scan) :
  (exists sb, Pipeline.scores valid source sv bc scanv ts = Some sb) <->
  valid && Py.truthy bc && negb (String.eqb bc "0x") = true.
Proof.
  unfold Pipeline.scores, EVM.analyze_contract.
  destruct valid; cbn [negb andb].
  - destruct source, (Py.truthy bc && negb (String.eqb bc "0x")); cbn;
      split; try (intros [sb H]; discriminate); try (intro; discriminate);
      intros _; eexists; reflexivity.
  - cbn. split; [intros [sb H]; discriminate | intro; discriminate].
Qed.

Lemma pipeline_scored_iff_code_witness :
  exists sb, Pipeline.scores true None [] "0x6080" []
               (Tokenomics.mkScan [] false false false false false false false false false) = Some sb.
Proof.
  apply (proj2 (pipeline_scored_iff_code true None [] "0x6080" []
                  (Tokenomics.mkScan [] false false false false false false false false false))).
  reflexivity.
Defined.

Module VersionFacts.
Import EVM.

Lemma digit_char (r : Z) : 0 <= r < 10 ->
  is_digit (ascii_of_nat (48 + Z.to_nat r)) = true /\
  Z.of_nat (nat_of_ascii (ascii_of_nat (48 + Z.to_nat r)) - 48) = r.
Proof.
  intros Hr. unfold is_digit. rewrite Ascii.nat_ascii_embedding by lia.
  split; [apply andb_true_iff; split; apply Nat.leb_le; lia | lia].
Qed.

Lemma dec_aux_app fuel : forall z s t,
  String.append (Fmt.dec_aux fuel z s) t = Fmt.dec_aux fuel z (String.append s t).
Proof.
  induction fuel as [|f IH]; intros z s t; [reflexivity|].
  cbn [Fmt.dec_aux]. destruct (z <? 10); [reflexivity|]. apply IH.
Qed.

Lemma read_dec fuel : forall z s, (1 <= fuel)%nat -> 0 <= z < 10 ^ Z.of_nat fuel ->
  exists nd, (1 <= nd)%nat /\ forall a k,
    read_digits (Fmt.dec_aux fuel z s) a k = read_digits s (a * 10 ^ Z.of_nat nd + z) (k + nd).
Proof.
  induction fuel as [|f IH]; intros z s Hf Hz; [lia|].
  cbn [Fmt.dec_aux].
  assert (Hm : 0 <= z mod 10 < 10) by (apply Z.mod_pos_bound; lia).
  destruct (digit_char (z mod 10) Hm) as [Hd Hv].
  destruct (Z.ltb_spec z 10).
  - exists 1%nat. split; [lia|]. intros a k. cbn [read_digits]. rewrite Hd, Hv.
    rewrite Z.mod_small by lia. f_equal; [change (Z.of_nat 1) with 1; rewrite Z.pow_1_r; lia | lia].
  - rewrite Nat2Z.inj_succ, Z.pow_succ_r in Hz by lia.
    assert (Hq : 0 <= z / 10 < 10 ^ Z.of_nat f).
    { split; [apply Z.div_pos; lia | apply Z.div_lt_upper_bound; lia]. }
    assert (Hf' : (1 <= f)%nat).
    { destruct f; [cbn in Hq; assert (1 <= z / 10) by (apply Z.div_le_lower_bound; lia); lia | lia]. }
    destruct (IH (z / 10) (String (ascii_of_nat (48 + Z.to_nat (z mod 10))) s) Hf' Hq)
      as [nd [Hnd HR]].
    exists (S nd). split; [lia|]. intros a k. rewrite HR. cbn [read_digits]. rewrite Hd, Hv.
    rewrite Nat2Z.inj_succ, Z.pow_succ_r by lia.
    assert (Hz10 := Z.div_mod z 10 ltac:(lia)).
    f_equal; [nia | lia].
Qed.

Lemma read_stop s a k :
  match s with String c _ => is_digit c = false | EmptyString => True end ->
  read_digits s a k = (a, k, s).
Proof. destruct s as [|c s]; cbn; [reflexivity|]. intros ->. reflexivity. Qed.

Lemma digits1_dec z rest : 0 <= z ->
  match rest with String c _ => is_digit c = false | EmptyString => True end ->
  digits1 (String.append (Fmt.z_to_dec z) rest) = Some (z, rest).
Proof.
  intros Hz Hr. unfold Fmt.z_to_dec.
  destruct (Z.ltb_spec z 0); [lia|]. rewrite dec_aux_app. cbn [String.append].
  assert (Hb : 0 <= z < 10 ^ Z.of_nat (Z.to_nat (Z.log2 z) + 1)).
  { split; [lia|]. rewrite Nat2Z.inj_add, Z2Nat.id by apply Z.log2_nonneg.
    apply Z.lt_le_trans with (2 ^ (Z.log2 z + 1)).
    - destruct (Z.eq_dec z 0) as [->|Hn]; [reflexivity|].
      rewrite Z.pow_add_r, Z.pow_1_r by (try apply Z.log2_nonneg; lia).
      destruct (Z.log2_spec z ltac:(lia)) as [_ Hs]. rewrite Z.pow_succ_r in Hs
        by apply Z.log2_nonneg. lia.
    - apply Z.pow_le_mono_l. lia. }
  destruct (read_dec (Z.to_nat (Z.log2 z) + 1) z rest ltac:(lia) Hb) as [nd [Hnd HR]].
  unfold digits1. rewrite HR, read_stop by exact Hr.
  destruct nd; [lia|]. cbn. reflexivity.
Qed.

Lemma search_version_unfold s :
  search_version s =
  match match_version s with
  | Some v => Some v
  | None => match s with EmptyString => None | String _ s' => search_version s' end
  end.
Proof. destruct s; reflexivity. Qed.

End VersionFacts.

(** [EVMAnalyzer._analyze_code_quality] reads back the version that a
    compiler string of the explorer's form ["v<major>.<minor>.<patch>"]
    followed by a non-digit suffix (such as ["+commit..."]) spells: the
    version search returns exactly those three numbers, and the compiler is
    marked modern exactly when the major version is 0 and the minor is at
    least 8. *)
Theorem compiler_version_round_trip (a b c : Z) (rest : string) (sd : EVM.SourceData) :
  0 <= a -> 0 <= b -> 0 <= c ->
  match rest with String ch _ => EVM.is_digit ch = false | EmptyString => True end ->
  let cv := String.append "v" (String.append (Fmt.z_to_dec a)
              (String.append "." (String.append (Fmt.z_to_dec b)
                (String.append "." (String.append (Fmt.z_to_dec c) rest))))) in
  EVM.search_version cv = Some (a, b, c) /\
  (EVM.sd_compiler_version sd = cv ->
   Scorer.cq_modern_compiler (EVM._analyze_code_quality sd) = Some ((a =? 0) && (8 <=? b))).
Proof.
  intros Ha Hb Hc Hr. cbv zeta.
  assert (HS : EVM.search_version
     (String.append "v" (String.append (Fmt.z_to_dec a)
        (String.append "." (String.append (Fmt.z_to_dec b)
          (String.append "." (String.append (Fmt.z_to_dec c) rest)))))) = Some (a, b, c)).
  { cbn [String.append]. rewrite VersionFacts.search_version_unfold.
    cbn [EVM.match_version EVM.digits1 EVM.read_digits]. cbn [EVM.is_digit].
    rewrite VersionFacts.search_version_unfold. unfold EVM.match_version.
    rewrite VersionFacts.digits1_dec by (auto; reflexivity). cbn [EVM.dot].
    rewrite VersionFacts.digits1_dec by (auto; reflexivity). cbn [EVM.dot].
    rewrite VersionFacts.digits1_dec by auto. reflexivity. }
  split; [exact HS|]. intros Hcv.
  unfold EVM._analyze_code_quality. rewrite Hcv, HS.
  cbn [Py.truthy String.append String.eqb negb].
  destruct (a =? 0), (8 <=? b), (6 <=? b); reflexivity.
Qed.

Lemma compiler_version_round_trip_witness :
  EVM.search_version "v0.8.19+commit.7dd6d404" = Some (0, 8, 19) /\
  Scorer.cq_modern_compiler
    (EVM._analyze_code_quality (EVM.mkSource "" "Token" "v0.8.19+commit.7dd6d404" true "MIT"))
  = Some true.
Proof.
  destruct (compiler_version_round_trip 0 8 19 "+commit.7dd6d404"
              (EVM.mkSource "" "Token" "v0.8.19+commit.7dd6d404" true "MIT")
              ltac:(lia) ltac:(lia) ltac:(lia) eq_refl) as [H1 H2].
  split; [exact H1|]. apply H2. reflexivity.
Defined.

(** [EVMAnalyzer._analyze_source_code]: the pattern matches come first and
    are kept as they are, followed by at most two access-control findings:
    none, the high-severity [missing_access_control], the high-severity
    [unrestricted_pause], or both in this order;
    a source that mentions [onlyOwner] gets no finding beyond the pattern
    matches, and a source with a [function pause] but no [onlyOwner] ends
    with the high-severity [unrestricted_pause] finding. *)
Theorem source_code_access_checks (pv : list Scorer.Vuln) (src : string) :
  (exists extra, More._analyze_source_code pv src = app pv extra /\ (List.length extra <= 2)%nat /\
     In extra [[];
               [Scorer.mkVuln (Some "missing_access_control") (Some "high")];
               [Scorer.mkVuln (Some "unrestricted_pause") (Some "high")];
               [Scorer.mkVuln (Some "missing_access_control") (Some "high");
                Scorer.mkVuln (Some "unrestricted_pause") (Some "high")]]) /\
  (Py.contains "onlyOwner" src = true -> More._analyze_source_code pv src = pv) /\
  (Py.contains "onlyOwner" src = false -> Py.contains "function pause" src = true ->
   last (More._analyze_source_code pv src) (Scorer.mkVuln None None) =
   Scorer.mkVuln (Some "unrestricted_pause") (Some "high")).
Proof.
  unfold More._analyze_source_code.
  split; [|split].
  - destruct (Py.contains "onlyOwner" src), (Py.contains "Ownable" src),
      (Py.contains "function mint" src), (Py.contains "function burn" src),
      (Py.contains "function pause" src); cbn [negb andb orb];
      rewrite <- ?app_assoc; cbn [app];
      first [ exists []; rewrite app_nil_r; split; [reflexivity|split; [cbn; lia|cbn; tauto]]
            | eexists; split; [reflexivity|split; [cbn; lia|cbn; tauto]] ].
  - intros ->. cbn [negb andb]. destruct (Py.contains "function pause" src); reflexivity.
  - intros Ho Hp. rewrite Ho, Hp. cbn [negb andb]. apply last_last.
Qed.

Lemma source_code_access_checks_witness :
  Py.contains "onlyOwner" "function pause() external {}" = false /\
  Py.contains "function pause" "function pause() external {}" = true /\
  last (More._analyze_source_code [] "function pause() external {}") (Scorer.mkVuln None None) =
  Scorer.mkVuln (Some "unrestricted_pause") (Some "high").
Proof.
  split; [reflexivity|]. split; [reflexivity|].
  apply (proj2 (proj2 (source_code_access_checks [] "function pause() external {}")));
    reflexivity.
Defined.

(** [CreatorAnalyzer.get_contract_creator_quick]: without a creation record
    it returns [None] after its single lookup; otherwise it returns the
    deployer, that deployer's transaction count, and [is_new_wallet] exactly
    when the wallet age is below 7 days, after the calls creator lookup,
    pause, first transaction, pause, transaction count; a deployer without
    any transaction has age 0 and is reported as a new wallet. *)
Theorem quick_check_outcomes (p : Creator.Provider) (a : string) :
  (Creator.p_contract_creator p a = None ->
   More.get_contract_creator_quick p a [] = (None, [Creator.CCreator a])) /\
  (forall ci, Creator.p_contract_creator p a = Some ci ->
   let d := Creator.ci_deployer ci in
   exists q,
     More.get_contract_creator_quick p a [] =
       (Some q, [Creator.CCreator a; Creator.CSleep; Creator.CFirstTxs d 1;
                 Creator.CSleep; Creator.CTxCount d]) /\
     More.q_deployer_address q = d /\
     More.q_transaction_count q = Creator.p_transaction_count p d /\
     More.q_is_new_wallet q = (More.q_wallet_age_days q <? 7) /\
     (Creator.p_first_transactions p d 1 = [] ->
      More.q_wallet_age_days q = 0 /\ More.q_is_new_wallet q = true)).
Proof.
  unfold More.get_contract_creator_quick, Creator.get_contract_creator, Creator.sleep,
    Creator.get_first_transactions, Creator.get_transaction_count,
    Creator.bind, Creator.emit, Creator.ret.
  split.
  - intros Hc. cbv beta. rewrite Hc. reflexivity.
  - intros ci Hc. cbv beta zeta. rewrite Hc. cbn [app].
    eexists. split; [reflexivity|]. cbn [More.q_deployer_address More.q_transaction_count
      More.q_is_new_wallet More.q_wallet_age_days].
    split; [reflexivity|]. split; [reflexivity|]. split; [reflexivity|].
    intros ->. split; reflexivity.
Qed.

Lemma quick_check_outcomes_witness :
  More.get_contract_creator_quick Fixture.no_record "0xtarget" [] = (None, [Creator.CCreator "0xtarget"]) /\
  exists q,
    More.get_contract_creator_quick (Fixture.provider 1) "0xtarget" [] =
      (Some q, [Creator.CCreator "0xtarget"; Creator.CSleep; Creator.CFirstTxs "0xdeployer" 1;
                Creator.CSleep; Creator.CTxCount "0xdeployer"]) /\
    More.q_is_new_wallet q = true.
Proof.
  split.
  - apply (proj1 (quick_check_outcomes Fixture.no_record "0xtarget")). reflexivity.
  - destruct (proj2 (quick_check_outcomes (Fixture.provider 1) "0xtarget")
                (Creator.mkCreatorInfo "0xdeployer" "0xc0") eq_refl)
      as [q [H1 [_ [_ [_ H5]]]]].
    exists q. split; [exact H1|]. apply (H5 eq_refl).
Defined.

Module CreatorMore.
Import Creator.

Lemma siblings_of_spec excl txs :
  Forall (fun s =>
    String.eqb (Py.lower (sib_address s)) excl = false /\
    exists tx, In tx txs /\ tx_to tx = "" /\ Py.truthy (tx_contractAddress tx) = true /\
      sib_address s = tx_contractAddress tx /\
      sib_creation_ts s = tx_timeStamp tx /\ sib_tx_hash s = tx_hash tx /\
      sib_creation_timestamp s = (if tx_timeStamp tx =? 0 then None else Some (tx_timeStamp tx)))
    (siblings_of excl txs) /\
  (List.length (siblings_of excl txs) <= List.length txs)%nat.
Proof.
  induction txs as [|tx r [IH1 IH2]]; cbn [siblings_of]; [split; [constructor|cbn; lia]|].
  destruct (String.eqb (tx_to tx) "" && Py.truthy (tx_contractAddress tx)) eqn:E.
  - apply andb_true_iff in E as [E1 E2]. apply String.eqb_eq in E1.
    destruct (String.eqb (Py.lower (tx_contractAddress tx)) excl) eqn:E3.
    + split; [|cbn; lia].
      eapply Forall_impl; [|exact IH1]. intros s [Hs [t Ht]]. split; [exact Hs|].
      exists t. split; [right; apply Ht|apply Ht].
    + split; [|cbn; lia]. constructor.
      * cbn. split; [exact E3|]. exists tx. split; [now left|]. repeat split; auto.
      * eapply Forall_impl; [|exact IH1]. intros s [Hs [t Ht]]. split; [exact Hs|].
        exists t. split; [right; apply Ht|apply Ht].
  - split; [|cbn; lia].
    eapply Forall_impl; [|exact IH1]. intros s [Hs [t Ht]]. split; [exact Hs|].
    exists t. split; [right; apply Ht|apply Ht].
Qed.

Lemma transparency_mixer (flags : list RedFlag) x :
  existsb (fun f => match rf_type f with mixer_funding => true | _ => false end) flags = true ->
  fold_left (fun t f => match rf_type f with
                        | mixer_funding => t - 15
                        | brand_new_wallet => t - 10
                        | very_new_wallet => t - 5
                        | no_history => t - 10
                        end) flags x <= x - 15.
Proof.
  revert x; induction flags as [|f fl IH]; intros x H; [discriminate|].
  cbn [existsb] in H. cbn [fold_left].
  destruct (rf_type f) eqn:Ef; cbn [orb] in H.
  all: try (pose proof (CreatorFacts.transparency_le fl (x - 15)); lia).
  all: match goal with |- fold_left _ _ ?y <= _ => specialize (IH y H) end; lia.
Qed.

Lemma count_all {A} (f : A -> bool) l : forallb f l = true -> count f l = Z.of_nat (List.length l).
Proof.
  intro H. unfold count. f_equal.
  induction l as [|x l IH]; [reflexivity|]. cbn [forallb] in H.
  apply andb_true_iff in H as [H1 H2]. cbn [filter]. rewrite H1. cbn. f_equal. auto.
Qed.

Lemma count_none {A} (f : A -> bool) l : forallb (fun x => negb (f x)) l = true -> count f l = 0.
Proof.
  intro H. unfold count.
  induction l as [|x l IH]; [reflexivity|]. cbn [forallb] in H.
  apply andb_true_iff in H as [H1 H2]. cbn [filter].
  destruct (f x); [discriminate|]. auto.
Qed.

End CreatorMore.

(** [CreatorAnalyzer._find_sibling_contracts]: every sibling comes from a
    contract-creation transaction of the deployer's history (empty [to],
    non-empty [contractAddress]) and carries that transaction's address,
    timestamp and hash, with no ISO date when the timestamp is 0; the
    excluded address never appears (compared in lower case), and there
    are never more siblings than transactions. *)
Theorem siblings_from_creations (p : Creator.Provider) (d x : string) :
  let sibs := fst (Creator._find_sibling_contracts p d x []) in
  let txs := Creator.p_transaction_history p d 10000 in
  Forall (fun s =>
    String.eqb (Py.lower (Creator.sib_address s)) (Py.lower x) = false /\
    exists tx, In tx txs /\ Creator.tx_to tx = "" /\
      Py.truthy (Creator.tx_contractAddress tx) = true /\
      Creator.sib_address s = Creator.tx_contractAddress tx /\
      Creator.sib_creation_ts s = Creator.tx_timeStamp tx /\
      Creator.sib_tx_hash s = Creator.tx_hash tx /\
      Creator.sib_creation_timestamp s =
        (if Creator.tx_timeStamp tx =? 0 then None else Some (Creator.tx_timeStamp tx))) sibs /\
  (List.length sibs <= List.length txs)%nat.
Proof.
  cbv zeta. unfold Creator._find_sibling_contracts, Creator.get_transaction_history,
    Creator.bind, Creator.emit, Creator.ret. cbn [fst].
  apply CreatorMore.siblings_of_spec.
Qed.

(** [CreatorAnalyzer._detect_funding_source_red_flags]: a deployer without
    any first transaction gets exactly the high-severity [no_history] flag;
    otherwise there are at most two flags, none of them [no_history], and a
    [mixer_funding] flag is present exactly when one of the first ten
    transactions was sent by a known mixer of the chain. *)
Theorem funding_flags_shape (p : Creator.Provider) (chain d : string) :
  let flags := fst (Creator._detect_funding_source_red_flags p chain d []) in
  let txs := Creator.p_first_transactions p d 10 in
  (txs = [] -> flags = [Creator.mkRedFlag Creator.no_history "high"]) /\
  (txs <> [] ->
   (List.length flags <= 2)%nat /\
   Forall (fun f => Creator.rf_type f <> Creator.no_history) flags /\
   existsb (fun f => match Creator.rf_type f with Creator.mixer_funding => true | _ => false end)
     flags =
   existsb (fun tx => match Creator.mixer_label chain (Creator.tx_from tx) with
                      | Some _ => true | None => false end) txs).
Proof.
  cbv zeta. unfold Creator._detect_funding_source_red_flags, Creator.get_first_transactions,
    Creator.bind, Creator.emit, Creator.ret. cbv beta.
  split; [intros ->; reflexivity|].
  intro Hne. destruct (Creator.p_first_transactions p d 10) as [|tx0 r]; [contradiction|].
  cbn [fst].
  destruct (existsb _ (tx0 :: r)) eqn:Em;
    destruct (Creator.tx_timeStamp tx0 =? 0), (Creator.p_now p - Creator.tx_timeStamp tx0 <? 86400),
      (Creator.p_now p - Creator.tx_timeStamp tx0 <? 7 * 86400); cbn;
    (split; [lia|split; [repeat constructor; discriminate|reflexivity]]).
Qed.

Lemma funding_flags_shape_witness :
  fst (Creator._detect_funding_source_red_flags Fixture.no_record "ethereum" "0xdeployer" []) =
  [Creator.mkRedFlag Creator.no_history "high"].
Proof.
  apply (proj1 (funding_flags_shape Fixture.no_record "ethereum" "0xdeployer")). reflexivity.
Defined.

(** Step 2 of [CreatorAnalyzer.analyze_creator] (factory indirection):
    a deployer without code is kept and not a factory; a deployer reported
    as a factory is the original one and has code; and when the deployer is
    replaced, the new one is the recorded creator of the original (which
    has code), has no code itself, and is not reported as a factory. *)
Theorem resolve_factory_outcome (p : Creator.Provider) (d0 d : string) (isf : bool) :
  fst (Creator.resolve_factory p d0 []) = (d, isf) ->
  (Py.len (Creator.p_contract_code p d0) <= 2 -> d = d0 /\ isf = false) /\
  (isf = true -> d = d0 /\ 2 < Py.len (Creator.p_contract_code p d0)) /\
  (d <> d0 ->
   isf = false /\ 2 < Py.len (Creator.p_contract_code p d0) /\
   (exists fc, Creator.p_contract_creator p d0 = Some fc /\ Creator.ci_deployer fc = d) /\
   Py.len (Creator.p_contract_code p d) <= 2).
Proof.
  unfold Creator.resolve_factory, Creator.get_contract_code, Creator.get_contract_creator,
    Creator.sleep, Creator.bind, Creator.emit, Creator.ret. cbv beta.
  destruct (Z.ltb_spec 2 (Py.len (Creator.p_contract_code p d0))) as [Hc|Hc].
  - destruct (Creator.p_contract_creator p d0) as [fc|] eqn:Ef.
    + destruct (Py.truthy (Creator.ci_deployer fc)).
      * destruct (Z.leb_spec (Py.len (Creator.p_contract_code p (Creator.ci_deployer fc))) 2)
          as [Hf|Hf]; cbn; intros H; injection H as <- <-.
        -- split; [lia|]. split; [discriminate|]. intros _.
           split; [reflexivity|]. split; [lia|]. split; [exists fc; auto|exact Hf].
        -- split; [lia|]. split; [auto|]. intros []; reflexivity.
      * cbn. intros H; injection H as <- <-.
        split; [lia|]. split; [auto|]. intros []; reflexivity.
    + cbn. intros H; injection H as <- <-.
      split; [lia|]. split; [auto|]. intros []; reflexivity.
  - cbn. intros H; injection H as <- <-.
    split; [auto|]. split; [discriminate|]. intros []; reflexivity.
Qed.

Lemma resolve_factory_outcome_witness :
  let p := Creator.mkProvider 0
             (fun a => if String.eqb a "0xfactory"
                       then Some (Creator.mkCreatorInfo "0xowner" "0xh") else None)
             (fun a => if String.eqb a "0xfactory" then "0x6080" else "0x")
             (fun _ _ => []) (fun _ => 0) (fun _ => 0) (fun _ _ => []) (fun _ => None) in
  fst (Creator.resolve_factory p "0xfactory" []) = ("0xowner", false) /\
  "0xowner" <> "0xfactory" /\
  Py.len (Creator.p_contract_code p "0xowner") <= 2.
Proof.
  cbv zeta.
  assert (H : fst (Creator.resolve_factory
             (Creator.mkProvider 0
                (fun a => if String.eqb a "0xfactory"
                          then Some (Creator.mkCreatorInfo "0xowner" "0xh") else None)
                (fun a => if String.eqb a "0xfactory" then "0x6080" else "0x")
                (fun _ _ => []) (fun _ => 0) (fun _ => 0) (fun _ _ => []) (fun _ => None))
             "0xfactory" []) = ("0xowner", false)) by reflexivity.
  split; [exact H|].
  assert (Hn : "0xowner" <> "0xfactory") by discriminate.
  split; [exact Hn|].
  apply (proj2 (proj2 (resolve_factory_outcome _ "0xfactory" "0xowner" false H)) Hn).
Defined.

(** [CreatorAnalyzer._calculate_creator_trust_score], component by
    component: a mixer-funding flag wipes out the funding-transparency
    score and a deployer with no red flag keeps all 15 points; a deployer
    without siblings gets the full 30 for deployment history, 15 for
    survival and 10 for behaviour; siblings that are all alive, none with a
    liquidity removal, earn the full 25 survival points. *)
Theorem trust_score_components (now : Z) (dep : Creator.Profile)
    (sibs : list Creator.CheckedSibling) (flags : list Creator.RedFlag) :
  let t := Creator._calculate_creator_trust_score now dep sibs flags in
  (existsb (fun f => match Creator.rf_type f with Creator.mixer_funding => true | _ => false end)
     flags = true -> Creator.funding_transparency_score t = 0) /\
  (flags = [] -> Creator.funding_transparency_score t = 15) /\
  (sibs = [] ->
   Creator.deployment_history_score t = 30 /\ Creator.sibling_survival_score t = 15 /\
   Creator.behavioral_patterns_score t = 10) /\
  (sibs <> [] ->
   forallb (fun s => Creator.is_alive (snd s) && negb (Creator.had_liquidity_removal (snd s)))
     sibs = true ->
   Creator.sibling_survival_score t = 25).
Proof.
  cbv zeta. unfold Creator._calculate_creator_trust_score.
  cbn [Creator.funding_transparency_score Creator.deployment_history_score
       Creator.sibling_survival_score Creator.behavioral_patterns_score].
  split; [|split; [|split]].
  - intro Hm. pose proof (CreatorMore.transparency_mixer flags 15 Hm). lia.
  - intros ->. reflexivity.
  - intros ->. cbn. repeat split.
  - intros Hne Ha.
    assert (Hal : Creator.count (fun s => Creator.is_alive (snd s)) sibs =
                  Z.of_nat (List.length sibs)).
    { apply CreatorMore.count_all. apply forallb_forall. intros s Hs.
      rewrite forallb_forall in Ha. specialize (Ha s Hs). apply andb_true_iff in Ha.
      apply Ha. }
    assert (Hlp : Creator.count (fun s => Creator.had_liquidity_removal (snd s)) sibs = 0).
    { apply CreatorMore.count_none. apply forallb_forall. intros s Hs.
      rewrite forallb_forall in Ha. specialize (Ha s Hs). apply andb_true_iff in Ha.
      apply Ha. }
    rewrite Hal, Hlp.
    assert (Hn : 0 < Z.of_nat (List.length sibs)) by (destruct sibs; [contradiction|cbn; lia]).
    destruct (Z.eqb_spec (Z.of_nat (List.length sibs)) 0) as [E|_]; [lia|].
    unfold Py.round_div.
    rewrite (Z.mul_comm (Z.of_nat (List.length sibs)) 25), Z.div_mul, Z.mod_mul by lia.
    destruct (Z.ltb_spec (2 * 0) (Z.of_nat (List.length sibs))); lia.
Qed.

Lemma trust_score_components_witness :
  Creator.sibling_survival_score
    (Creator._calculate_creator_trust_score 0
       (Creator.mkProfile "0xd" 400 None 0 10 (Creator.mkFunding "Unknown" "Unknown" false) false "")
       [(Creator.mkSibling "0xs" None 0 "0xh", Creator.mkHealth true true 0 None None false None)]
       [Creator.mkRedFlag Creator.mixer_funding "critical"]) = 25 /\
  Creator.funding_transparency_score
    (Creator._calculate_creator_trust_score 0
       (Creator.mkProfile "0xd" 400 None 0 10 (Creator.mkFunding "Unknown" "Unknown" false) false "")
       [(Creator.mkSibling "0xs" None 0 "0xh", Creator.mkHealth true true 0 None None false None)]
       [Creator.mkRedFlag Creator.mixer_funding "critical"]) = 0.
Proof.
  destruct (trust_score_components 0
       (Creator.mkProfile "0xd" 400 None 0 10 (Creator.mkFunding "Unknown" "Unknown" false) false "")
       [(Creator.mkSibling "0xs" None 0 "0xh", Creator.mkHealth true true 0 None None false None)]
       [Creator.mkRedFlag Creator.mixer_funding "critical"]) as [H1 [_ [_ H4]]].
  split; [apply H4; [discriminate|reflexivity] | apply H1; reflexivity].
Defined.

Module GraphMore.
Import Graph.

Lemma count_cons {A} (f : A -> bool) x l :
  Creator.count f (x :: l) = (if f x then 1 else 0) + Creator.count f l.
Proof. unfold Creator.count. cbn [filter]. destruct (f x); cbn [List.length]; lia. Qed.

Lemma bump_count k v t m :
  Creator.sum_z (map (fun e => count (snd e)) (bump k v t m)) =
  Creator.sum_z (map (fun e => count (snd e)) m) + 1.
Proof.
  induction m as [|[k' d] m IH]; cbn; [reflexivity|].
  destruct (key_eqb k k'); cbn; [lia|]. rewrite IH. lia.
Qed.

Lemma process_count t txs : forall m,
  Creator.sum_z (map (fun e => count (snd e)) (process t txs m)) =
  Creator.sum_z (map (fun e => count (snd e)) m) + Creator.count valid_tx txs.
Proof.
  unfold process. induction txs as [|tx r IH]; intro m; [cbn; lia|].
  cbn [fold_left]. rewrite IH, count_cons. unfold valid_tx.
  destruct (Py.truthy (Py.lower (g_from tx))), (Py.truthy (Py.lower (g_to tx)));
    cbn [negb orb andb]; rewrite ?bump_count; lia.
Qed.

Lemma key_eqb_eq k k' : key_eqb k k' = true <-> k = k'.
Proof.
  destruct k as [a b], k' as [a' b']. unfold key_eqb; cbn.
  rewrite andb_true_iff, !String.eqb_eq. split; [intros [-> ->]; reflexivity|].
  intro H; injection H as -> ->; auto.
Qed.

Lemma bump_keys k v t m :
  map fst (bump k v t m) =
  if existsb (key_eqb k) (map fst m) then map fst m else app (map fst m) [k].
Proof.
  induction m as [|[k' d] m IH]; [reflexivity|]. cbn [bump map existsb fst].
  destruct (key_eqb k k') eqn:E; cbn [map fst orb]; [reflexivity|].
  rewrite IH. destruct (existsb (key_eqb k) (map fst m)); reflexivity.
Qed.

Lemma bump_nodup k v t m : NoDup (map fst m) -> NoDup (map fst (bump k v t m)).
Proof.
  intro H. rewrite bump_keys.
  destruct (existsb (key_eqb k) (map fst m)) eqn:E; [exact H|].
  apply NoDup_app; [exact H|repeat constructor; auto|].
  intros x Hx [->|[]]. assert (existsb (key_eqb x) (map fst m) = true); [|congruence].
  apply existsb_exists. exists x. split; [exact Hx|]. apply key_eqb_eq. reflexivity.
Qed.

Lemma process_nodup t txs : forall m, NoDup (map fst m) -> NoDup (map fst (process t txs m)).
Proof.
  unfold process. induction txs as [|tx r IH]; intros m H; [exact H|].
  cbn [fold_left]. apply IH.
  destruct (negb _ || negb _); [exact H|]. apply bump_nodup. exact H.
Qed.

Lemma key_eqb_refl k : key_eqb k k = true.
Proof. apply key_eqb_eq. reflexivity. Qed.

Lemma key_eqb_sym k k' : key_eqb k k' = key_eqb k' k.
Proof.
  destruct (key_eqb k k') eqn:E, (key_eqb k' k) eqn:E'; try reflexivity.
  - apply key_eqb_eq in E. subst. rewrite key_eqb_refl in E'. discriminate.
  - apply key_eqb_eq in E'. subst. rewrite key_eqb_refl in E. discriminate.
Qed.

Lemma find_bump_count k2 k ov t m :
  match find (fun e => key_eqb k2 (fst e)) (bump k ov t m) with
  | Some e => count (snd e) | None => 0 end =
  match find (fun e => key_eqb k2 (fst e)) m with
  | Some e => count (snd e) | None => 0 end + (if key_eqb k k2 then 1 else 0).
Proof.
  induction m as [|[k' d] m IH]; cbn [bump find fst snd].
  - rewrite (key_eqb_sym k2 k). destruct (key_eqb k k2); cbn; reflexivity.
  - destruct (key_eqb k k') eqn:E; cbn [find fst snd].
    + apply key_eqb_eq in E. subst k'. rewrite (key_eqb_sym k2 k).
      destruct (key_eqb k k2); cbn [count snd]; lia.
    + destruct (key_eqb k2 k') eqn:E2; [|exact IH].
      apply key_eqb_eq in E2. subst k'. rewrite E. lia.
Qed.

Lemma find_bump_value k2 k ov t m :
  match find (fun e => key_eqb k2 (fst e)) (bump k ov t m) with
  | Some e => total_value (snd e) | None => F64.zero end =
  if key_eqb k k2 then
    add_value (match find (fun e => key_eqb k2 (fst e)) m with
               | Some e => total_value (snd e) | None => F64.zero end) ov
  else match find (fun e => key_eqb k2 (fst e)) m with
       | Some e => total_value (snd e) | None => F64.zero end.
Proof.
  induction m as [|[k' d] m IH]; cbn [bump find fst snd].
  - rewrite (key_eqb_sym k2 k). destruct (key_eqb k k2); reflexivity.
  - destruct (key_eqb k k') eqn:E; cbn [find fst snd].
    + apply key_eqb_eq in E. subst k'. rewrite (key_eqb_sym k2 k).
      destruct (key_eqb k k2); reflexivity.
    + destruct (key_eqb k2 k') eqn:E2; [|exact IH].
      apply key_eqb_eq in E2. subst k'. rewrite E. reflexivity.
Qed.

Lemma process_edge_count k t txs : forall m,
  match find (fun e => key_eqb k (fst e)) (process t txs m) with
  | Some e => count (snd e) | None => 0 end =
  match find (fun e => key_eqb k (fst e)) m with
  | Some e => count (snd e) | None => 0 end +
  Creator.count (fun tx => valid_tx tx &&
                   key_eqb (Py.lower (g_from tx), Py.lower (g_to tx)) k) txs.
Proof.
  unfold process. induction txs as [|tx r IH]; intro m; [cbn; lia|].
  cbn [fold_left]. rewrite IH, count_cons. unfold valid_tx.
  destruct (Py.truthy (Py.lower (g_from tx))), (Py.truthy (Py.lower (g_to tx)));
    cbn [negb orb andb]; rewrite ?find_bump_count;
    destruct (key_eqb (Py.lower (g_from tx), Py.lower (g_to tx)) k); lia.
Qed.

Lemma process_edge_value k t txs : forall m,
  match find (fun e => key_eqb k (fst e)) (process t txs m) with
  | Some e => total_value (snd e) | None => F64.zero end =
  match t with
  | token => match find (fun e => key_eqb k (fst e)) m with
             | Some e => total_value (snd e) | None => F64.zero end
  | _ => fold_left F64.add
           (map value_eth (filter (fun tx => valid_tx tx &&
                   key_eqb (Py.lower (g_from tx), Py.lower (g_to tx)) k) txs))
           (match find (fun e => key_eqb k (fst e)) m with
            | Some e => total_value (snd e) | None => F64.zero end)
  end.
Proof.
  unfold process. induction txs as [|tx r IH]; intro m; [destruct t; reflexivity|].
  cbn [fold_left filter]. rewrite IH. unfold valid_tx.
  destruct (Py.truthy (Py.lower (g_from tx))), (Py.truthy (Py.lower (g_to tx)));
    cbn [negb orb andb]; [|destruct t; reflexivity..].
  rewrite find_bump_value.
  destruct (key_eqb (Py.lower (g_from tx), Py.lower (g_to tx)) k); destruct t; reflexivity.
Qed.

Lemma find_in_nodup k d (m : EdgeMap) :
  NoDup (map fst m) -> In (k, d) m -> find (fun e => key_eqb k (fst e)) m = Some (k, d).
Proof.
  induction m as [|[k' d'] m IH]; intros Hn Hin; [destruct Hin|].
  inversion Hn as [|? ? Hnot Hn']; subst. cbn [find fst].
  destruct Hin as [E|Hin].
  - injection E as -> ->. rewrite key_eqb_refl. reflexivity.
  - destruct (key_eqb k k') eqn:E.
    + apply key_eqb_eq in E. subst k'. exfalso. apply Hnot.
      apply (in_map fst) in Hin. exact Hin.
    + apply IH; assumption.
Qed.

Lemma sum_values_filter (center : string) (incoming : bool) (txs : list GTx) :
  sum_values center incoming txs =
  fold_left F64.add
    (map value_eth (filter (fun tx => valid_tx tx &&
       String.eqb (if incoming then Py.lower (g_to tx) else Py.lower (g_from tx)) center) txs))
    F64.zero.
Proof.
  unfold sum_values. generalize F64.zero.
  induction txs as [|tx r IH]; intro acc; [reflexivity|].
  cbn [fold_left filter]. rewrite IH. cbv zeta.
  destruct (valid_tx tx && _); reflexivity.
Qed.

Lemma mem_in x l : mem x l = true <-> In x l.
Proof.
  unfold mem. rewrite existsb_exists. split.
  - intros [y [Hy E]]. apply String.eqb_eq in E. subst. exact Hy.
  - intro H. exists x. split; [exact H|apply String.eqb_refl].
Qed.

Lemma add_node_nodup x ns : NoDup ns -> NoDup (add_node x ns).
Proof.
  intro H. unfold add_node. destruct (mem x ns) eqn:E; [exact H|].
  apply NoDup_app; [exact H|repeat constructor; auto|].
  intros y Hy [->|[]]. apply (proj2 (mem_in y ns)) in Hy. congruence.
Qed.

Lemma add_edge_nodes_nodup m : forall ns, NoDup ns -> NoDup (fold_left add_edge_nodes m ns).
Proof.
  induction m as [|e m IH]; intros ns H; [exact H|].
  cbn [fold_left]. apply IH. unfold add_edge_nodes. apply add_node_nodup, add_node_nodup, H.
Qed.

Lemma fold_add_node_present l : forall ns, incl l ns ->
  fold_left (fun ns a => add_node a ns) l ns = ns.
Proof.
  induction l as [|a l IH]; intros ns H; [reflexivity|].
  cbn [fold_left]. unfold add_node at 2.
  rewrite (proj2 (mem_in a ns) (H a (or_introl eq_refl))).
  apply IH. intros y Hy. apply H. right. exact Hy.
Qed.

Lemma insert_desc_perm x l : Permutation (More.insert_desc x l) (x :: l).
Proof.
  induction l as [|y l IH]; cbn; [reflexivity|].
  destruct (More.cp_transaction_count y <? More.cp_transaction_count x); [reflexivity|].
  rewrite IH. apply perm_swap.
Qed.

Lemma sort_desc_perm_aux l : forall acc,
  Permutation (fold_left (fun acc x => More.insert_desc x acc) l acc) (app (rev l) acc).
Proof.
  induction l as [|x l IH]; intro acc; [reflexivity|].
  cbn [fold_left rev]. rewrite IH, insert_desc_perm, <- app_assoc. cbn [app].
  apply Permutation_app_head. reflexivity.
Qed.

Lemma sort_desc_perm l : Permutation (More.sort_desc l) l.
Proof.
  unfold More.sort_desc. rewrite sort_desc_perm_aux, app_nil_r.
  symmetry. apply Permutation_rev.
Qed.

Lemma insert_desc_sorted x l :
  Sorted (fun a b => More.cp_transaction_count b <= More.cp_transaction_count a) l ->
  Sorted (fun a b => More.cp_transaction_count b <= More.cp_transaction_count a)
    (More.insert_desc x l).
Proof.
  induction 1 as [|y l Hs IH Hhd]; cbn; [repeat constructor|].
  destruct (Z.ltb_spec (More.cp_transaction_count y) (More.cp_transaction_count x)).
  - constructor; [constructor; assumption|constructor; lia].
  - constructor; [exact IH|].
    destruct l as [|z l]; cbn; [constructor; lia|].
    inversion Hhd; subst.
    destruct (More.cp_transaction_count z <? More.cp_transaction_count x);
      constructor; lia.
Qed.

Lemma sort_desc_sorted l :
  Sorted (fun a b => More.cp_transaction_count b <= More.cp_transaction_count a)
    (More.sort_desc l).
Proof.
  unfold More.sort_desc.
  assert (H : forall acc,
    Sorted (fun a b => More.cp_transaction_count b <= More.cp_transaction_count a) acc ->
    Sorted (fun a b => More.cp_transaction_count b <= More.cp_transaction_count a)
      (fold_left (fun acc x => More.insert_desc x acc) l acc)).
  { induction l as [|x l IH]; intros acc Ha; [exact Ha|]. cbn [fold_left].
    apply IH, insert_desc_sorted, Ha. }
  apply H. constructor.
Qed.

Lemma sorted_firstn {A} (R : A -> A -> Prop) n l : Sorted R l -> Sorted R (firstn n l).
Proof.
  revert l; induction n as [|n IH]; intros l H; [constructor|].
  destruct l as [|x l]; [constructor|]. cbn [firstn].
  inversion H as [|? ? Hs Hh]; subst. constructor; [apply IH, Hs|].
  destruct l as [|y l]; destruct n; cbn; constructor.
  inversion Hh; assumption.
Qed.

End GraphMore.

Module GraphMore2.
Import Graph.

Lemma sum_zeros {A} (l : list A) : Creator.sum_z (map (fun _ => 0) l) = 0.
Proof. induction l as [|x l IH]; cbn; [reflexivity|]. rewrite IH. reflexivity. Qed.

Lemma in_firstn {A} (x : A) n l : In x (firstn n l) -> In x l.
Proof.
  intro H. rewrite <- (firstn_skipn n l). apply in_or_app. left. exact H.
Qed.

Lemma str_length_app s t :
  String.length (String.append s t) = (String.length s + String.length t)%nat.
Proof. induction s as [|c s IH]; cbn; [reflexivity|]. rewrite IH. reflexivity. Qed.

Lemma substring_length n m s :
  (n + m <= String.length s)%nat -> String.length (substring n m s) = m.
Proof.
  revert m s; induction n as [|n IH]; intros m s H.
  - revert s H; induction m as [|m IHm]; intros s H; [destruct s; reflexivity|].
    destruct s as [|c s]; cbn in H |- *; [lia|]. rewrite IHm; [reflexivity|lia].
  - destruct s as [|c s]; cbn in H |- *; [lia|]. destruct m; apply IH; lia.
Qed.

Lemma substring_split n m1 m2 s :
  substring n (m1 + m2) s = String.append (substring n m1 s) (substring (n + m1) m2 s).
Proof.
  revert s; induction n as [|n IH]; intro s.
  - revert s; induction m1 as [|m1 IHm]; intro s; [destruct s; reflexivity|].
    destruct s as [|c s]; [destruct m2; reflexivity|].
    cbn [Nat.add substring String.append]. rewrite IHm. reflexivity.
  - destruct s as [|c s]; [destruct m1, m2; reflexivity|]. cbn [Nat.add substring]. apply IH.
Qed.

Lemma substring_all s : substring 0 (String.length s) s = s.
Proof. induction s as [|c s IH]; [reflexivity|]. cbn. rewrite IH. reflexivity. Qed.

Lemma prefix_app s t : String.prefix s (String.append s t) = true.
Proof.
  induction s as [|c s IH]; [destruct t; reflexivity|]. cbn.
  destruct (ascii_dec c c) as [_|n]; [exact IH|contradiction].
Qed.

End GraphMore2.

(** [InteractionAnalyzer._build_graph] loses and invents nothing: the
    interaction counts on the edges add up to the number of transactions of
    the three streams that have both a sender and a recipient; the edge of
    a pair of (lower-cased) addresses counts exactly the transactions of
    that pair, and its value is the float sum, from [0.0] and in stream
    order, of the [value_eth] of the pair's normal and internal
    transactions (token transfers add no value); [total_value_in] and
    [total_value_out] are the float sums of the normal transactions into
    and out of the center, rounded to 6 decimals. *)
Theorem build_graph_conservation (bc : string) (cs : string -> string) (center : string)
    (n i tk : list Graph.GTx) :
  let r := Graph._build_graph bc cs center n i tk in
  Creator.sum_z (map (fun e => Graph.count (snd e)) (Graph.edges (fst r))) =
    Creator.count Graph.valid_tx n + Creator.count Graph.valid_tx i +
    Creator.count Graph.valid_tx tk /\
  (forall k d, In (k, d) (Graph.edges (fst r)) ->
     Graph.count d =
       Creator.count (fun tx => Graph.valid_tx tx &&
                        Graph.key_eqb (Py.lower (Graph.g_from tx), Py.lower (Graph.g_to tx)) k)
         (n ++ i ++ tk) /\
     Graph.total_value d =
       fold_left F64.add
         (map Graph.value_eth
            (filter (fun tx => Graph.valid_tx tx &&
                       Graph.key_eqb (Py.lower (Graph.g_from tx), Py.lower (Graph.g_to tx)) k)
               (n ++ i)))
         F64.zero) /\
  Graph.total_value_in (snd r) =
    F64.round (fold_left F64.add
                 (map Graph.value_eth
                    (filter (fun tx => Graph.valid_tx tx &&
                               String.eqb (Py.lower (Graph.g_to tx)) (Py.lower center)) n))
                 F64.zero) 6 /\
  Graph.total_value_out (snd r) =
    F64.round (fold_left F64.add
                 (map Graph.value_eth
                    (filter (fun tx => Graph.valid_tx tx &&
                               String.eqb (Py.lower (Graph.g_from tx)) (Py.lower center)) n))
                 F64.zero) 6.
Proof.
  cbv zeta. unfold Graph._build_graph. cbv zeta.
  cbn [fst snd Graph.edges Graph.total_value_in Graph.total_value_out].
  split; [|split; [|split]].
  - rewrite !GraphMore.process_count. cbn [map Creator.sum_z]. lia.
  - intros k d Hin.
    assert (Hf : find (fun e => Graph.key_eqb k (fst e))
                   (Graph.process Graph.token tk
                      (Graph.process Graph.internal i (Graph.process Graph.normal n []))) =
                 Some (k, d)).
    { apply GraphMore.find_in_nodup; [|exact Hin].
      apply GraphMore.process_nodup, GraphMore.process_nodup, GraphMore.process_nodup.
      constructor. }
    pose proof (GraphMore.process_edge_count k Graph.token tk
                  (Graph.process Graph.internal i (Graph.process Graph.normal n []))) as C3.
    pose proof (GraphMore.process_edge_count k Graph.internal i
                  (Graph.process Graph.normal n [])) as C2.
    pose proof (GraphMore.process_edge_count k Graph.normal n []) as C1.
    pose proof (GraphMore.process_edge_value k Graph.token tk
                  (Graph.process Graph.internal i (Graph.process Graph.normal n []))) as V3.
    pose proof (GraphMore.process_edge_value k Graph.internal i
                  (Graph.process Graph.normal n [])) as V2.
    pose proof (GraphMore.process_edge_value k Graph.normal n []) as V1.
    rewrite Hf in C3, V3. cbn [snd find] in C3, V3, C1, V1. rewrite V2, V1 in V3.
    rewrite C2, C1 in C3.
    split.
    + rewrite C3. unfold Creator.count. rewrite !filter_app, !length_app. lia.
    + rewrite V3, filter_app, map_app, fold_left_app. reflexivity.
  - rewrite GraphMore.sum_values_filter. reflexivity.
  - rewrite GraphMore.sum_values_filter. reflexivity.
Qed.

(** [build_graph_conservation] on one edge that carries 0.1 ETH and then
    0.2 ETH: its value is the float [0.30000000000000004], not [0.3]. *)
Lemma build_graph_conservation_witness :
  let r := Graph._build_graph "ethereum" (fun a => a) "0xc"
             [Graph.mkGTx "0xa" "0xb" (10 ^ 17); Graph.mkGTx "0xa" "0xb" (2 * 10 ^ 17)] [] [] in
  In (("0xa", "0xb"), Graph.mkEdge 2
        (F64.add (F64.add F64.zero (Graph.value_eth (Graph.mkGTx "0xa" "0xb" (10 ^ 17))))
                 (Graph.value_eth (Graph.mkGTx "0xa" "0xb" (2 * 10 ^ 17))))
        [Graph.normal]) (Graph.edges (fst r)) /\
  Fmt.repr (Graph.total_value (Graph.mkEdge 2
        (F64.add (F64.add F64.zero (Graph.value_eth (Graph.mkGTx "0xa" "0xb" (10 ^ 17))))
                 (Graph.value_eth (Graph.mkGTx "0xa" "0xb" (2 * 10 ^ 17))))
        [Graph.normal])) = "0.30000000000000004" /\
  Graph.total_value (Graph.mkEdge 2
        (F64.add (F64.add F64.zero (Graph.value_eth (Graph.mkGTx "0xa" "0xb" (10 ^ 17))))
                 (Graph.value_eth (Graph.mkGTx "0xa" "0xb" (2 * 10 ^ 17))))
        [Graph.normal]) =
  fold_left F64.add
    (map Graph.value_eth
       (filter (fun tx => Graph.valid_tx tx &&
                  Graph.key_eqb (Py.lower (Graph.g_from tx), Py.lower (Graph.g_to tx)) ("0xa", "0xb"))
          ([Graph.mkGTx "0xa" "0xb" (10 ^ 17); Graph.mkGTx "0xa" "0xb" (2 * 10 ^ 17)] ++ [])))
    F64.zero.
Proof.
  cbv zeta.
  assert (H : In (("0xa", "0xb"), Graph.mkEdge 2
        (F64.add (F64.add F64.zero (Graph.value_eth (Graph.mkGTx "0xa" "0xb" (10 ^ 17))))
                 (Graph.value_eth (Graph.mkGTx "0xa" "0xb" (2 * 10 ^ 17))))
        [Graph.normal])
      (Graph.edges (fst (Graph._build_graph "ethereum" (fun a => a) "0xc"
             [Graph.mkGTx "0xa" "0xb" (10 ^ 17); Graph.mkGTx "0xa" "0xb" (2 * 10 ^ 17)] [] [])))).
  { vm_compute. left. reflexivity. }
  split; [exact H|]. split; [vm_compute; reflexivity|].
  apply (proj2 (proj1 (proj2 (build_graph_conservation "ethereum" (fun a => a) "0xc"
           [Graph.mkGTx "0xa" "0xb" (10 ^ 17); Graph.mkGTx "0xa" "0xb" (2 * 10 ^ 17)] [] []))
           ("0xa", "0xb") _ H)).
Defined.

(** [InteractionAnalyzer._build_graph] keeps one edge per ordered pair of
    addresses and one node per address; [unique_addresses] is the number of
    nodes and [edge_count] the number of edges. *)
Theorem build_graph_no_duplicates (bc : string) (cs : string -> string) (center : string)
    (n i tk : list Graph.GTx) :
  let r := Graph._build_graph bc cs center n i tk in
  NoDup (map fst (Graph.edges (fst r))) /\ NoDup (Graph.nodes (fst r)) /\
  Graph.unique_addresses (snd r) = Z.of_nat (List.length (Graph.nodes (fst r))) /\
  Graph.edge_count (snd r) = Z.of_nat (List.length (Graph.edges (fst r))).
Proof.
  cbv zeta. unfold Graph._build_graph. cbv zeta.
  cbn [fst snd Graph.edges Graph.nodes Graph.unique_addresses Graph.edge_count].
  rewrite GraphMore.fold_add_node_present by apply incl_refl.
  split; [|split; [|split; reflexivity]].
  - apply GraphMore.process_nodup, GraphMore.process_nodup, GraphMore.process_nodup.
    constructor.
  - apply GraphMore.add_edge_nodes_nodup. constructor.
Qed.

(** [InteractionAnalyzer._get_top_counterparties]: an address that is not
    in the graph has no counterparties; otherwise the result lists
    [min(limit, number of edges)] counterparties in non-increasing order of
    interaction count, each one the other end of an edge into (or out of)
    the address, with that edge's count and its value rounded to 6
    decimals. *)
Theorem top_counterparties_shape (bc : string) (cs : string -> string) (g : Graph.DiGraph)
    (center : string) (dir : More.Direction) (limit : nat) :
  let res := More._get_top_counterparties bc cs g center dir limit in
  (Graph.mem center (Graph.nodes g) = false -> res = []) /\
  Sorted (fun a b => More.cp_transaction_count b <= More.cp_transaction_count a) res /\
  (Graph.mem center (Graph.nodes g) = true ->
   List.length res =
     Nat.min limit (List.length (match dir with
                                 | More.dir_in => Graph.in_edges g center
                                 | More.dir_out => Graph.out_edges g center end))) /\
  (forall c, In c res ->
   exists e, In e (Graph.edges g) /\
     fst e = match dir with
             | More.dir_in => (More.cp_address c, center)
             | More.dir_out => (center, More.cp_address c) end /\
     More.cp_transaction_count c = Graph.count (snd e) /\
     More.cp_total_value c = F64.round (Graph.total_value (snd e)) 6).
Proof.
  cbv zeta. unfold More._get_top_counterparties. cbv zeta.
  split; [|split; [|split]].
  - intros ->. destruct limit; reflexivity.
  - apply GraphMore.sorted_firstn, GraphMore.sort_desc_sorted.
  - intros ->. rewrite length_firstn, (Permutation_length (GraphMore.sort_desc_perm _)),
      length_map. reflexivity.
  - intros c Hc. apply GraphMore2.in_firstn in Hc.
    apply (Permutation_in _ (GraphMore.sort_desc_perm _)) in Hc.
    apply in_map_iff in Hc as [e [<- He]].
    destruct (Graph.mem center (Graph.nodes g)); [|destruct He].
    exists e. unfold Graph.in_edges, Graph.out_edges in He.
    destruct dir; apply filter_In in He as [He Hk]; apply String.eqb_eq in Hk;
      cbn [More.cp_address More.cp_transaction_count More.cp_total_value];
      (split; [exact He|split; [|split; reflexivity]]);
      destruct e as [[u v] d]; cbn in Hk |- *; subst; reflexivity.
Qed.

Lemma top_counterparties_shape_witness :
  let g := Graph.mkDiGraph ["0xa"; "0xc"]
             [(("0xa", "0xc"), Graph.mkEdge 3 F64.zero [Graph.normal])] [] in
  Graph.mem "0xc" (Graph.nodes g) = true /\
  List.length (More._get_top_counterparties "ethereum" (fun a => a) g "0xc" More.dir_in 5) = 1%nat.
Proof.
  cbv zeta. split; [reflexivity|].
  rewrite (proj1 (proj2 (proj2 (top_counterparties_shape "ethereum" (fun a => a)
     (Graph.mkDiGraph ["0xa"; "0xc"] [(("0xa", "0xc"), Graph.mkEdge 3 F64.zero [Graph.normal])] [])
     "0xc" More.dir_in 5))) eq_refl).
  reflexivity.
Defined.

(** [InteractionAnalyzer._detect_patterns]: a graph with fewer than two
    nodes has no pattern; otherwise each of the five kinds is reported at
    most once (so at most five patterns), and a graph that contains the null
    or the dead address always reports burn activity. *)
Theorem detect_patterns_shape (bc : string) (cs : string -> string) (g : Graph.DiGraph)
    (center : string) :
  let ps := Graph._detect_patterns bc cs g center in
  ((List.length (Graph.nodes g) < 2)%nat -> ps = []) /\
  NoDup (map Graph.p_type ps) /\ (List.length ps <= 5)%nat /\
  ((2 <= List.length (Graph.nodes g))%nat ->
   Graph.mem Graph.null_addr (Graph.nodes g) || Graph.mem Graph.dead_addr (Graph.nodes g) = true ->
   In (Graph.mkPattern Graph.burn_activity "info") ps).
Proof.
  cbv zeta. unfold Graph._detect_patterns.
  split; [|split; [|split]].
  - intro H. apply Nat.ltb_lt in H. rewrite H. reflexivity.
  - destruct (List.length (Graph.nodes g) <? 2)%nat; [constructor|].
    cbv zeta.
    repeat match goal with
           | |- context [if ?b then _ else _] => destruct b
           | |- context [match ?l with [] => _ | _ :: _ => _ end] => destruct l
           end;
      cbn; repeat constructor; cbn; intuition discriminate.
  - destruct (List.length (Graph.nodes g) <? 2)%nat; [cbn; lia|].
    cbv zeta.
    repeat match goal with
           | |- context [if ?b then _ else _] => destruct b
           | |- context [match ?l with [] => _ | _ :: _ => _ end] => destruct l
           end; cbn; lia.
  - intros H Hb. apply Nat.ltb_ge in H. rewrite H. cbv zeta. rewrite Hb.
    apply in_or_app; right; apply in_or_app; right; apply in_or_app; right;
      apply in_or_app; right. now left.
Qed.

Lemma detect_patterns_shape_witness :
  let g := Graph.mkDiGraph ["0xc"; Graph.dead_addr]
             [(("0xc", Graph.dead_addr), Graph.mkEdge 1 F64.zero [Graph.normal])] [] in
  (2 <= List.length (Graph.nodes g))%nat /\
  In (Graph.mkPattern Graph.burn_activity "info") (Graph._detect_patterns "ethereum" (fun a => a) g "0xc").
Proof.
  cbv zeta. split; [cbn; lia|].
  apply (proj2 (proj2 (proj2 (detect_patterns_shape "ethereum" (fun a => a)
     (Graph.mkDiGraph ["0xc"; Graph.dead_addr]
        [(("0xc", Graph.dead_addr), Graph.mkEdge 1 F64.zero [Graph.normal])] []) "0xc"))));
    [cbn; lia | reflexivity].
Defined.

(** [shorten_address]: an address longer than 10 characters splits as its
    first six characters, a middle part and its last four characters, and
    is shortened to the first six, ["..."] and the last four (13 characters
    in all); a shorter one is returned unchanged. *)
Theorem shorten_address_shape (a : string) :
  (10 < Py.len a ->
   exists mid last4,
     a = String.append (substring 0 6 a) (String.append mid last4) /\
     String.length (substring 0 6 a) = 6%nat /\
     String.length last4 = 4%nat /\
     More.shorten_address a = String.append (substring 0 6 a) (String.append "..." last4) /\
     String.length (More.shorten_address a) = 13%nat /\
     String.prefix (substring 0 6 a) (More.shorten_address a) = true) /\
  (Py.len a <= 10 -> More.shorten_address a = a).
Proof.
  unfold More.shorten_address, Py.len. split.
  - intro H. rewrite (proj2 (Z.ltb_lt _ _) H).
    exists (substring 6 (String.length a - 10) a), (substring (String.length a - 4) 4 a).
    split; [|split; [|split; [|split; [|split]]]].
    + replace (String.length a - 4)%nat with (6 + (String.length a - 10))%nat by lia.
      rewrite <- (GraphMore2.substring_split 6 (String.length a - 10) 4 a).
      pose proof (GraphMore2.substring_split 0 6 (String.length a - 10 + 4) a) as E.
      change (0 + 6)%nat with 6%nat in E. rewrite <- E. clear E.
      replace (6 + (String.length a - 10 + 4))%nat with (String.length a) by lia.
      symmetry. apply GraphMore2.substring_all.
    + apply GraphMore2.substring_length. lia.
    + apply GraphMore2.substring_length. lia.
    + reflexivity.
    + rewrite !GraphMore2.str_length_app, !GraphMore2.substring_length by lia. reflexivity.
    + apply GraphMore2.prefix_app.
  - intro H. destruct (Z.ltb_spec 10 (Z.of_nat (String.length a))); [lia|reflexivity].
Qed.

Lemma shorten_address_shape_witness :
  10 < Py.len "0x7a250d5630b4cf539739df2c5dacb4c659f2488d" /\
  More.shorten_address "0x7a250d5630b4cf539739df2c5dacb4c659f2488d" = "0x7a25...488d" /\
  exists mid last4,
     "0x7a250d5630b4cf539739df2c5dacb4c659f2488d" =
       String.append (substring 0 6 "0x7a250d5630b4cf539739df2c5dacb4c659f2488d")
         (String.append mid last4) /\
     String.length (substring 0 6 "0x7a250d5630b4cf539739df2c5dacb4c659f2488d") = 6%nat /\
     String.length last4 = 4%nat /\
     More.shorten_address "0x7a250d5630b4cf539739df2c5dacb4c659f2488d" =
       String.append (substring 0 6 "0x7a250d5630b4cf539739df2c5dacb4c659f2488d")
         (String.append "..." last4) /\
     String.length (More.shorten_address "0x7a250d5630b4cf539739df2c5dacb4c659f2488d") = 13%nat /\
     String.prefix (substring 0 6 "0x7a250d5630b4cf539739df2c5dacb4c659f2488d")
       (More.shorten_address "0x7a250d5630b4cf539739df2c5dacb4c659f2488d") = true.
Proof.
  split; [reflexivity|]. split; [reflexivity|].
  apply (proj1 (shorten_address_shape "0x7a250d5630b4cf539739df2c5dacb4c659f2488d")).
  reflexivity.
Defined.
